(** * Open vSwitch datapath: the action execution engine (datapath/actions.c)

    A shallow embedding of [datapath/actions.c]: the per-CPU deferred-action
    FIFO, the loop-depth guard, the header mutators with their checksum
    corrections, and the action executor.

    Conventions of the embedding.
    - C integers are [Z]; where the C type wraps, the wrap is written out.
    - The host is big-endian, so [htons]/[ntohs]/[htonl]/[ntohl] are the
      identity and a [__be16]/[__be32] is the number its bytes spell.
    - A packet buffer ([struct sk_buff]) is a record; its payload is the list
      of bytes from [skb->data], which points at the MAC header on entry to
      the executor and after every mutator.  Header offsets are relative to
      [skb->data].
    - Per-CPU state, the allocator, the random source and every call that
      leaves this file (sending, freeing, upcalls) live in a state monad;
      calls that leave the file are recorded in a trace.
    - Rate-limited logging ([net_ratelimit]/[pr_warn]) is not modelled. *)

From Stdlib Require Import ZArith List Bool Lia.
Import ListNotations.
Open Scope Z_scope.

(** ** Machine integers *)

Definition u8 (x : Z) : Z := x mod 256.
Definition u16 (x : Z) : Z := x mod 65536.
Definition u32 (x : Z) : Z := x mod 4294967296.
(** [~x] on a 16-bit and on a 32-bit unsigned value. *)
Definition not16 (x : Z) : Z := 65535 - u16 x.
Definition not32 (x : Z) : Z := 4294967295 - u32 x.
(** An [u32] stored into an [int]. *)
Definition int_of_u32 (x : Z) : Z :=
  if u32 x <? 2147483648 then u32 x else u32 x - 4294967296.
(** An [int] converted to [size_t] for an unsigned comparison. *)
Definition size_t_of_int (x : Z) : Z := x mod 18446744073709551616.

(** ** errno and protocol constants *)

Definition ENOMEM : Z := 12.
Definition ELOOP : Z := 40.

Definition ETH_ALEN : Z := 6.
Definition ETH_HLEN : Z := 14.
Definition VLAN_HLEN : Z := 4.
Definition VLAN_ETH_HLEN : Z := 18.
Definition MPLS_HLEN : Z := 4.
Definition ETH_P_8021Q : Z := 33024.       (* 0x8100 *)
Definition ETH_P_MPLS_UC : Z := 34887.     (* 0x8847 *)
Definition ETH_P_MPLS_MC : Z := 34888.     (* 0x8848 *)
Definition ETH_P_802_3_MIN : Z := 1536.    (* 0x0600 *)
Definition ETH_P_802_3 : Z := 1.
Definition ETH_P_802_2 : Z := 4.
Definition VLAN_TAG_PRESENT : Z := 4096.   (* 0x1000 *)
Definition IPPROTO_TCP : Z := 6.
Definition IPPROTO_UDP : Z := 17.
Definition NEXTHDR_HOP : Z := 0.
Definition NEXTHDR_TCP : Z := 6.
Definition NEXTHDR_UDP : Z := 17.
Definition NEXTHDR_ROUTING : Z := 43.
Definition NEXTHDR_FRAGMENT : Z := 44.
Definition NEXTHDR_AUTH : Z := 51.
Definition NEXTHDR_ICMP : Z := 58.
Definition NEXTHDR_NONE : Z := 59.
Definition NEXTHDR_DEST : Z := 60.
Definition OVS_IP6T_FH_F_SKIP_RH : Z := 2.
Definition IPV6_FLOWINFO_FLOWLABEL : Z := 1048575.  (* 0x000FFFFF *)
Definition CSUM_MANGLED_0 : Z := 65535.    (* (__sum16)0xffff *)
Definition OVS_PACKET_CMD_ACTION : Z := 2.

Definition sizeof_iphdr : Z := 20.
Definition sizeof_ipv6hdr : Z := 40.
Definition sizeof_tcphdr : Z := 20.
Definition sizeof_udphdr : Z := 8.
Definition sizeof_icmp6hdr : Z := 8.
Definition sizeof_sctphdr : Z := 12.

(** ** Byte buffers *)

Definition byte_at (d : list Z) (off : Z) : Z := nth (Z.to_nat off) d 0.

Definition bytes_at (d : list Z) (off len : Z) : list Z :=
  firstn (Z.to_nat len) (skipn (Z.to_nat off) d).

(** Overwrite [length bs] bytes of [d] from offset [off]. *)
Definition put_bytes (d : list Z) (off : Z) (bs : list Z) : list Z :=
  firstn (Z.to_nat off) d ++ bs ++ skipn (Z.to_nat off + length bs) d.

Definition be16_bytes (v : Z) : list Z := [u8 (v / 256); u8 v].
Definition be32_bytes (v : Z) : list Z :=
  be16_bytes (v / 65536) ++ be16_bytes v.

Definition get_u8 (d : list Z) (off : Z) : Z := byte_at d off.
Definition get_be16 (d : list Z) (off : Z) : Z :=
  byte_at d off * 256 + byte_at d (off + 1).
Definition get_be32 (d : list Z) (off : Z) : Z :=
  get_be16 d off * 65536 + get_be16 d (off + 2).

Definition put_u8 (d : list Z) (off v : Z) : list Z := put_bytes d off [u8 v].
Definition put_be16 (d : list Z) (off v : Z) : list Z :=
  put_bytes d off (be16_bytes v).
Definition put_be32 (d : list Z) (off v : Z) : list Z :=
  put_bytes d off (be32_bytes v).

(** An IPv6 address: [__be32 addr[4]]. *)
Definition in6_words : Type := (Z * Z * Z * Z)%type.

Definition in6_eqb (a b : in6_words) : bool :=
  let '(a0, a1, a2, a3) := a in
  let '(b0, b1, b2, b3) := b in
  (a0 =? b0) && (a1 =? b1) && (a2 =? b2) && (a3 =? b3).

Definition get_in6 (d : list Z) (off : Z) : in6_words :=
  (get_be32 d off, get_be32 d (off + 4), get_be32 d (off + 8),
   get_be32 d (off + 12)).

Definition in6_bytes (a : in6_words) : list Z :=
  let '(a0, a1, a2, a3) := a in
  be32_bytes a0 ++ be32_bytes a1 ++ be32_bytes a2 ++ be32_bytes a3.

Definition put_in6 (d : list Z) (off : Z) (a : in6_words) : list Z :=
  put_bytes d off (in6_bytes a).

(** ** Internet checksum helpers (include/net/checksum.h, lib/checksum.c,
    net/core/utils.c), in their generic C versions *)

Module Csum.

(** [from32to16]: fold a 32-bit accumulator to 16 bits, twice. *)
Definition from32to16 (x : Z) : Z :=
  let x := Z.land x 65535 + Z.shiftr x 16 in
  Z.land x 65535 + Z.shiftr x 16.

(** The plain sum of the 16-bit big-endian words of a buffer; a trailing odd
    byte is the high byte of a last word. *)
Fixpoint sum16 (bs : list Z) : Z :=
  match bs with
  | hi :: lo :: rest => hi * 256 + lo + sum16 rest
  | [hi] => hi * 256
  | [] => 0
  end.

(** [do_csum]: the end-around-carry sum of the buffer's 16-bit words, folded
    to 16 bits (exact for the buffers of at most 65536 words met here). *)
Definition do_csum (bs : list Z) : Z := from32to16 (sum16 bs).

(** [csum_partial(buff, len, wsum)]: add the old sum in, and carry. *)
Definition csum_partial (bs : list Z) (wsum : Z) : Z :=
  let result := u32 (do_csum bs + wsum) in
  if result <? u32 wsum then u32 (result + 1) else result.

Definition csum_add (csum addend : Z) : Z :=
  let res := u32 (csum + addend) in
  u32 (res + (if res <? u32 addend then 1 else 0)).

Definition csum_sub (csum addend : Z) : Z := csum_add csum (not32 addend).

Definition csum_fold (csum : Z) : Z :=
  let sum := u32 csum in
  let sum := Z.land sum 65535 + Z.shiftr sum 16 in
  let sum := Z.land sum 65535 + Z.shiftr sum 16 in
  not16 sum.

Definition csum_unfold (n : Z) : Z := n.

(** [__be32 diff[] = { ~from, to }] as bytes. *)
Definition diff4 (from to : Z) : list Z :=
  be32_bytes (not32 from) ++ be32_bytes to.

Definition diff16 (from to : in6_words) : list Z :=
  let '(f0, f1, f2, f3) := from in
  in6_bytes (not32 f0, not32 f1, not32 f2, not32 f3) ++ in6_bytes to.

Definition csum_replace4 (sum from to : Z) : Z :=
  csum_fold (csum_partial (diff4 from to) (not32 (csum_unfold sum))).

Definition csum_replace2 (sum from to : Z) : Z := csum_replace4 sum from to.

End Csum.

(** ** Packets ([struct sk_buff]) *)

Inductive ip_summed_t : Type :=
| CHECKSUM_NONE
| CHECKSUM_UNNECESSARY
| CHECKSUM_COMPLETE
| CHECKSUM_PARTIAL.

Definition ip_summed_eqb (a b : ip_summed_t) : bool :=
  match a, b with
  | CHECKSUM_NONE, CHECKSUM_NONE
  | CHECKSUM_UNNECESSARY, CHECKSUM_UNNECESSARY
  | CHECKSUM_COMPLETE, CHECKSUM_COMPLETE
  | CHECKSUM_PARTIAL, CHECKSUM_PARTIAL => true
  | _, _ => false
  end.

(** The fields of [struct sk_buff] (and of its [OVS_CB]) that actions.c reads
    or writes.  [skb_id] names the buffer head: a clone gets a fresh one.
    [rxhash] is [None] once [skb_clear_hash] has run. *)
Record sk_buff : Type := mk_skb {
  skb_id : nat;
  data : list Z;
  mac_len : Z;
  network_header : Z;
  transport_header : Z;
  ip_summed : ip_summed_t;
  csum : Z;
  protocol : Z;
  inner_protocol : Z;
  vlan_proto : Z;
  vlan_tci : Z;
  priority : Z;
  mark : Z;
  rxhash : option Z;
  egress_tun_info : option Z
}.

Definition skb_len (skb : sk_buff) : Z := Z.of_nat (length (data skb)).
Definition skb_network_offset (skb : sk_buff) : Z := network_header skb.
Definition skb_transport_offset (skb : sk_buff) : Z := transport_header skb.

Definition with_id (skb : sk_buff) (i : nat) : sk_buff :=
  mk_skb i (data skb) (mac_len skb) (network_header skb)
    (transport_header skb) (ip_summed skb) (csum skb) (protocol skb)
    (inner_protocol skb) (vlan_proto skb) (vlan_tci skb) (priority skb)
    (mark skb) (rxhash skb) (egress_tun_info skb).
Definition with_data (skb : sk_buff) (d : list Z) : sk_buff :=
  mk_skb (skb_id skb) d (mac_len skb) (network_header skb)
    (transport_header skb) (ip_summed skb) (csum skb) (protocol skb)
    (inner_protocol skb) (vlan_proto skb) (vlan_tci skb) (priority skb)
    (mark skb) (rxhash skb) (egress_tun_info skb).
Definition with_mac_len (skb : sk_buff) (v : Z) : sk_buff :=
  mk_skb (skb_id skb) (data skb) v (network_header skb)
    (transport_header skb) (ip_summed skb) (csum skb) (protocol skb)
    (inner_protocol skb) (vlan_proto skb) (vlan_tci skb) (priority skb)
    (mark skb) (rxhash skb) (egress_tun_info skb).
(** [skb_push]/[__skb_pull] move [skb->data]; the header offsets, kept
    relative to it, move the other way. *)
Definition shift_headers (skb : sk_buff) (by_ : Z) : sk_buff :=
  mk_skb (skb_id skb) (data skb) (mac_len skb) (network_header skb + by_)
    (transport_header skb + by_) (ip_summed skb) (csum skb) (protocol skb)
    (inner_protocol skb) (vlan_proto skb) (vlan_tci skb) (priority skb)
    (mark skb) (rxhash skb) (egress_tun_info skb).
Definition with_csum (skb : sk_buff) (v : Z) : sk_buff :=
  mk_skb (skb_id skb) (data skb) (mac_len skb) (network_header skb)
    (transport_header skb) (ip_summed skb) v (protocol skb)
    (inner_protocol skb) (vlan_proto skb) (vlan_tci skb) (priority skb)
    (mark skb) (rxhash skb) (egress_tun_info skb).
Definition with_protocol (skb : sk_buff) (v : Z) : sk_buff :=
  mk_skb (skb_id skb) (data skb) (mac_len skb) (network_header skb)
    (transport_header skb) (ip_summed skb) (csum skb) v
    (inner_protocol skb) (vlan_proto skb) (vlan_tci skb) (priority skb)
    (mark skb) (rxhash skb) (egress_tun_info skb).
Definition with_inner_protocol (skb : sk_buff) (v : Z) : sk_buff :=
  mk_skb (skb_id skb) (data skb) (mac_len skb) (network_header skb)
    (transport_header skb) (ip_summed skb) (csum skb) (protocol skb)
    v (vlan_proto skb) (vlan_tci skb) (priority skb)
    (mark skb) (rxhash skb) (egress_tun_info skb).
Definition with_vlan (skb : sk_buff) (proto tci : Z) : sk_buff :=
  mk_skb (skb_id skb) (data skb) (mac_len skb) (network_header skb)
    (transport_header skb) (ip_summed skb) (csum skb) (protocol skb)
    (inner_protocol skb) proto tci (priority skb)
    (mark skb) (rxhash skb) (egress_tun_info skb).
Definition with_priority (skb : sk_buff) (v : Z) : sk_buff :=
  mk_skb (skb_id skb) (data skb) (mac_len skb) (network_header skb)
    (transport_header skb) (ip_summed skb) (csum skb) (protocol skb)
    (inner_protocol skb) (vlan_proto skb) (vlan_tci skb) v
    (mark skb) (rxhash skb) (egress_tun_info skb).
Definition with_mark (skb : sk_buff) (v : Z) : sk_buff :=
  mk_skb (skb_id skb) (data skb) (mac_len skb) (network_header skb)
    (transport_header skb) (ip_summed skb) (csum skb) (protocol skb)
    (inner_protocol skb) (vlan_proto skb) (vlan_tci skb) (priority skb)
    v (rxhash skb) (egress_tun_info skb).
Definition with_rxhash (skb : sk_buff) (v : option Z) : sk_buff :=
  mk_skb (skb_id skb) (data skb) (mac_len skb) (network_header skb)
    (transport_header skb) (ip_summed skb) (csum skb) (protocol skb)
    (inner_protocol skb) (vlan_proto skb) (vlan_tci skb) (priority skb)
    (mark skb) v (egress_tun_info skb).
Definition with_egress_tun_info (skb : sk_buff) (v : option Z) : sk_buff :=
  mk_skb (skb_id skb) (data skb) (mac_len skb) (network_header skb)
    (transport_header skb) (ip_summed skb) (csum skb) (protocol skb)
    (inner_protocol skb) (vlan_proto skb) (vlan_tci skb) (priority skb)
    (mark skb) (rxhash skb) v.

Definition skb_clear_hash (skb : sk_buff) : sk_buff := with_rxhash skb None.

(** ** Flow keys ([struct sw_flow_key]) *)

Record sw_flow_key : Type := mk_key {
  phy_priority : Z;
  phy_skb_mark : Z;
  ovs_flow_hash : Z;
  recirc_id : Z;
  eth_src : list Z;
  eth_dst : list Z;
  eth_tci : Z;
  eth_type : Z;
  mpls_top_lse : Z;
  ip_tos : Z;
  ip_ttl : Z;
  tp_src : Z;
  tp_dst : Z;
  ipv4_addr_src : Z;
  ipv4_addr_dst : Z;
  ipv6_addr_src : in6_words;
  ipv6_addr_dst : in6_words;
  ipv6_label : Z
}.

Definition key_with_phy (k : sw_flow_key) (prio mk : Z) : sw_flow_key :=
  mk_key prio mk (ovs_flow_hash k) (recirc_id k) (eth_src k) (eth_dst k)
    (eth_tci k) (eth_type k) (mpls_top_lse k) (ip_tos k) (ip_ttl k)
    (tp_src k) (tp_dst k) (ipv4_addr_src k) (ipv4_addr_dst k)
    (ipv6_addr_src k) (ipv6_addr_dst k) (ipv6_label k).
Definition key_with_flow_hash (k : sw_flow_key) (h : Z) : sw_flow_key :=
  mk_key (phy_priority k) (phy_skb_mark k) h (recirc_id k) (eth_src k)
    (eth_dst k) (eth_tci k) (eth_type k) (mpls_top_lse k) (ip_tos k)
    (ip_ttl k) (tp_src k) (tp_dst k) (ipv4_addr_src k) (ipv4_addr_dst k)
    (ipv6_addr_src k) (ipv6_addr_dst k) (ipv6_label k).
Definition key_with_recirc_id (k : sw_flow_key) (r : Z) : sw_flow_key :=
  mk_key (phy_priority k) (phy_skb_mark k) (ovs_flow_hash k) r (eth_src k)
    (eth_dst k) (eth_tci k) (eth_type k) (mpls_top_lse k) (ip_tos k)
    (ip_ttl k) (tp_src k) (tp_dst k) (ipv4_addr_src k) (ipv4_addr_dst k)
    (ipv6_addr_src k) (ipv6_addr_dst k) (ipv6_label k).
Definition key_with_eth_addrs (k : sw_flow_key) (s d : list Z) : sw_flow_key :=
  mk_key (phy_priority k) (phy_skb_mark k) (ovs_flow_hash k) (recirc_id k)
    s d (eth_tci k) (eth_type k) (mpls_top_lse k) (ip_tos k)
    (ip_ttl k) (tp_src k) (tp_dst k) (ipv4_addr_src k) (ipv4_addr_dst k)
    (ipv6_addr_src k) (ipv6_addr_dst k) (ipv6_label k).
Definition key_with_eth_tci (k : sw_flow_key) (v : Z) : sw_flow_key :=
  mk_key (phy_priority k) (phy_skb_mark k) (ovs_flow_hash k) (recirc_id k)
    (eth_src k) (eth_dst k) v (eth_type k) (mpls_top_lse k) (ip_tos k)
    (ip_ttl k) (tp_src k) (tp_dst k) (ipv4_addr_src k) (ipv4_addr_dst k)
    (ipv6_addr_src k) (ipv6_addr_dst k) (ipv6_label k).
Definition key_with_eth_type (k : sw_flow_key) (v : Z) : sw_flow_key :=
  mk_key (phy_priority k) (phy_skb_mark k) (ovs_flow_hash k) (recirc_id k)
    (eth_src k) (eth_dst k) (eth_tci k) v (mpls_top_lse k) (ip_tos k)
    (ip_ttl k) (tp_src k) (tp_dst k) (ipv4_addr_src k) (ipv4_addr_dst k)
    (ipv6_addr_src k) (ipv6_addr_dst k) (ipv6_label k).
Definition key_with_mpls_top_lse (k : sw_flow_key) (v : Z) : sw_flow_key :=
  mk_key (phy_priority k) (phy_skb_mark k) (ovs_flow_hash k) (recirc_id k)
    (eth_src k) (eth_dst k) (eth_tci k) (eth_type k) v (ip_tos k)
    (ip_ttl k) (tp_src k) (tp_dst k) (ipv4_addr_src k) (ipv4_addr_dst k)
    (ipv6_addr_src k) (ipv6_addr_dst k) (ipv6_label k).
Definition key_with_ip_tos (k : sw_flow_key) (v : Z) : sw_flow_key :=
  mk_key (phy_priority k) (phy_skb_mark k) (ovs_flow_hash k) (recirc_id k)
    (eth_src k) (eth_dst k) (eth_tci k) (eth_type k) (mpls_top_lse k) v
    (ip_ttl k) (tp_src k) (tp_dst k) (ipv4_addr_src k) (ipv4_addr_dst k)
    (ipv6_addr_src k) (ipv6_addr_dst k) (ipv6_label k).
Definition key_with_ip_ttl (k : sw_flow_key) (v : Z) : sw_flow_key :=
  mk_key (phy_priority k) (phy_skb_mark k) (ovs_flow_hash k) (recirc_id k)
    (eth_src k) (eth_dst k) (eth_tci k) (eth_type k) (mpls_top_lse k)
    (ip_tos k) v (tp_src k) (tp_dst k) (ipv4_addr_src k) (ipv4_addr_dst k)
    (ipv6_addr_src k) (ipv6_addr_dst k) (ipv6_label k).
Definition key_with_tp_src (k : sw_flow_key) (v : Z) : sw_flow_key :=
  mk_key (phy_priority k) (phy_skb_mark k) (ovs_flow_hash k) (recirc_id k)
    (eth_src k) (eth_dst k) (eth_tci k) (eth_type k) (mpls_top_lse k)
    (ip_tos k) (ip_ttl k) v (tp_dst k) (ipv4_addr_src k) (ipv4_addr_dst k)
    (ipv6_addr_src k) (ipv6_addr_dst k) (ipv6_label k).
Definition key_with_tp_dst (k : sw_flow_key) (v : Z) : sw_flow_key :=
  mk_key (phy_priority k) (phy_skb_mark k) (ovs_flow_hash k) (recirc_id k)
    (eth_src k) (eth_dst k) (eth_tci k) (eth_type k) (mpls_top_lse k)
    (ip_tos k) (ip_ttl k) (tp_src k) v (ipv4_addr_src k) (ipv4_addr_dst k)
    (ipv6_addr_src k) (ipv6_addr_dst k) (ipv6_label k).
Definition key_with_ipv4_src (k : sw_flow_key) (v : Z) : sw_flow_key :=
  mk_key (phy_priority k) (phy_skb_mark k) (ovs_flow_hash k) (recirc_id k)
    (eth_src k) (eth_dst k) (eth_tci k) (eth_type k) (mpls_top_lse k)
    (ip_tos k) (ip_ttl k) (tp_src k) (tp_dst k) v (ipv4_addr_dst k)
    (ipv6_addr_src k) (ipv6_addr_dst k) (ipv6_label k).
Definition key_with_ipv4_dst (k : sw_flow_key) (v : Z) : sw_flow_key :=
  mk_key (phy_priority k) (phy_skb_mark k) (ovs_flow_hash k) (recirc_id k)
    (eth_src k) (eth_dst k) (eth_tci k) (eth_type k) (mpls_top_lse k)
    (ip_tos k) (ip_ttl k) (tp_src k) (tp_dst k) (ipv4_addr_src k) v
    (ipv6_addr_src k) (ipv6_addr_dst k) (ipv6_label k).
Definition key_with_ipv6_src (k : sw_flow_key) (v : in6_words) : sw_flow_key :=
  mk_key (phy_priority k) (phy_skb_mark k) (ovs_flow_hash k) (recirc_id k)
    (eth_src k) (eth_dst k) (eth_tci k) (eth_type k) (mpls_top_lse k)
    (ip_tos k) (ip_ttl k) (tp_src k) (tp_dst k) (ipv4_addr_src k)
    (ipv4_addr_dst k) v (ipv6_addr_dst k) (ipv6_label k).
Definition key_with_ipv6_dst (k : sw_flow_key) (v : in6_words) : sw_flow_key :=
  mk_key (phy_priority k) (phy_skb_mark k) (ovs_flow_hash k) (recirc_id k)
    (eth_src k) (eth_dst k) (eth_tci k) (eth_type k) (mpls_top_lse k)
    (ip_tos k) (ip_ttl k) (tp_src k) (tp_dst k) (ipv4_addr_src k)
    (ipv4_addr_dst k) (ipv6_addr_src k) v (ipv6_label k).
Definition key_with_ipv6_label (k : sw_flow_key) (v : Z) : sw_flow_key :=
  mk_key (phy_priority k) (phy_skb_mark k) (ovs_flow_hash k) (recirc_id k)
    (eth_src k) (eth_dst k) (eth_tci k) (eth_type k) (mpls_top_lse k)
    (ip_tos k) (ip_ttl k) (tp_src k) (tp_dst k) (ipv4_addr_src k)
    (ipv4_addr_dst k) (ipv6_addr_src k) (ipv6_addr_dst k) v.

Definition invalidate_flow_key (key : sw_flow_key) : sw_flow_key :=
  key_with_eth_type key 0.

Definition is_flow_key_valid (key : sw_flow_key) : bool :=
  negb (eth_type key =? 0).

(** ** Action lists (netlink attribute streams)

    A [struct nlattr] is kept as the payload length its [nla_len] field
    announces together with its payload, parsed by type; a stream of
    attributes is the list of its attributes in stream order.  The
    executor's own loop ([do_execute_actions]) and [last_action] are
    modelled with the byte counts the code computes with; the short option
    lists nested in [USERSPACE] and [SAMPLE] are walked as lists.
    [OVS_ACTION_ATTR_OTHER] stands for a type none of the executor's [switch]
    cases names. *)

Record ovs_action_push_mpls : Type := {
  mpls_lse : Z;
  mpls_ethertype : Z
}.
Record ovs_action_push_vlan : Type := {
  vlan_tpid : Z;
  vlan_tci_arg : Z
}.
Record ovs_key_ethernet : Type := {
  key_eth_src : list Z;
  key_eth_dst : list Z
}.
Record ovs_key_ipv4 : Type := {
  ipv4_src : Z;
  ipv4_dst : Z;
  ipv4_proto : Z;
  ipv4_tos : Z;
  ipv4_ttl : Z
}.
Record ovs_key_ipv6 : Type := {
  ipv6_src : in6_words;
  ipv6_dst : in6_words;
  ipv6_label_arg : Z;
  ipv6_proto : Z;
  ipv6_tclass : Z;
  ipv6_hlimit : Z
}.
Record ovs_key_tcp : Type := {
  tcp_src : Z;
  tcp_dst : Z
}.
Record ovs_key_udp : Type := {
  udp_src : Z;
  udp_dst : Z
}.
Record ovs_key_sctp : Type := {
  sctp_src : Z;
  sctp_dst : Z
}.

Inductive ovs_key_attr : Type :=
| OVS_KEY_ATTR_PRIORITY (v : Z)
| OVS_KEY_ATTR_SKB_MARK (v : Z)
| OVS_KEY_ATTR_TUNNEL_INFO (info : Z)
| OVS_KEY_ATTR_ETHERNET (k : ovs_key_ethernet)
| OVS_KEY_ATTR_IPV4 (k : ovs_key_ipv4)
| OVS_KEY_ATTR_IPV6 (k : ovs_key_ipv6)
| OVS_KEY_ATTR_TCP (k : ovs_key_tcp)
| OVS_KEY_ATTR_UDP (k : ovs_key_udp)
| OVS_KEY_ATTR_SCTP (k : ovs_key_sctp)
| OVS_KEY_ATTR_MPLS (lse : Z)
| OVS_KEY_ATTR_OTHER (type : Z).

Inductive ovs_userspace_attr : Type :=
| OVS_USERSPACE_ATTR_USERDATA (cookie : list Z)
| OVS_USERSPACE_ATTR_PID (portid : Z)
| OVS_USERSPACE_ATTR_EGRESS_TUN_PORT (port : Z)
| OVS_USERSPACE_ATTR_OTHER (type : Z).

Inductive action : Type :=
| OVS_ACTION_ATTR_OUTPUT (port : Z)
| OVS_ACTION_ATTR_USERSPACE (attrs : list ovs_userspace_attr)
| OVS_ACTION_ATTR_HASH (hash_basis : Z)
| OVS_ACTION_ATTR_PUSH_MPLS (mpls : ovs_action_push_mpls)
| OVS_ACTION_ATTR_POP_MPLS (ethertype : Z)
| OVS_ACTION_ATTR_PUSH_VLAN (vlan : ovs_action_push_vlan)
| OVS_ACTION_ATTR_POP_VLAN
| OVS_ACTION_ATTR_RECIRC (id : Z)
| OVS_ACTION_ATTR_SET (nested : ovs_key_attr)
| OVS_ACTION_ATTR_SAMPLE (attrs : list sample_attr)
| OVS_ACTION_ATTR_OTHER (type : Z)
with sample_attr : Type :=
| OVS_SAMPLE_ATTR_PROBABILITY (p : Z)
| OVS_SAMPLE_ATTR_ACTIONS (acts : list nlattr)
| OVS_SAMPLE_ATTR_OTHER (type : Z)
with nlattr : Type :=
| Nlattr (payload_len : nat) (act : action).

Definition NLA_HDRLEN : Z := 4.
Definition NLA_ALIGN (len : Z) : Z := Z.land (len + 3) (Z.lnot 3).

(** [nla->nla_len], the header included, and [nla_len(nla)], the payload
    alone. *)
Definition nla_len_field (a : nlattr) : Z :=
  match a with Nlattr n _ => NLA_HDRLEN + Z.of_nat n end.
Definition nla_len (a : nlattr) : Z := nla_len_field a - NLA_HDRLEN.
Definition nla_act (a : nlattr) : action :=
  match a with Nlattr _ x => x end.

(** The bytes a stream of attributes takes: [actions_len] of a
    [struct sw_flow_actions], and the payload length of a nested list. *)
Fixpoint attrs_len (l : list nlattr) : Z :=
  match l with
  | [] => 0
  | a :: rest => NLA_ALIGN (nla_len_field a) + attrs_len rest
  end.

Definition last_action (a : nlattr) (rem : Z) : bool :=
  nla_len_field a =? rem.

(** ** Per-CPU state: the deferred-action FIFO and the depth level *)

Record deferred_action : Type := {
  da_skb : sk_buff;
  da_actions : option (list nlattr);
  da_pkt_key : sw_flow_key
}.

Definition DEFERRED_ACTION_FIFO_SIZE : Z := 10.
Definition EXEC_ACTIONS_LEVEL_LIMIT : Z := 4.

Record action_fifo : Type := {
  head : Z;
  tail : Z;
  fifo : list deferred_action
}.

Definition set_nth {A : Type} (l : list A) (i : Z) (x : A) : list A :=
  if (0 <=? i) && (i <? Z.of_nat (length l))
  then firstn (Z.to_nat i) l ++ x :: skipn (S (Z.to_nat i)) l
  else l.

Definition action_fifo_init (f : action_fifo) : action_fifo :=
  {| head := 0; tail := 0; fifo := fifo f |}.

Definition action_fifo_is_empty (f : action_fifo) : bool :=
  head f =? tail f.

(** [&fifo->fifo[fifo->tail++]], or [NULL]: the index of the slot with the
    FIFO after the increment. *)
Definition action_fifo_get (f : action_fifo) : option Z * action_fifo :=
  if action_fifo_is_empty f then (None, f)
  else (Some (tail f), {| head := head f; tail := tail f + 1; fifo := fifo f |}).

Definition action_fifo_put (f : action_fifo) : option Z * action_fifo :=
  if DEFERRED_ACTION_FIFO_SIZE - 1 <=? head f then (None, f)
  else (Some (head f), {| head := head f + 1; tail := tail f; fifo := fifo f |}).

Definition fifo_store (f : action_fifo) (i : Z) (da : deferred_action)
  : action_fifo :=
  {| head := head f; tail := tail f; fifo := set_nth (fifo f) i da |}.

(** ** The world outside actions.c *)

(** [struct dp_upcall_info]. *)
Record dp_upcall_info : Type := {
  cmd : Z;
  userdata : option (list Z);
  portid : Z;
  upcall_egress_tun_info : option Z
}.

(** Calls that leave actions.c, in the order they are made. *)
Inductive event : Type :=
| EvSend (port : Z) (skb : sk_buff)           (* ovs_vport_send *)
| EvFree (skb : sk_buff)                      (* kfree_skb *)
| EvConsume (skb : sk_buff)                   (* consume_skb *)
| EvUpcall (skb : sk_buff) (key : sw_flow_key) (info : dp_upcall_info).
                                              (* ovs_dp_upcall *)

(** A port of the datapath.  [loops_to] is [Some in_port] for a port whose
    transmit path hands the packet back to the datapath's receive path
    synchronously, as a packet received on [in_port] (the network stack
    looping a packet); it is [None] for a port that just transmits. *)
Record vport : Type := {
  port_no : Z;
  loops_to : option Z
}.

(** [struct datapath], as the executor uses it: the port table
    ([ovs_vport_rcu]), the flow table, the upcall channel's verdict
    ([ovs_dp_upcall]'s return value) and [ovs_vport_get_egress_tun_info]. *)
Record datapath : Type := {
  ovs_vport_rcu : Z -> option vport;
  ovs_flow_tbl_lookup : sw_flow_key -> option (list nlattr);
  ovs_dp_upcall_ret : sk_buff -> sw_flow_key -> dp_upcall_info -> Z;
  ovs_vport_get_egress_tun_info : vport -> sk_buff -> Z * Z
}.

(** Kernel and datapath functions whose code is outside actions.c and whose
    results the mutators and the executor only consume.
    - [skb_flow_hash]: the hash [skb_get_hash] computes when none is cached;
    - [jhash_1word];
    - [ipv6_find_hdr skb target flags]: the header type found, or a negative
      errno;
    - [ovs_flow_key_update skb key]: error, packet and re-extracted key;
    - [ovs_flow_key_extract in_port skb]: error, packet and key of a packet
      received on [in_port]. *)
Record kernel : Type := {
  skb_flow_hash : sk_buff -> Z;
  jhash_1word : Z -> Z -> Z;
  ipv6_find_hdr : sk_buff -> Z -> Z -> Z;
  ovs_flow_key_update : sk_buff -> sw_flow_key -> Z * sk_buff * sw_flow_key;
  ovs_flow_key_extract : Z -> sk_buff -> Z * sk_buff * sw_flow_key
}.

(** Everything the executor's run depends on or changes for one CPU:
    [exec_actions_level] and [action_fifos] are the per-CPU variables of
    actions.c; [gfp_atomic] scripts the outcomes of the coming [GFP_ATOMIC]
    allocations (success once the script is exhausted) and [prandom] the
    coming [prandom_u32] draws (0 once exhausted). *)
Record world : Type := mk_world {
  exec_actions_level : Z;
  action_fifos : action_fifo;
  gfp_atomic : list bool;
  prandom : list Z;
  next_skb_id : nat;
  trace : list event
}.

Definition with_level (w : world) (l : Z) : world :=
  mk_world l (action_fifos w) (gfp_atomic w) (prandom w) (next_skb_id w)
    (trace w).
Definition with_fifo (w : world) (f : action_fifo) : world :=
  mk_world (exec_actions_level w) f (gfp_atomic w) (prandom w)
    (next_skb_id w) (trace w).
Definition with_gfp (w : world) (g : list bool) : world :=
  mk_world (exec_actions_level w) (action_fifos w) g (prandom w)
    (next_skb_id w) (trace w).
Definition with_prandom (w : world) (r : list Z) : world :=
  mk_world (exec_actions_level w) (action_fifos w) (gfp_atomic w) r
    (next_skb_id w) (trace w).
Definition with_next_skb_id (w : world) (n : nat) : world :=
  mk_world (exec_actions_level w) (action_fifos w) (gfp_atomic w) (prandom w)
    n (trace w).
Definition with_trace (w : world) (t : list event) : world :=
  mk_world (exec_actions_level w) (action_fifos w) (gfp_atomic w) (prandom w)
    (next_skb_id w) t.

(** ** The execution monad *)

Inductive fault : Type :=
| OutOfFuel           (* the model's recursion bound was reached *)
| KernelOops.         (* a [BUG_ON] fired, or memory that is not there was
                         read *)

Inductive outcome (A : Type) : Type :=
| Done (a : A) (w : world)
| Fault (f : fault).
Arguments Done {A} a w.
Arguments Fault {A} f.

Definition M (A : Type) : Type := world -> outcome A.

Definition ret {A : Type} (a : A) : M A := fun w => Done a w.

Definition bind {A B : Type} (m : M A) (f : A -> M B) : M B :=
  fun w => match m w with
           | Done a w' => f a w'
           | Fault e => Fault e
           end.

Definition raise {A : Type} (e : fault) : M A := fun _ => Fault e.

Declare Scope monad_scope.
Delimit Scope monad_scope with monad.
Notation "x <- m ;; k" := (bind m (fun x => k))
  (at level 61, m at next level, right associativity) : monad_scope.
Notation "' pat <- m ;; k" := (bind m (fun x => match x with pat => k end))
  (at level 61, pat pattern, m at next level, right associativity)
  : monad_scope.
Notation "m ;; k" := (bind m (fun _ => k))
  (at level 61, right associativity) : monad_scope.
Open Scope monad_scope.

Definition get_world : M world := fun w => Done w w.
Definition modify (f : world -> world) : M unit := fun w => Done tt (f w).
Definition emit (e : event) : M unit :=
  modify (fun w => with_trace w (trace w ++ [e])).

(** *** Packet-buffer primitives *)

Definition kfree_skb (skb : sk_buff) : M unit := emit (EvFree skb).
Definition consume_skb (skb : sk_buff) : M unit := emit (EvConsume skb).

(** One [GFP_ATOMIC] allocation: whether it succeeds. *)
Definition gfp_alloc : M bool :=
  fun w => match gfp_atomic w with
           | [] => Done true w
           | ok :: rest => Done ok (with_gfp w rest)
           end.

(** [skb_clone(skb, GFP_ATOMIC)]: a new buffer head on the same contents, or
    [NULL]. *)
Definition skb_clone (skb : sk_buff) : M (option sk_buff) :=
  ok <- gfp_alloc ;;
  if ok then
    w <- get_world ;;
    modify (fun w => with_next_skb_id w (S (next_skb_id w))) ;;
    ret (Some (with_id skb (next_skb_id w)))
  else ret None.

(** [skb_cow_head(skb, headroom)]: 0, or [-ENOMEM]. *)
Definition skb_cow_head (skb : sk_buff) (headroom : Z) : M Z :=
  ok <- gfp_alloc ;;
  ret (if ok then 0 else - ENOMEM).

Definition prandom_u32 : M Z :=
  fun w => match prandom w with
           | [] => Done 0 w
           | r :: rest => Done (u32 r) (with_prandom w rest)
           end.

(** [skb_get_hash]: the cached hash, computing and caching it when there is
    none. *)
Definition skb_get_hash (K : kernel) (skb : sk_buff) : Z * sk_buff :=
  match rxhash skb with
  | Some h => (h, skb)
  | None => let h := u32 (skb_flow_hash K skb) in (h, with_rxhash skb (Some h))
  end.

(** *** The per-CPU FIFO *)

Definition da_zero_skb : sk_buff :=
  mk_skb 0 [] 0 0 0 CHECKSUM_NONE 0 0 0 0 0 0 0 None None.
Definition da_zero_key : sw_flow_key :=
  mk_key 0 0 0 0 [] [] 0 0 0 0 0 0 0 0 0 (0, 0, 0, 0) (0, 0, 0, 0) 0.
Definition da_zero : deferred_action :=
  {| da_skb := da_zero_skb; da_actions := None; da_pkt_key := da_zero_key |}.

(** [alloc_percpu] hands out zeroed memory. *)
Definition action_fifos_init : action_fifo :=
  {| head := 0; tail := 0;
     fifo := repeat da_zero (Z.to_nat DEFERRED_ACTION_FIFO_SIZE) |}.

Definition fifo_slot (f : action_fifo) (i : Z) : deferred_action :=
  nth (Z.to_nat i) (fifo f) da_zero.

(** Return queue entry if fifo is not full. *)
Definition add_deferred_actions (skb : sk_buff) (key : sw_flow_key)
    (attr : option (list nlattr)) : M (option Z) :=
  w <- get_world ;;
  let '(da, f) := action_fifo_put (action_fifos w) in
  match da with
  | Some i =>
      modify (fun w => with_fifo w
        (fifo_store f i
           {| da_skb := skb; da_actions := attr; da_pkt_key := key |})) ;;
      ret (Some i)
  | None => ret None
  end.

(** [da->pkt_key.recirc_id = id] on the entry at slot [i]. *)
Definition da_set_recirc_id (i : Z) (id : Z) : M unit :=
  modify (fun w =>
    let f := action_fifos w in
    let da := fifo_slot f i in
    with_fifo w
      (fifo_store f i
         {| da_skb := da_skb da; da_actions := da_actions da;
            da_pkt_key := key_with_recirc_id (da_pkt_key da) id |})).

Definition make_writable (skb : sk_buff) (write_len : Z) : M Z :=
  if (write_len <? 0) || (skb_len skb <? write_len) then
    (* !pskb_may_pull(skb, write_len): more than the packet holds *)
    ret (- ENOMEM)
  else
    (* pulling the tail in, or un-sharing a cloned head, may allocate *)
    ok <- gfp_alloc ;;
    ret (if ok then 0 else - ENOMEM).

(** The end of the mac header, as an offset from [skb->data]. *)
Definition mac_header_end (skb : sk_buff) : Z := mac_len skb.

(** ** Checksum updates that look at the packet's checksum mode
    (net/core/utils.c) *)

Definition is_complete (skb : sk_buff) : bool :=
  ip_summed_eqb (ip_summed skb) CHECKSUM_COMPLETE.
Definition is_partial (skb : sk_buff) : bool :=
  ip_summed_eqb (ip_summed skb) CHECKSUM_PARTIAL.

(** The body shared by [inet_proto_csum_replace4] and
    [inet_proto_csum_replace16]; [diff] is the [{ ~from, to }] array and
    [sum] the offset of the [__sum16] field being corrected. *)
Definition inet_proto_csum_replace (sum : Z) (skb : sk_buff) (diff : list Z)
    (pseudohdr : bool) : sk_buff :=
  let old := get_be16 (data skb) sum in
  if negb (is_partial skb) then
    let skb1 :=
      with_data skb
        (put_be16 (data skb) sum
           (Csum.csum_fold
              (Csum.csum_partial diff (not32 (Csum.csum_unfold old))))) in
    if is_complete skb && pseudohdr then
      with_csum skb1 (not32 (Csum.csum_partial diff (not32 (csum skb))))
    else skb1
  else if pseudohdr then
    with_data skb
      (put_be16 (data skb) sum
         (not16 (Csum.csum_fold (Csum.csum_partial diff (Csum.csum_unfold old)))))
  else skb.

Definition inet_proto_csum_replace4 (sum : Z) (skb : sk_buff) (from to : Z)
    (pseudohdr : bool) : sk_buff :=
  inet_proto_csum_replace sum skb (Csum.diff4 from to) pseudohdr.

Definition inet_proto_csum_replace2 (sum : Z) (skb : sk_buff) (from to : Z)
    (pseudohdr : bool) : sk_buff :=
  inet_proto_csum_replace4 sum skb from to pseudohdr.

Definition inet_proto_csum_replace16 (sum : Z) (skb : sk_buff)
    (from to : in6_words) (pseudohdr : bool) : sk_buff :=
  inet_proto_csum_replace sum skb (Csum.diff16 from to) pseudohdr.

(** [skb_postpull_rcsum] and [ovs_skb_postpush_rcsum] over the [len] bytes
    at offset [start]. *)
Definition skb_postpull_rcsum (skb : sk_buff) (start len : Z) : sk_buff :=
  if is_complete skb then
    with_csum skb
      (Csum.csum_sub (csum skb)
         (Csum.csum_partial (bytes_at (data skb) start len) 0))
  else skb.

Definition ovs_skb_postpush_rcsum (skb : sk_buff) (start len : Z) : sk_buff :=
  if is_complete skb then
    with_csum skb
      (Csum.csum_add (csum skb)
         (Csum.csum_partial (bytes_at (data skb) start len) 0))
  else skb.

(** ** Header mutators

    A mutator returns its error code with the packet and the key as it
    leaves them. *)

Definition mret : Type := (Z * sk_buff * sw_flow_key)%type.

Definition eth_p_mpls (eth_type : Z) : bool :=
  (eth_type =? ETH_P_MPLS_UC) || (eth_type =? ETH_P_MPLS_MC).

Definition push_mpls (skb : sk_buff) (key : sw_flow_key)
    (mpls : ovs_action_push_mpls) : M mret :=
  err <- skb_cow_head skb MPLS_HLEN ;;
  if err <? 0 then ret (- ENOMEM, skb, key)
  else
    (* skb_push; memmove of the mac header; skb_reset_mac_header;
       *new_mpls_lse = mpls->mpls_lse *)
    let n := Z.to_nat (mac_len skb) in
    let lse := be32_bytes (mpls_lse mpls) in
    let skb :=
      shift_headers
        (with_data skb (firstn n (data skb) ++ lse ++ skipn n (data skb)))
        MPLS_HLEN in
    let skb :=
      if is_complete skb then
        with_csum skb (Csum.csum_add (csum skb) (Csum.csum_partial lse 0))
      else skb in
    (* hdr = eth_hdr(skb); hdr->h_proto = mpls->mpls_ethertype *)
    let skb :=
      with_data skb (put_be16 (data skb) (2 * ETH_ALEN) (mpls_ethertype mpls)) in
    let skb :=
      if inner_protocol skb =? 0 then with_inner_protocol skb (protocol skb)
      else skb in
    let skb := with_protocol skb (u16 (mpls_ethertype mpls)) in
    ret (0, skb, invalidate_flow_key key).

Definition pop_mpls (skb : sk_buff) (key : sw_flow_key) (ethertype : Z)
  : M mret :=
  err <- make_writable skb (mac_len skb + MPLS_HLEN) ;;
  if negb (err =? 0) then ret (err, skb, key)
  else
    let skb :=
      if is_complete skb then
        with_csum skb
          (Csum.csum_sub (csum skb)
             (Csum.csum_partial
                (bytes_at (data skb) (mac_header_end skb) MPLS_HLEN) 0))
      else skb in
    (* memmove of the mac header; __skb_pull; skb_reset_mac_header *)
    let n := Z.to_nat (mac_len skb) in
    let skb :=
      shift_headers
        (with_data skb
           (firstn n (data skb)
            ++ skipn (n + Z.to_nat MPLS_HLEN) (data skb)))
        (- MPLS_HLEN) in
    (* hdr = mac_header_end(skb) - ETH_HLEN; hdr->h_proto = ethertype *)
    let skb :=
      with_data skb
        (put_be16 (data skb) (mac_header_end skb - ETH_HLEN + 2 * ETH_ALEN)
           ethertype) in
    let skb :=
      if eth_p_mpls (protocol skb) then with_protocol skb (u16 ethertype)
      else skb in
    ret (0, skb, invalidate_flow_key key).

Definition set_mpls (skb : sk_buff) (key : sw_flow_key) (mpls_lse : Z)
  : M mret :=
  let stack := mac_header_end skb in
  err <- make_writable skb (mac_len skb + MPLS_HLEN) ;;
  if negb (err =? 0) then ret (err, skb, key)
  else
    let skb :=
      if is_complete skb then
        with_csum skb
          (not32
             (Csum.csum_partial
                (Csum.diff4 (get_be32 (data skb) stack) mpls_lse)
                (not32 (csum skb))))
      else skb in
    let skb := with_data skb (put_be32 (data skb) stack mpls_lse) in
    ret (0, skb, key_with_mpls_top_lse key (u32 mpls_lse)).

(** [vlan_set_encap_proto], given the encapsulated protocol and the 16 bits
    after the VLAN header. *)
Definition vlan_set_encap_proto (skb : sk_buff) (proto rawp : Z) : sk_buff :=
  if ETH_P_802_3_MIN <=? proto then with_protocol skb proto
  else if rawp =? 65535 then with_protocol skb ETH_P_802_3
  else with_protocol skb ETH_P_802_2.

(** Remove VLAN header from packet and update csum accordingly.  Returns the
    error, the packet and [*current_tci]. *)
Definition __pop_vlan_tci (skb : sk_buff) : M (Z * sk_buff * Z) :=
  err <- make_writable skb VLAN_ETH_HLEN ;;
  if negb (err =? 0) then ret (err, skb, 0)
  else
    let skb :=
      if is_complete skb then
        with_csum skb
          (Csum.csum_sub (csum skb)
             (Csum.csum_partial
                (bytes_at (data skb) (2 * ETH_ALEN) VLAN_HLEN) 0))
      else skb in
    let d := data skb in
    let current_tci := get_be16 d (ETH_HLEN + 0) in
    let encap := get_be16 d (ETH_HLEN + 2) in
    let rawp := get_be16 d (ETH_HLEN + VLAN_HLEN) in
    (* memmove(skb->data + VLAN_HLEN, skb->data, 2 * ETH_ALEN);
       __skb_pull(skb, VLAN_HLEN) *)
    let skb :=
      with_data skb
        (firstn (Z.to_nat (2 * ETH_ALEN)) d
         ++ skipn (Z.to_nat (2 * ETH_ALEN + VLAN_HLEN)) d) in
    let skb := vlan_set_encap_proto skb encap rawp in
    let skb := shift_headers skb (- VLAN_HLEN) in
    let skb := with_mac_len skb (u16 (mac_len skb - VLAN_HLEN)) in
    ret (0, skb, current_tci).

Definition vlan_tx_tag_present (skb : sk_buff) : bool :=
  negb (Z.land (vlan_tci skb) VLAN_TAG_PRESENT =? 0).
Definition vlan_tx_tag_get (skb : sk_buff) : Z :=
  Z.land (vlan_tci skb) (65535 - VLAN_TAG_PRESENT).
Definition vlan_set_tci (skb : sk_buff) (tci : Z) : sk_buff :=
  with_vlan skb (vlan_proto skb) tci.
Definition __vlan_hwaccel_put_tag (skb : sk_buff) (proto tci : Z) : sk_buff :=
  with_vlan skb proto (Z.lor VLAN_TAG_PRESENT (u16 tci)).

(** [skb->protocol != htons(ETH_P_8021Q) || skb->len < VLAN_ETH_HLEN] *)
Definition no_inband_vlan (skb : sk_buff) : bool :=
  negb (protocol skb =? ETH_P_8021Q) || (skb_len skb <? VLAN_ETH_HLEN).

Definition pop_vlan (skb : sk_buff) (key : sw_flow_key) : M mret :=
  '(err, skb, stop) <-
    (if vlan_tx_tag_present skb then ret (0, vlan_set_tci skb 0, false)
     else if no_inband_vlan skb then ret (0, skb, true)
     else
       '(err, skb, _) <- __pop_vlan_tci skb ;;
       ret (err, skb, negb (err =? 0))) ;;
  if stop then ret (err, skb, key)
  else if no_inband_vlan skb then
    (* move next vlan tag to hw accel tag: there is none *)
    ret (0, skb, key_with_eth_tci key 0)
  else
    let key := invalidate_flow_key key in
    '(err, skb, tci) <- __pop_vlan_tci skb ;;
    if negb (err =? 0) then ret (err, skb, key)
    else ret (0, __vlan_hwaccel_put_tag skb ETH_P_8021Q tci, key).

(** [__vlan_put_tag]: insert the tag in-band; on failure the packet has been
    freed and the result is [NULL]. *)
Definition __vlan_put_tag (skb : sk_buff) (proto tci : Z)
  : M (option sk_buff) :=
  err <- skb_cow_head skb VLAN_HLEN ;;
  if err <? 0 then
    kfree_skb skb ;;
    ret None
  else
    let d := data skb in
    let n := Z.to_nat (2 * ETH_ALEN) in
    let skb :=
      shift_headers
        (with_data skb
           (firstn n d ++ be16_bytes proto ++ be16_bytes tci ++ skipn n d))
        VLAN_HLEN in
    ret (Some (with_protocol skb proto)).

Definition push_vlan (skb : sk_buff) (key : sw_flow_key)
    (vlan : ovs_action_push_vlan) : M mret :=
  let put skb :=
    __vlan_hwaccel_put_tag skb (u16 (vlan_tpid vlan))
      (Z.land (u16 (vlan_tci_arg vlan)) (65535 - VLAN_TAG_PRESENT)) in
  if vlan_tx_tag_present skb then
    (* push down current VLAN tag *)
    let current_tag := vlan_tx_tag_get skb in
    r <- __vlan_put_tag skb (vlan_proto skb) current_tag ;;
    match r with
    | None => ret (- ENOMEM, skb, key)
    | Some skb =>
        (* Update mac_len for subsequent MPLS actions *)
        let skb := with_mac_len skb (u16 (mac_len skb + VLAN_HLEN)) in
        let skb :=
          if is_complete skb then
            with_csum skb
              (Csum.csum_add (csum skb)
                 (Csum.csum_partial
                    (bytes_at (data skb) (2 * ETH_ALEN) VLAN_HLEN) 0))
          else skb in
        ret (0, put skb, invalidate_flow_key key)
    end
  else
    ret (0, put skb, key_with_eth_tci key (u16 (vlan_tci_arg vlan))).

(** A MAC address is [u8[ETH_ALEN]]. *)
Definition ether_addr (a : list Z) : list Z :=
  map u8 (firstn (Z.to_nat ETH_ALEN) (a ++ repeat 0 (Z.to_nat ETH_ALEN))).

Definition set_eth_addr (skb : sk_buff) (key : sw_flow_key)
    (eth_key : ovs_key_ethernet) : M mret :=
  err <- make_writable skb ETH_HLEN ;;
  if negb (err =? 0) then ret (err, skb, key)
  else
    let skb := skb_postpull_rcsum skb 0 (ETH_ALEN * 2) in
    (* h_dest is at offset 0 of the header, h_source at ETH_ALEN *)
    let d := put_bytes (data skb) ETH_ALEN (ether_addr (key_eth_src eth_key)) in
    let d := put_bytes d 0 (ether_addr (key_eth_dst eth_key)) in
    let skb := with_data skb d in
    let skb := ovs_skb_postpush_rcsum skb 0 (ETH_ALEN * 2) in
    ret (0, skb,
         key_with_eth_addrs key (ether_addr (key_eth_src eth_key))
           (ether_addr (key_eth_dst eth_key))).

(** *** IPv4 *)

(** Offsets of the fields of [struct iphdr], [struct ipv6hdr],
    [struct tcphdr], [struct udphdr], [struct icmp6hdr], [struct sctphdr]. *)
Definition iph_tos : Z := 1.
Definition iph_ttl : Z := 8.
Definition iph_protocol : Z := 9.
Definition iph_check : Z := 10.
Definition iph_saddr : Z := 12.
Definition iph_daddr : Z := 16.
Definition ip6h_nexthdr : Z := 6.
Definition ip6h_hop_limit : Z := 7.
Definition ip6h_saddr : Z := 8.
Definition ip6h_daddr : Z := 24.
Definition tcph_check : Z := 16.
Definition udph_check : Z := 6.
Definition icmp6h_cksum : Z := 2.
Definition sctph_checksum : Z := 8.

(** [transport_len >= sizeof(hdr)], the [int] converted for the unsigned
    comparison. *)
Definition transport_has (skb : sk_buff) (size : Z) : bool :=
  size <=? size_t_of_int (skb_len skb - skb_transport_offset skb).

(** [if (!uh->check) uh->check = CSUM_MANGLED_0]. *)
Definition udp_mangle_zero (skb : sk_buff) : sk_buff :=
  let uh := skb_transport_offset skb in
  if get_be16 (data skb) (uh + udph_check) =? 0 then
    with_data skb (put_be16 (data skb) (uh + udph_check) CSUM_MANGLED_0)
  else skb.

(** [set_ip_addr(skb, nh, addr, new_addr)]; [nh] and [addr] are offsets. *)
Definition set_ip_addr (skb : sk_buff) (nh addr new_addr : Z) : sk_buff :=
  let th := skb_transport_offset skb in
  let proto := get_u8 (data skb) (nh + iph_protocol) in
  let skb :=
    if proto =? IPPROTO_TCP then
      if transport_has skb sizeof_tcphdr then
        inet_proto_csum_replace4 (th + tcph_check) skb
          (get_be32 (data skb) addr) new_addr true
      else skb
    else if proto =? IPPROTO_UDP then
      if transport_has skb sizeof_udphdr then
        if negb (get_be16 (data skb) (th + udph_check) =? 0) || is_partial skb
        then
          udp_mangle_zero
            (inet_proto_csum_replace4 (th + udph_check) skb
               (get_be32 (data skb) addr) new_addr true)
        else skb
      else skb
    else skb in
  let skb :=
    with_data skb
      (put_be16 (data skb) (nh + iph_check)
         (Csum.csum_replace4 (get_be16 (data skb) (nh + iph_check))
            (get_be32 (data skb) addr) new_addr)) in
  let skb := skb_clear_hash skb in
  with_data skb (put_be32 (data skb) addr new_addr).

Definition set_ip_ttl (skb : sk_buff) (nh new_ttl : Z) : sk_buff :=
  let d := data skb in
  let d :=
    put_be16 d (nh + iph_check)
      (Csum.csum_replace2 (get_be16 d (nh + iph_check))
         (u16 (get_u8 d (nh + iph_ttl) * 256)) (u16 (new_ttl * 256))) in
  with_data skb (put_u8 d (nh + iph_ttl) new_ttl).

(** [ipv4_change_dsfield(iph, mask, value)] (include/net/dsfield.h). *)
Definition ipv4_change_dsfield (skb : sk_buff) (nh mask value : Z) : sk_buff :=
  let d := data skb in
  let check := get_be16 d (nh + iph_check) in
  let tos := get_u8 d (nh + iph_tos) in
  let dsfield := Z.lor (Z.land tos mask) (u8 value) in
  let check := u32 (check + tos) in
  let check :=
    if negb (Z.shiftr (u32 (check + 1)) 16 =? 0)
    then Z.land (u32 (check + 1)) 65535 else check in
  let check := u32 (check - dsfield) in
  let check := u32 (check + Z.shiftr check 16) in
  let d := put_be16 d (nh + iph_check) check in
  with_data skb (put_u8 d (nh + iph_tos) dsfield).

Definition set_ipv4 (skb : sk_buff) (key : sw_flow_key)
    (ipv4_key : ovs_key_ipv4) : M mret :=
  err <- make_writable skb (skb_network_offset skb + sizeof_iphdr) ;;
  if negb (err =? 0) then ret (err, skb, key)
  else
    let nh := skb_network_offset skb in
    let '(skb, key) :=
      if negb (u32 (ipv4_src ipv4_key) =? get_be32 (data skb) (nh + iph_saddr))
      then (set_ip_addr skb nh (nh + iph_saddr) (ipv4_src ipv4_key),
            key_with_ipv4_src key (u32 (ipv4_src ipv4_key)))
      else (skb, key) in
    let '(skb, key) :=
      if negb (u32 (ipv4_dst ipv4_key) =? get_be32 (data skb) (nh + iph_daddr))
      then (set_ip_addr skb nh (nh + iph_daddr) (ipv4_dst ipv4_key),
            key_with_ipv4_dst key (u32 (ipv4_dst ipv4_key)))
      else (skb, key) in
    let '(skb, key) :=
      if negb (u8 (ipv4_tos ipv4_key) =? get_u8 (data skb) (nh + iph_tos))
      then
        let skb := ipv4_change_dsfield skb nh 0 (ipv4_tos ipv4_key) in
        (skb, key_with_ip_tos key (get_u8 (data skb) (nh + iph_tos)))
      else (skb, key) in
    let '(skb, key) :=
      if negb (u8 (ipv4_ttl ipv4_key) =? get_u8 (data skb) (nh + iph_ttl))
      then (set_ip_ttl skb nh (ipv4_ttl ipv4_key),
            key_with_ip_ttl key (u8 (ipv4_ttl ipv4_key)))
      else (skb, key) in
    ret (0, skb, key).

(** *** IPv6 *)

Definition update_ipv6_checksum (skb : sk_buff) (l4_proto : Z) (addr : Z)
    (new_addr : in6_words) : sk_buff :=
  let th := skb_transport_offset skb in
  if l4_proto =? NEXTHDR_TCP then
    if transport_has skb sizeof_tcphdr then
      inet_proto_csum_replace16 (th + tcph_check) skb
        (get_in6 (data skb) addr) new_addr true
    else skb
  else if l4_proto =? NEXTHDR_UDP then
    if transport_has skb sizeof_udphdr then
      if negb (get_be16 (data skb) (th + udph_check) =? 0) || is_partial skb
      then
        udp_mangle_zero
          (inet_proto_csum_replace16 (th + udph_check) skb
             (get_in6 (data skb) addr) new_addr true)
      else skb
    else skb
  else if l4_proto =? NEXTHDR_ICMP then
    if transport_has skb sizeof_icmp6hdr then
      inet_proto_csum_replace16 (th + icmp6h_cksum) skb
        (get_in6 (data skb) addr) new_addr true
    else skb
  else skb.

Definition set_ipv6_addr (skb : sk_buff) (l4_proto : Z) (addr : Z)
    (new_addr : in6_words) (recalculate_csum : bool) : sk_buff :=
  let skb :=
    if recalculate_csum then update_ipv6_checksum skb l4_proto addr new_addr
    else skb in
  let skb := skb_clear_hash skb in
  with_data skb (put_in6 (data skb) addr new_addr).

(** [nh->priority] is the low nibble of the header's first byte and
    [nh->flow_lbl] its next three bytes. *)
Definition set_ipv6_tc (skb : sk_buff) (nh tc : Z) : sk_buff :=
  let d := data skb in
  let d :=
    put_u8 d nh (Z.lor (Z.land (get_u8 d nh) 240) (Z.shiftr (u8 tc) 4)) in
  let d :=
    put_u8 d (nh + 1)
      (Z.lor (Z.land (get_u8 d (nh + 1)) 15)
         (Z.shiftl (Z.land (u8 tc) 15) 4)) in
  with_data skb d.

Definition set_ipv6_fl (skb : sk_buff) (nh fl : Z) : sk_buff :=
  let d := data skb in
  let d :=
    put_u8 d (nh + 1)
      (Z.lor (Z.land (get_u8 d (nh + 1)) 240)
         (Z.shiftr (Z.land (u32 fl) 983040) 16)) in
  let d := put_u8 d (nh + 2) (Z.shiftr (Z.land (u32 fl) 65280) 8) in
  let d := put_u8 d (nh + 3) (Z.land (u32 fl) 255) in
  with_data skb d.

(** [ipv6_get_dsfield]: [ntohs] of the header's first 16 bits, shifted right
    by 4, as a byte. *)
Definition ipv6_get_dsfield (skb : sk_buff) (nh : Z) : Z :=
  u8 (Z.shiftr (get_be16 (data skb) nh) 4).

Definition ipv6_ext_hdr (nexthdr : Z) : bool :=
  (nexthdr =? NEXTHDR_HOP) || (nexthdr =? NEXTHDR_ROUTING)
  || (nexthdr =? NEXTHDR_FRAGMENT) || (nexthdr =? NEXTHDR_AUTH)
  || (nexthdr =? NEXTHDR_NONE) || (nexthdr =? NEXTHDR_DEST).

Section WithKernel.

Variable K : kernel.

(** The two address steps of [set_ipv6], in the order the code runs them. *)
Definition set_ipv6_src_step (skb : sk_buff) (key : sw_flow_key)
    (ipv6_key : ovs_key_ipv6) : sk_buff * sw_flow_key :=
  let saddr := skb_network_offset skb + ip6h_saddr in
  if negb (in6_eqb (ipv6_src ipv6_key) (get_in6 (data skb) saddr)) then
    (set_ipv6_addr skb (ipv6_proto ipv6_key) saddr (ipv6_src ipv6_key) true,
     key_with_ipv6_src key (ipv6_src ipv6_key))
  else (skb, key).

Definition set_ipv6_dst_step (skb : sk_buff) (key : sw_flow_key)
    (ipv6_key : ovs_key_ipv6) : sk_buff * sw_flow_key :=
  let nh := skb_network_offset skb in
  let daddr := nh + ip6h_daddr in
  if negb (in6_eqb (ipv6_dst ipv6_key) (get_in6 (data skb) daddr)) then
    let recalc_csum :=
      if ipv6_ext_hdr (get_u8 (data skb) (nh + ip6h_nexthdr)) then
        negb (ipv6_find_hdr K skb NEXTHDR_ROUTING OVS_IP6T_FH_F_SKIP_RH
              =? NEXTHDR_ROUTING)
      else true in
    (set_ipv6_addr skb (ipv6_proto ipv6_key) daddr (ipv6_dst ipv6_key)
       recalc_csum,
     key_with_ipv6_dst key (ipv6_dst ipv6_key))
  else (skb, key).

Definition set_ipv6 (skb : sk_buff) (key : sw_flow_key)
    (ipv6_key : ovs_key_ipv6) : M mret :=
  err <- make_writable skb (skb_network_offset skb + sizeof_ipv6hdr) ;;
  if negb (err =? 0) then ret (err, skb, key)
  else
    let nh := skb_network_offset skb in
    let '(skb, key) := set_ipv6_src_step skb key ipv6_key in
    let '(skb, key) := set_ipv6_dst_step skb key ipv6_key in
    let skb := set_ipv6_tc skb nh (ipv6_tclass ipv6_key) in
    let key := key_with_ip_tos key (ipv6_get_dsfield skb nh) in
    let skb := set_ipv6_fl skb nh (ipv6_label_arg ipv6_key) in
    let key :=
      key_with_ipv6_label key
        (Z.land (get_be32 (data skb) nh) IPV6_FLOWINFO_FLOWLABEL) in
    let skb :=
      with_data skb (put_u8 (data skb) (nh + ip6h_hop_limit)
                       (ipv6_hlimit ipv6_key)) in
    ret (0, skb, key_with_ip_ttl key (u8 (ipv6_hlimit ipv6_key))).

End WithKernel.

(** *** TCP, UDP *)

(** Must follow make_writable() since that can move the skb data.
    [port] and [check] are offsets. *)
Definition set_tp_port (skb : sk_buff) (port new_port check : Z) : sk_buff :=
  let skb :=
    inet_proto_csum_replace2 check skb (get_be16 (data skb) port) new_port
      false in
  let skb := with_data skb (put_be16 (data skb) port new_port) in
  skb_clear_hash skb.

Definition set_udp_port (skb : sk_buff) (port new_port : Z) : sk_buff :=
  let uh := skb_transport_offset skb in
  if negb (get_be16 (data skb) (uh + udph_check) =? 0)
     && negb (is_partial skb)
  then udp_mangle_zero (set_tp_port skb port new_port (uh + udph_check))
  else skb_clear_hash (with_data skb (put_be16 (data skb) port new_port)).

Definition set_udp (skb : sk_buff) (key : sw_flow_key)
    (udp_port_key : ovs_key_udp) : M mret :=
  err <- make_writable skb (skb_transport_offset skb + sizeof_udphdr) ;;
  if negb (err =? 0) then ret (err, skb, key)
  else
    let uh := skb_transport_offset skb in
    let '(skb, key) :=
      if negb (u16 (udp_src udp_port_key) =? get_be16 (data skb) uh) then
        (set_udp_port skb uh (udp_src udp_port_key),
         key_with_tp_src key (u16 (udp_src udp_port_key)))
      else (skb, key) in
    let '(skb, key) :=
      if negb (u16 (udp_dst udp_port_key) =? get_be16 (data skb) (uh + 2)) then
        (set_udp_port skb (uh + 2) (udp_dst udp_port_key),
         key_with_tp_dst key (u16 (udp_dst udp_port_key)))
      else (skb, key) in
    ret (0, skb, key).

Definition set_tcp (skb : sk_buff) (key : sw_flow_key)
    (tcp_port_key : ovs_key_tcp) : M mret :=
  err <- make_writable skb (skb_transport_offset skb + sizeof_tcphdr) ;;
  if negb (err =? 0) then ret (err, skb, key)
  else
    let th := skb_transport_offset skb in
    let '(skb, key) :=
      if negb (u16 (tcp_src tcp_port_key) =? get_be16 (data skb) th) then
        (set_tp_port skb th (tcp_src tcp_port_key) (th + tcph_check),
         key_with_tp_src key (u16 (tcp_src tcp_port_key)))
      else (skb, key) in
    let '(skb, key) :=
      if negb (u16 (tcp_dst tcp_port_key) =? get_be16 (data skb) (th + 2)) then
        (set_tp_port skb (th + 2) (tcp_dst tcp_port_key) (th + tcph_check),
         key_with_tp_dst key (u16 (tcp_dst tcp_port_key)))
      else (skb, key) in
    ret (0, skb, key).

(** *** SCTP *)

Module Crc32c.

(** One step of the bitwise, reflected CRC32c (polynomial 0x82F63B78). *)
Definition shift1 (crc : Z) : Z :=
  if Z.odd crc then Z.lxor (Z.shiftr crc 1) 2197175160 else Z.shiftr crc 1.

Definition update_byte (crc b : Z) : Z :=
  let c := Z.lxor crc (u8 b) in
  shift1 (shift1 (shift1 (shift1 (shift1 (shift1 (shift1 (shift1 c))))))).

(** [crc32c(crc, buf, len)]. *)
Definition crc32c (crc : Z) (buf : list Z) : Z := fold_left update_byte buf crc.

End Crc32c.

(** [cpu_to_le32] on the big-endian host: the four bytes reversed. *)
Definition cpu_to_le32 (x : Z) : Z :=
  Z.land (Z.shiftr x 24) 255
  + Z.land (Z.shiftr x 16) 255 * 256
  + Z.land (Z.shiftr x 8) 255 * 65536
  + Z.land x 255 * 16777216.

(** [sctp_compute_cksum(skb, offset)] (include/net/sctp/checksum.h): the
    CRC32c of the packet from [offset] on, computed with the checksum field
    of the SCTP header zeroed. *)
Definition sctp_compute_cksum (skb : sk_buff) (offset : Z) : Z :=
  let sh := skb_transport_offset skb in
  let d := put_be32 (data skb) (sh + sctph_checksum) 0 in
  cpu_to_le32
    (not32 (Crc32c.crc32c 4294967295 (skipn (Z.to_nat offset) d))).

Definition set_sctp (skb : sk_buff) (key : sw_flow_key)
    (sctp_port_key : ovs_key_sctp) : M mret :=
  let sctphoff := skb_transport_offset skb in
  err <- make_writable skb (sctphoff + sizeof_sctphdr) ;;
  if negb (err =? 0) then ret (err, skb, key)
  else
    let sh := skb_transport_offset skb in
    if negb (u16 (sctp_src sctp_port_key) =? get_be16 (data skb) sh)
       || negb (u16 (sctp_dst sctp_port_key) =? get_be16 (data skb) (sh + 2))
    then
      let old_csum := get_be32 (data skb) (sh + sctph_checksum) in
      let old_correct_csum := sctp_compute_cksum skb sctphoff in
      let skb := with_data skb (put_be16 (data skb) sh (sctp_src sctp_port_key)) in
      let skb :=
        with_data skb (put_be16 (data skb) (sh + 2) (sctp_dst sctp_port_key)) in
      let new_csum := sctp_compute_cksum skb sctphoff in
      (* Carry any checksum errors through. *)
      let skb :=
        with_data skb
          (put_be32 (data skb) (sh + sctph_checksum)
             (Z.lxor (Z.lxor old_csum old_correct_csum) new_csum)) in
      let skb := skb_clear_hash skb in
      let key := key_with_tp_src key (u16 (sctp_src sctp_port_key)) in
      let key := key_with_tp_dst key (u16 (sctp_dst sctp_port_key)) in
      ret (0, skb, key)
    else ret (0, skb, key).

(** ** The executor *)

Section Executor.

Variable K : kernel.

(** [ovs_dp_upcall(dp, skb, key, &upcall)]: the packet is not consumed. *)
Definition ovs_dp_upcall (dp : datapath) (skb : sk_buff) (key : sw_flow_key)
    (upcall : dp_upcall_info) : M Z :=
  emit (EvUpcall skb key upcall) ;;
  ret (ovs_dp_upcall_ret dp skb key upcall).

Definition output_userspace (dp : datapath) (skb : sk_buff)
    (key : sw_flow_key) (attrs : list ovs_userspace_attr) : M Z :=
  let upcall0 :=
    {| cmd := OVS_PACKET_CMD_ACTION; userdata := None; portid := 0;
       upcall_egress_tun_info := None |} in
  let step (upcall : dp_upcall_info) (a : ovs_userspace_attr) :=
    match a with
    | OVS_USERSPACE_ATTR_USERDATA cookie =>
        {| cmd := cmd upcall; userdata := Some cookie;
           portid := portid upcall;
           upcall_egress_tun_info := upcall_egress_tun_info upcall |}
    | OVS_USERSPACE_ATTR_PID pid =>
        {| cmd := cmd upcall; userdata := userdata upcall;
           portid := u32 pid;
           upcall_egress_tun_info := upcall_egress_tun_info upcall |}
    | OVS_USERSPACE_ATTR_EGRESS_TUN_PORT port =>
        (* Get out tunnel info. *)
        match ovs_vport_rcu dp (u32 port) with
        | Some vport =>
            let '(err, info) := ovs_vport_get_egress_tun_info dp vport skb in
            if err =? 0 then
              {| cmd := cmd upcall; userdata := userdata upcall;
                 portid := portid upcall;
                 upcall_egress_tun_info := Some info |}
            else upcall
        | None => upcall
        end
    | OVS_USERSPACE_ATTR_OTHER _ => upcall
    end in
  ovs_dp_upcall dp skb key (fold_left step attrs upcall0).

(** The scan of [sample]'s option list: [None] when a probability draw made
    [sample] return at once, otherwise [acts_list] as it stands after the
    scan. *)
Fixpoint sample_scan (attrs : list sample_attr)
    (acts_list : option (list nlattr)) : M (option (option (list nlattr))) :=
  match attrs with
  | [] => ret (Some acts_list)
  | OVS_SAMPLE_ATTR_PROBABILITY p :: rest =>
      r <- prandom_u32 ;;
      if u32 p <=? r then ret None else sample_scan rest acts_list
  | OVS_SAMPLE_ATTR_ACTIONS acts :: rest => sample_scan rest (Some acts)
  | OVS_SAMPLE_ATTR_OTHER _ :: rest => sample_scan rest acts_list
  end.

(** [nla_type(a) == OVS_ACTION_ATTR_USERSPACE && last_action(a, rem)]: the
    options of that one user-space action. *)
Definition single_userspace (a : nlattr) (rem : Z)
  : option (list ovs_userspace_attr) :=
  match nla_act a with
  | OVS_ACTION_ATTR_USERSPACE uattrs =>
      if last_action a rem then Some uattrs else None
  | _ => None
  end.

(** [sample]'s slow path: the packet is cloned and the clone deferred with
    the pointer [a] to the first nested action. *)
Definition sample_defer (skb : sk_buff) (key : sw_flow_key)
    (acts : list nlattr) : M Z :=
  c <- skb_clone skb ;;
  match c with
  | None => ret 0       (* Skip the sample action when out of memory. *)
  | Some skb =>
      da <- add_deferred_actions skb key (Some acts) ;;
      match da with
      | Some _ => ret 0
      | None => kfree_skb skb ;; ret 0
      end
  end.

Definition sample (dp : datapath) (skb : sk_buff) (key : sw_flow_key)
    (attrs : list sample_attr) : M Z :=
  r <- sample_scan attrs None ;;
  match r with
  | None => ret 0
  | Some None => raise KernelOops          (* nla_len(NULL) *)
  | Some (Some acts) =>
      let rem := attrs_len acts in
      (* Actions list is empty, do nothing *)
      if rem =? 0 then ret 0
      else
        match acts with
        | [] => raise KernelOops           (* nla_type of what is not there *)
        | a :: _ =>
            (* The only known usage of sample action is having a single
               user-space action. Treat this usage as a special case. *)
            match single_userspace a rem with
            | Some uattrs => output_userspace dp skb key uattrs
            | None => sample_defer skb key acts
            end
        end
  end.

Definition execute_hash (skb : sk_buff) (key : sw_flow_key)
    (hash_basis : Z) : sk_buff * sw_flow_key :=
  (* OVS_HASH_ALG_L4 is the only possible hash algorithm. *)
  let '(hash, skb) := skb_get_hash K skb in
  let hash := u32 (jhash_1word K hash (u32 hash_basis)) in
  let hash := if hash =? 0 then 1 else hash in
  (skb, key_with_flow_hash key hash).

Definition execute_set_action (skb : sk_buff) (key : sw_flow_key)
    (nested_attr : ovs_key_attr) : M mret :=
  match nested_attr with
  | OVS_KEY_ATTR_PRIORITY v =>
      let skb := with_priority skb (u32 v) in
      ret (0, skb, key_with_phy key (priority skb) (phy_skb_mark key))
  | OVS_KEY_ATTR_SKB_MARK v =>
      let skb := with_mark skb (u32 v) in
      ret (0, skb, key_with_phy key (phy_priority key) (mark skb))
  | OVS_KEY_ATTR_TUNNEL_INFO info =>
      ret (0, with_egress_tun_info skb (Some info), key)
  | OVS_KEY_ATTR_ETHERNET k => set_eth_addr skb key k
  | OVS_KEY_ATTR_IPV4 k => set_ipv4 skb key k
  | OVS_KEY_ATTR_IPV6 k => set_ipv6 K skb key k
  | OVS_KEY_ATTR_TCP k => set_tcp skb key k
  | OVS_KEY_ATTR_UDP k => set_udp skb key k
  | OVS_KEY_ATTR_SCTP k => set_sctp skb key k
  | OVS_KEY_ATTR_MPLS lse => set_mpls skb key lse
  | OVS_KEY_ATTR_OTHER _ => ret (0, skb, key)
  end.

(** [execute_recirc(dp, skb, key, a, rem)] for [a] a [RECIRC] attribute
    carrying [id]; the key is returned as the caller sees it afterwards. *)
Definition execute_recirc (dp : datapath) (skb : sk_buff) (key : sw_flow_key)
    (a : nlattr) (id : Z) (rem : Z) : M mret :=
  '(err, skb, key) <-
    (if negb (is_flow_key_valid key) then
       ret (ovs_flow_key_update K skb key)
     else ret (0, skb, key)) ;;
  if negb (err =? 0) then ret (err, skb, key)
  else if negb (is_flow_key_valid key) then raise KernelOops   (* BUG_ON *)
  else
    c <- (if negb (last_action a rem) then
            (* Recirc action is the not the last action of the action
               list, need to clone the skb. *)
            skb_clone skb
          else ret (Some skb)) ;;
    match c with
    | None =>
        (* Skip the recirc action when out of memory, but continue on
           with the rest of the action list. *)
        ret (0, skb, key)
    | Some q =>
        da <- add_deferred_actions q key None ;;
        match da with
        | Some i => da_set_recirc_id i (u32 id) ;; ret (0, skb, key)
        | None => kfree_skb q ;; ret (0, skb, key)
        end
    end.

(** What follows is the part of the executor that can re-enter it;
    [exec] is the entry point [ovs_execute_actions] as nested entries see
    it. *)
Section Reentrant.

Variable exec : datapath -> sk_buff -> sw_flow_key -> list nlattr -> M Z.

Definition OVS_PACKET_CMD_MISS : Z := 1.

(** Modelled from the spec: [ovs_dp_process_packet] (datapath.c), the
    datapath's flow-matching entry point, is not part of actions.c.  The
    packet is looked up in the flow table by its key; on a hit the flow's
    actions are executed through [ovs_execute_actions]; on a miss the packet
    goes to userspace as an upcall and is released. *)
Definition ovs_dp_process_packet (dp : datapath) (skb : sk_buff)
    (key : sw_flow_key) : M unit :=
  match ovs_flow_tbl_lookup dp key with
  | Some acts => _ <- exec dp skb key acts ;; ret tt
  | None =>
      err <- ovs_dp_upcall dp skb key
               {| cmd := OVS_PACKET_CMD_MISS; userdata := None; portid := 0;
                  upcall_egress_tun_info := None |} ;;
      if err =? 0 then consume_skb skb else kfree_skb skb
  end.

(** Modelled from the spec: [ovs_vport_send] (vport.c) takes the packet.  On
    a port that loops, the network stack hands it back to the datapath's
    receive path before the call returns: its key is extracted and it is
    processed as a fresh packet. *)
Definition ovs_vport_send (dp : datapath) (vport : vport) (skb : sk_buff)
  : M unit :=
  emit (EvSend (port_no vport) skb) ;;
  match loops_to vport with
  | None => ret tt
  | Some in_port =>
      let '(err, skb, key) := ovs_flow_key_extract K in_port skb in
      if err =? 0 then ovs_dp_process_packet dp skb key
      else kfree_skb skb
  end.

Definition do_output (dp : datapath) (skb : sk_buff) (out_port : Z)
  : M unit :=
  match ovs_vport_rcu dp out_port with
  | Some vport => ovs_vport_send dp vport skb
  | None => kfree_skb skb
  end.

(** The head of an iteration of the executor's loop: a staged output is
    emitted on a clone. *)
Definition flush_prev_port (dp : datapath) (skb : sk_buff) (prev_port : Z)
  : M unit :=
  if negb (prev_port =? -1) then
    out_skb <- skb_clone skb ;;
    match out_skb with
    | Some out_skb => do_output dp out_skb prev_port
    | None => ret tt
    end
  else ret tt.

(** How one iteration of the executor's loop ends: the function returns, or
    the loop goes on to the next attribute. *)
Inductive iteration : Type :=
| Return (err : Z)
| Next (prev_port : Z) (skb : sk_buff) (key : sw_flow_key).

(** [if (unlikely(err)) { kfree_skb(skb); return err; }] *)
Definition check_err (r : mret) : M iteration :=
  let '(err, skb, key) := r in
  if negb (err =? 0) then kfree_skb skb ;; ret (Return err)
  else ret (Next (-1) skb key).

(** The [switch] of one iteration, for the attribute [a] reached with [rem]
    bytes left, and the error check after it. *)
Definition dispatch_action (dp : datapath) (skb : sk_buff)
    (key : sw_flow_key) (a : nlattr) (rem : Z) : M iteration :=
  match nla_act a with
  | OVS_ACTION_ATTR_OUTPUT port => ret (Next (int_of_u32 port) skb key)
  | OVS_ACTION_ATTR_USERSPACE uattrs =>
      _ <- output_userspace dp skb key uattrs ;;
      check_err (0, skb, key)
  | OVS_ACTION_ATTR_HASH hash_basis =>
      let '(skb, key) := execute_hash skb key hash_basis in
      check_err (0, skb, key)
  | OVS_ACTION_ATTR_PUSH_MPLS mpls =>
      r <- push_mpls skb key mpls ;; check_err r
  | OVS_ACTION_ATTR_POP_MPLS ethertype =>
      r <- pop_mpls skb key ethertype ;; check_err r
  | OVS_ACTION_ATTR_PUSH_VLAN vlan =>
      '(err, skb, key) <- push_vlan skb key vlan ;;
      if negb (err =? 0) then ret (Return err)   (* skb already freed. *)
      else check_err (0, skb, key)
  | OVS_ACTION_ATTR_POP_VLAN =>
      r <- pop_vlan skb key ;; check_err r
  | OVS_ACTION_ATTR_RECIRC id =>
      '(err, skb, key) <- execute_recirc dp skb key a id rem ;;
      if last_action a rem then
        (* If this is the last action, the skb has been consumed or freed.
           Return immediately. *)
        ret (Return err)
      else check_err (err, skb, key)
  | OVS_ACTION_ATTR_SET nested =>
      r <- execute_set_action skb key nested ;; check_err r
  | OVS_ACTION_ATTR_SAMPLE sattrs =>
      err <- sample dp skb key sattrs ;;
      check_err (err, skb, key)
  | OVS_ACTION_ATTR_OTHER _ => check_err (0, skb, key)
  end.

(** After the loop: the staged output gets the packet itself, or the packet
    is consumed. *)
Definition finish_actions (dp : datapath) (skb : sk_buff) (prev_port : Z)
  : M Z :=
  (if negb (prev_port =? -1) then do_output dp skb prev_port
   else consume_skb skb) ;;
  ret 0.

(** The loop of [do_execute_actions], entered with [prev_port], the
    attributes from [a] on and [rem]. *)
Fixpoint do_execute_actions_loop (dp : datapath) (skb : sk_buff)
    (key : sw_flow_key) (prev_port : Z) (attr : list nlattr) (rem : Z)
    {struct attr} : M Z :=
  if rem <=? 0 then finish_actions dp skb prev_port
  else
    match attr with
    | [] => raise KernelOops       (* the stream is shorter than [rem] says *)
    | a :: next =>
        flush_prev_port dp skb prev_port ;;
        r <- dispatch_action dp skb key a rem ;;
        match r with
        | Return err => ret err
        | Next prev_port skb key =>
            do_execute_actions_loop dp skb key prev_port next
              (rem - NLA_ALIGN (nla_len_field a))
        end
    end.

(** Execute a list of actions against 'skb'. *)
Definition do_execute_actions (dp : datapath) (skb : sk_buff)
    (key : sw_flow_key) (attr : list nlattr) (len : Z) : M Z :=
  do_execute_actions_loop dp skb key (-1) attr len.

(** One deferred action, taken off the FIFO and run. *)
Definition run_deferred_action (dp : datapath) : M unit :=
  w <- get_world ;;
  let '(da, f) := action_fifo_get (action_fifos w) in
  match da with
  | None => raise KernelOops                (* da->skb on NULL *)
  | Some i =>
      modify (fun w => with_fifo w f) ;;
      let da := fifo_slot f i in
      match da_actions da with
      | Some actions =>
          match actions with
          | [] => raise KernelOops          (* nla_len of what is not there *)
          | a :: _ =>
              _ <- do_execute_actions dp (da_skb da) (da_pkt_key da) actions
                     (nla_len a) ;;
              ret tt
          end
      | None => ovs_dp_process_packet dp (da_skb da) (da_pkt_key da)
      end
  end.

(** The [do ... while (!action_fifo_is_empty(fifo))] loop, run for at most
    [n] rounds. *)
Fixpoint drain_deferred_actions (n : nat) (dp : datapath) : M unit :=
  match n with
  | O => raise OutOfFuel
  | S n' =>
      run_deferred_action dp ;;
      w <- get_world ;;
      if action_fifo_is_empty (action_fifos w) then ret tt
      else drain_deferred_actions n' dp
  end.

Definition process_deferred_actions (dp : datapath) : M unit :=
  w <- get_world ;;
  (* Do not touch the FIFO in case there is no deferred actions. *)
  if action_fifo_is_empty (action_fifos w) then ret tt
  else
    (* Finishing executing all deferred actions. *)
    drain_deferred_actions (Z.to_nat DEFERRED_ACTION_FIFO_SIZE) dp ;;
    (* Reset FIFO for the next packet. *)
    modify (fun w => with_fifo w (action_fifo_init (action_fifos w))).

End Reentrant.

(** Execute a list of actions against 'skb'.  [depth] bounds how many
    entries may nest below this one; [EXEC_ACTIONS_LEVEL_LIMIT] minus the
    level at entry is enough. *)
Fixpoint ovs_execute_actions (depth : nat) (dp : datapath) (skb : sk_buff)
    (key : sw_flow_key) (acts : list nlattr) : M Z :=
  w <- get_world ;;
  let level := exec_actions_level w in
  if EXEC_ACTIONS_LEVEL_LIMIT <=? level then
    kfree_skb skb ;;
    ret (- ELOOP)
  else
    match depth with
    | O => raise OutOfFuel
    | S depth' =>
        let exec := ovs_execute_actions depth' in
        modify (fun w => with_level w (exec_actions_level w + 1)) ;;
        err <- do_execute_actions exec dp skb key acts (attrs_len acts) ;;
        (if level =? 0 then process_deferred_actions exec dp else ret tt) ;;
        modify (fun w => with_level w (exec_actions_level w - 1)) ;;
        (* This return status currently does not reflect the errors
           encounted during deferred actions execution. *)
        ret err
    end.

End Executor.

(** * The vocabulary of the statements *)

(** The world after one more buffer head has been handed out. *)
Definition after_clone (w : world) : world :=
  with_next_skb_id w (S (next_skb_id w)).

(** The world after one more call has been recorded. *)
Definition after_event (w : world) (e : event) : world :=
  with_trace w (trace w ++ [e]).

(** Offer deferred actions to the FIFO one after the other; how many it
    accepted. *)
Fixpoint enqueue_all (items : list deferred_action) : M nat :=
  match items with
  | [] => ret 0%nat
  | da :: rest =>
      r <- add_deferred_actions (da_skb da) (da_pkt_key da) (da_actions da) ;;
      n <- enqueue_all rest ;;
      ret (match r with Some _ => S n | None => n end)
  end.

Definition fifo_after_put (f : action_fifo) (da : deferred_action)
  : action_fifo :=
  fifo_store {| head := head f + 1; tail := tail f; fifo := fifo f |}
    (head f) da.

Definition recirc_key (K : kernel) (skb : sk_buff) (key : sw_flow_key)
  : Z * sk_buff * sw_flow_key :=
  if negb (is_flow_key_valid key) then ovs_flow_key_update K skb key
  else (0, skb, key).

(** The FIFO as it can be between [action_fifos_init] and
    [action_fifos_exit]. *)
Definition fifo_wf (f : action_fifo) : Prop :=
  0 <= tail f <= head f /\ head f <= DEFERRED_ACTION_FIFO_SIZE - 1
  /\ length (fifo f) = Z.to_nat DEFERRED_ACTION_FIFO_SIZE.

(** The entry a successful [RECIRC] leaves in the FIFO. *)
Definition recirc_entry (skb : sk_buff) (key : sw_flow_key) (id : Z)
  : deferred_action :=
  {| da_skb := skb; da_actions := None;
     da_pkt_key := key_with_recirc_id key (u32 id) |}.

(** ** Mutators only allocate *)

(** A computation that always returns, and touches nothing of the world but
    the allocator's script. *)
Definition alloc_only {A} (m : M A) : Prop :=
  forall w, exists r w', m w = Done r w' /\ w' = with_gfp w (gfp_atomic w').

(** A mutator's run hands back the buffer head it was given. *)
Definition keeps_id (skb : sk_buff) (m : M mret) : Prop :=
  forall w err skb' key' w',
    m w = Done (err, skb', key') w' -> skb_id skb' = skb_id skb.

(** The header mutators the executor dispatches to, [push_vlan] apart: the
    computation an action runs, when the action is one of them. *)
Definition header_mutator (K : kernel) (skb : sk_buff) (key : sw_flow_key)
    (act : action) : option (M mret) :=
  match act with
  | OVS_ACTION_ATTR_PUSH_MPLS mpls => Some (push_mpls skb key mpls)
  | OVS_ACTION_ATTR_POP_MPLS ethertype => Some (pop_mpls skb key ethertype)
  | OVS_ACTION_ATTR_POP_VLAN => Some (pop_vlan skb key)
  | OVS_ACTION_ATTR_SET nested => Some (execute_set_action K skb key nested)
  | _ => None
  end.

(** *** An executor that emits in order (the comparison point for output
    staging) *)





(** ** Byte buffers *)

(** Every element is a byte. *)
Definition bytes_ok (d : list Z) : Prop := Forall (fun b => 0 <= b < 256) d.

(** ** SCTP *)

(** The checksum stored in the SCTP header. *)
Definition sctp_stored_cksum (skb : sk_buff) : Z :=
  get_be32 (data skb) (skb_transport_offset skb + sctph_checksum).

(** The error the stored checksum carries: its difference, bit by bit, from
    the correct one. *)
Definition sctp_cksum_delta (skb : sk_buff) : Z :=
  Z.lxor (sctp_stored_cksum skb)
    (sctp_compute_cksum skb (skb_transport_offset skb)).

(** ** UDP *)

(** The UDP checksum field of the packet. *)
Definition udp_check (skb : sk_buff) : Z :=
  get_be16 (data skb) (skb_transport_offset skb + udph_check).

(** A checksum value with zero replaced by its all-ones form. *)
Definition udp_mangled (c : Z) : Z := if c =? 0 then CSUM_MANGLED_0 else c.

(** A UDP packet in partial mode, from 255.255.255.255, checksum field 0. *)
Definition partial_udp_skb : sk_buff :=
  mk_skb 1
    ([2; 0; 0; 0; 0; 1; 2; 0; 0; 0; 0; 2; 8; 0]
     ++ [69; 0; 0; 28; 0; 0; 0; 0; 64; 17; 0; 0;
         255; 255; 255; 255; 10; 0; 0; 1]
     ++ [0; 53; 0; 53; 0; 8; 0; 0])
    14 14 34 CHECKSUM_PARTIAL 0 2048 0 0 0 0 0 None None.

(** ** IPv6 *)





(** ** What executions below the outermost one do to the per-CPU state *)

(** The FIFO after producers only: nothing was taken off, the entries that
    were queued are still there. *)
Definition fifo_grows (f f' : action_fifo) : Prop :=
  tail f' = tail f /\ head f <= head f'
  /\ (forall i, 0 <= i < head f -> fifo_slot f' i = fifo_slot f i).

(** The per-CPU state after a step that ran below the outermost executor:
    the level is back where it was and the FIFO only grew. *)
Definition nested_step (w w' : world) : Prop :=
  exec_actions_level w' = exec_actions_level w
  /\ fifo_wf (action_fifos w')
  /\ fifo_grows (action_fifos w) (action_fifos w').

(** [m], run at level [L] or deeper on a well-formed FIFO, makes a nested
    step or stops on a kernel oops; it never runs out of fuel. *)
Definition nests {A} (L : Z) (m : M A) : Prop :=
  forall w, fifo_wf (action_fifos w) -> L <= exec_actions_level w ->
    match m w with
    | Done _ w' => nested_step w w'
    | Fault f => f = KernelOops
    end.

(** The FIFO after [action_fifo_get] took the entry at [tail]. *)
Definition fifo_after_get (f : action_fifo) : action_fifo :=
  {| head := head f; tail := tail f + 1; fifo := fifo f |}.

(** What the drain does with one entry: a nested run of the entry's action
    list, or flow re-dispatch when it has none. *)
Definition run_entry (K : kernel)
    (exec : datapath -> sk_buff -> sw_flow_key -> list nlattr -> M Z)
    (dp : datapath) (da : deferred_action) : M unit :=
  match da_actions da with
  | Some [] => raise KernelOops
  | Some (a :: rest) =>
      _ <- do_execute_actions K exec dp (da_skb da) (da_pkt_key da)
             (a :: rest) (nla_len a) ;;
      ret tt
  | None => ovs_dp_process_packet exec dp (da_skb da) (da_pkt_key da)
  end.

(** The levels at which [depth] nested entries are enough. *)
Definition level_floor (depth : nat) : Z :=
  Z.max 1 (EXEC_ACTIONS_LEVEL_LIMIT - Z.of_nat depth).

(** One round of the drain takes the entry at [tail] and leaves the rest of
    the FIFO to grow. *)
Definition drain_step (w w' : world) : Prop :=
  exec_actions_level w' = exec_actions_level w
  /\ fifo_wf (action_fifos w')
  /\ tail (action_fifos w') = tail (action_fifos w) + 1
  /\ head (action_fifos w) <= head (action_fifos w')
  /\ (forall i, 0 <= i < head (action_fifos w) ->
      fifo_slot (action_fifos w') i = fifo_slot (action_fifos w) i).

(** *** A flow that re-enters the executor *)

(** Port [port] of [dp] hands every packet back to the receive path, where
    its key extracts and the flow table answers with the one action
    [OUTPUT port] again. *)
Definition output_to (port : Z) : list nlattr :=
  [Nlattr 4 (OVS_ACTION_ATTR_OUTPUT port)].

Definition reenters (K : kernel) (dp : datapath) (port : Z) (v : vport)
    (in_port : Z) : Prop :=
  int_of_u32 port <> -1
  /\ ovs_vport_rcu dp (int_of_u32 port) = Some v
  /\ loops_to v = Some in_port
  /\ (forall skb, fst (fst (ovs_flow_key_extract K in_port skb)) = 0)
  /\ (forall key, ovs_flow_tbl_lookup dp key = Some (output_to port)).

(** The calls recorded when a packet enters such a flow with [n] levels
    left: [n] sends, each of the packet as the receive path returned it, and
    the free of the entry that finds the level at its limit. *)
Fixpoint reentry_trace (K : kernel) (v : vport) (in_port : Z) (n : nat)
    (skb : sk_buff) : list event :=
  match n with
  | O => [EvFree skb]
  | S n' =>
      EvSend (port_no v) skb
      :: reentry_trace K v in_port n'
           (snd (fst (ovs_flow_key_extract K in_port skb)))
  end.

(** *** Concrete packets, ports and flows *)

(** A kernel whose key re-extraction fails with [-EINVAL] and whose
    [ipv6_find_hdr] reports the Routing Header. *)
Definition kernel0 : kernel :=
  {| skb_flow_hash := fun _ => 7;
     jhash_1word := fun a b => a + b;
     ipv6_find_hdr := fun _ target _ => target;
     ovs_flow_key_update := fun skb key => (-22, skb, key);
     ovs_flow_key_extract :=
       fun in_port skb => (0, skb, key_with_eth_type da_zero_key 2048) |}.

(** Ports 3 and 4 transmit; port 9 loops back to the receive path, where
    every flow outputs to port 9 again; no other port exists. *)
Definition datapath0 : datapath :=
  {| ovs_vport_rcu :=
       fun p =>
         if p =? 3 then Some {| port_no := 3; loops_to := None |}
         else if p =? 4 then Some {| port_no := 4; loops_to := None |}
         else if p =? 9 then Some {| port_no := 9; loops_to := Some 1 |}
         else None;
     ovs_flow_tbl_lookup := fun _ => Some (output_to 9);
     ovs_dp_upcall_ret := fun _ _ _ => 0;
     ovs_vport_get_egress_tun_info := fun _ _ => (0, 0) |}.

(** A CPU at rest: level 0, the FIFO as [action_fifos_init] left it. *)
Definition world0 : world := mk_world 0 action_fifos_init [] [] 1 [].

(** The same CPU with the next [GFP_ATOMIC] allocation failing. *)
Definition world_oom : world := mk_world 0 action_fifos_init [false] [] 1 [].

Definition key0 : sw_flow_key := key_with_eth_type da_zero_key 2048.

Definition exec0 : datapath -> sk_buff -> sw_flow_key -> list nlattr -> M Z :=
  ovs_execute_actions kernel0 3.

(** Ethernet, IPv4 10.0.0.2 -> 10.0.0.1, UDP 53 -> 53 with checksum 1. *)
Definition udp_packet : sk_buff :=
  mk_skb 1
    ([2; 0; 0; 0; 0; 1; 2; 0; 0; 0; 0; 2; 8; 0]
     ++ [69; 0; 0; 28; 0; 0; 0; 0; 64; 17; 0; 0;
         10; 0; 0; 2; 10; 0; 0; 1]
     ++ [0; 53; 0; 53; 0; 8; 0; 1])
    14 14 34 CHECKSUM_NONE 0 2048 0 0 0 0 0 None None.

(** Ethernet, IPv4, SCTP 5000 -> 5001 with a stored checksum that is not the
    packet's CRC32c. *)
Definition sctp_packet : sk_buff :=
  mk_skb 2
    ([2; 0; 0; 0; 0; 1; 2; 0; 0; 0; 0; 2; 8; 0]
     ++ [69; 0; 0; 32; 0; 0; 0; 0; 64; 132; 0; 0;
         10; 0; 0; 2; 10; 0; 0; 1]
     ++ [19; 136; 19; 137; 0; 0; 0; 1; 222; 173; 190; 239])
    14 14 34 CHECKSUM_NONE 0 2048 0 0 0 0 0 None None.

(** Ethernet, IPv6 ::2 -> ::1 with a Routing Header in front of TCP. *)
Definition ipv6_rh_packet : sk_buff :=
  mk_skb 3
    ([2; 0; 0; 0; 0; 1; 2; 0; 0; 0; 0; 2; 134; 221]
     ++ [96; 0; 0; 0; 0; 28; 43; 64]
     ++ [0; 0; 0; 0; 0; 0; 0; 0; 0; 0; 0; 0; 0; 0; 0; 2]
     ++ [0; 0; 0; 0; 0; 0; 0; 0; 0; 0; 0; 0; 0; 0; 0; 1]
     ++ [6; 0; 0; 0; 0; 0; 0; 0]
     ++ [0; 80; 0; 81; 0; 0; 0; 0; 0; 0; 0; 0; 80; 0; 0; 0; 18; 52; 0; 0])
    14 14 62 CHECKSUM_NONE 0 34525 0 0 0 0 0 None None.


(** Two outputs with a mutation between them. *)
Definition staged_actions : list nlattr :=
  [Nlattr 4 (OVS_ACTION_ATTR_OUTPUT 3);
   Nlattr 8 (OVS_ACTION_ATTR_SET (OVS_KEY_ATTR_PRIORITY 5));
   Nlattr 4 (OVS_ACTION_ATTR_OUTPUT 4)].


(** ** Mutators that fail leave the packet alone *)

(** Whenever [m] returns, it has succeeded, or it has failed with
    [-ENOMEM] and hands back the packet and the key it was given. *)
Definition fails_clean (skb : sk_buff) (key : sw_flow_key) (m : M mret)
  : Prop :=
  forall w err skb' key' w',
    m w = Done (err, skb', key') w' ->
    err = 0 \/ (err = - ENOMEM /\ skb' = skb /\ key' = key).

(** ** TCP and UDP ports *)

(** [d'] is [d] with at most the two bytes of the port at [port] and the
    two bytes of the checksum at [check] rewritten. *)
Definition ports_frame (port check : Z) (d d' : list Z) : Prop :=
  length d' = length d
  /\ forall i, 0 <= i -> i < port \/ port + 2 <= i ->
               i < check \/ check + 2 <= i ->
               byte_at d' i = byte_at d i.

(** ** The Internet checksum of the IPv4 header *)

(** Equal as one's-complement sums: the difference is a multiple of
    0xFFFF. *)
Definition ones_eq (a b : Z) : Prop := exists k, a = b + 65535 * k.

(** The plain sum of the ten 16-bit words of an option-less IPv4 header at
    offset [nh], checksum field included.  The header verifies when this
    sum is a multiple of 0xFFFF. *)
Definition ip_header_sum (d : list Z) (nh : Z) : Z :=
  get_be16 d nh + get_be16 d (nh + 2) + get_be16 d (nh + 4)
  + get_be16 d (nh + 6) + get_be16 d (nh + 8) + get_be16 d (nh + 10)
  + get_be16 d (nh + 12) + get_be16 d (nh + 14) + get_be16 d (nh + 16)
  + get_be16 d (nh + 18).

(** ** A flow that recirculates for ever *)

(** The one action [RECIRC id]. *)
Definition recirc_to (id : Z) : list nlattr :=
  [Nlattr 4 (OVS_ACTION_ATTR_RECIRC id)].

(** During the drain of such a flow one entry is pending: the packet, with
    a valid key and no action list, in the slot at [tail]. *)
Definition one_pending (skb : sk_buff) (t : Z) (w : world) : Prop :=
  exec_actions_level w = 1
  /\ fifo_wf (action_fifos w)
  /\ tail (action_fifos w) = t
  /\ head (action_fifos w) = t + 1
  /\ da_skb (fifo_slot (action_fifos w) t) = skb
  /\ da_actions (fifo_slot (action_fifos w) t) = None
  /\ is_flow_key_valid (da_pkt_key (fifo_slot (action_fifos w) t)) = true.

(** ** The FIFO is first in, first out *)

(** Take entries off the FIFO with [action_fifo_get] until it is empty, at
    most [n] of them. *)
Fixpoint fifo_take_all (n : nat) (f : action_fifo) : list deferred_action :=
  match n with
  | O => []
  | S n' =>
      match action_fifo_get f with
      | (Some i, f') => fifo_slot f' i :: fifo_take_all n' f'
      | (None, _) => []
      end
  end.

(** ** [set_ipv4] as a whole *)

(** What every step of [set_ipv4] keeps: the packet is still made of bytes,
    as long as it was, its offsets where they were, and the IPv4 header's
    one's-complement sum what it was. *)
Definition ipv4_kept (nh : Z) (s s' : sk_buff) : Prop :=
  bytes_ok (data s')
  /\ length (data s') = length (data s)
  /\ transport_header s' = transport_header s
  /\ network_header s' = network_header s
  /\ ones_eq (ip_header_sum (data s') nh) (ip_header_sum (data s) nh).

(** A packet laid out as the one [set_ipv4] was given. *)
Definition laid_out (th len : Z) (s : sk_buff) : Prop :=
  bytes_ok (data s) /\ Z.of_nat (length (data s)) = len
  /\ transport_header s = th.

(** ** The first word of the IPv6 header: version, traffic class, flow
    label *)

(** All byte values, for facts about bytes that are checked by running
    through them. *)
Definition all_bytes : list Z := map Z.of_nat (seq 0 256).

(** Ethernet, IPv4 10.0.0.2 -> 10.0.0.1 with a correct header checksum,
    TCP 80 -> 81. *)
Definition tcp_packet : sk_buff :=
  mk_skb 4
    ([2; 0; 0; 0; 0; 1; 2; 0; 0; 0; 0; 2; 8; 0]
     ++ [69; 0; 0; 40; 0; 0; 0; 0; 64; 6; 102; 206;
         10; 0; 0; 2; 10; 0; 0; 1]
     ++ [0; 80; 0; 81; 0; 0; 0; 0; 0; 0; 0; 0; 80; 0; 0; 0; 18; 52; 0; 0])
    14 14 34 CHECKSUM_NONE 0 2048 0 0 0 0 0 None None.

(** Ethernet, one MPLS label stack entry (label 16, bottom of stack, TTL
    64), IPv4. *)
Definition mpls_packet : sk_buff :=
  mk_skb 5
    ([2; 0; 0; 0; 0; 1; 2; 0; 0; 0; 0; 2; 136; 71]
     ++ [0; 1; 1; 64]
     ++ [69; 0; 0; 20; 0; 0; 0; 0; 64; 6; 102; 226;
         10; 0; 0; 2; 10; 0; 0; 1])
    14 18 38 CHECKSUM_NONE 0 34887 0 0 0 0 0 None None.

(** A datapath whose every flow is [RECIRC 5]. *)
Definition datapath_recirc : datapath :=
  {| ovs_vport_rcu := fun _ => None;
     ovs_flow_tbl_lookup := fun _ => Some (recirc_to 5);
     ovs_dp_upcall_ret := fun _ _ _ => 0;
     ovs_vport_get_egress_tun_info := fun _ _ => (0, 0) |}.

(** Twelve entries told apart by their packets' identities. *)
Definition twelve_entries : list deferred_action :=
  map (fun i => {| da_skb := with_id udp_packet i; da_actions := None;
                   da_pkt_key := key0 |})
      (seq 10 12).

Definition tcp_key0 : ovs_key_tcp := {| tcp_src := 8080; tcp_dst := 443 |}.

Definition ipv4_key0 : ovs_key_ipv4 :=
  {| ipv4_src := 167772169; ipv4_dst := 167772168; ipv4_proto := 6;
     ipv4_tos := 16; ipv4_ttl := 63 |}.

Definition mpls0 : ovs_action_push_mpls :=
  {| mpls_lse := 65856; mpls_ethertype := 34887 |}.

Definition eth_key0 : ovs_key_ethernet :=
  {| key_eth_src := [2; 0; 0; 0; 0; 9]; key_eth_dst := [2; 0; 0; 0; 0; 8] |}.

Definition vlan0 : ovs_action_push_vlan :=
  {| vlan_tpid := 33024; vlan_tci_arg := 4196 |}.

(** A CPU with one deferred entry: the UDP packet with the list
    [OUTPUT 3; SET priority; OUTPUT 4]. *)
Definition world_pending : world :=
  with_fifo world0
    (fifo_after_put action_fifos_init
       {| da_skb := udp_packet; da_actions := Some staged_actions;
          da_pkt_key := key0 |}).

(** A datapath whose upcalls fail with [-ENOBUFS]. *)
Definition datapath_nobufs : datapath :=
  {| ovs_vport_rcu := fun _ => None;
     ovs_flow_tbl_lookup := fun _ => None;
     ovs_dp_upcall_ret := fun _ _ _ => -105;
     ovs_vport_get_egress_tun_info := fun _ _ => (0, 0) |}.

Definition userspace0 : nlattr := Nlattr 0 (OVS_ACTION_ATTR_USERSPACE []).

Definition sample0 : nlattr :=
  Nlattr 8 (OVS_ACTION_ATTR_SAMPLE [OVS_SAMPLE_ATTR_ACTIONS [userspace0]]).

(** The UDP packet with the 802.1Q tag 100 in its metadata. *)
Definition tagged_packet : sk_buff := with_vlan udp_packet 33024 4196.

(** * Proofs *)

(** ** The monad *)

Lemma bind_done {A B} (m : M A) (f : A -> M B) w a w' :
  m w = Done a w' -> bind m f w = f a w'.
Proof. unfold bind; intros ->; reflexivity. Qed.

Lemma bind_fault {A B} (m : M A) (f : A -> M B) w e :
  m w = Fault e -> bind m f w = Fault e.
Proof. unfold bind; intros ->; reflexivity. Qed.

Lemma bind_ret_l {A B} (a : A) (f : A -> M B) w : bind (ret a) f w = f a w.
Proof. reflexivity. Qed.

(** ** The FIFO *)

Lemma add_deferred_actions_full skb key attr w :
  DEFERRED_ACTION_FIFO_SIZE - 1 <= head (action_fifos w) ->
  add_deferred_actions skb key attr w = Done None w.
Proof.
  intros H. unfold add_deferred_actions, bind, get_world, action_fifo_put.
  destruct (Z.leb_spec (DEFERRED_ACTION_FIFO_SIZE - 1) (head (action_fifos w)));
    [reflexivity | lia].
Qed.

Lemma add_deferred_actions_room skb key attr w :
  head (action_fifos w) < DEFERRED_ACTION_FIFO_SIZE - 1 ->
  add_deferred_actions skb key attr w =
  Done (Some (head (action_fifos w)))
    (with_fifo w
       (fifo_after_put (action_fifos w)
          {| da_skb := skb; da_actions := attr; da_pkt_key := key |})).
Proof.
  intros H. unfold add_deferred_actions, bind, get_world, action_fifo_put.
  destruct (Z.leb_spec (DEFERRED_ACTION_FIFO_SIZE - 1) (head (action_fifos w)));
    [lia | reflexivity].
Qed.

Lemma enqueue_all_count items :
  forall w, 0 <= head (action_fifos w) <= DEFERRED_ACTION_FIFO_SIZE - 1 ->
  exists w',
    enqueue_all items w =
      Done (Nat.min (length items)
              (Z.to_nat (DEFERRED_ACTION_FIFO_SIZE - 1 - head (action_fifos w))))
           w'
    /\ head (action_fifos w') =
       head (action_fifos w)
       + Z.of_nat (Nat.min (length items)
           (Z.to_nat (DEFERRED_ACTION_FIFO_SIZE - 1 - head (action_fifos w))))
    /\ tail (action_fifos w') = tail (action_fifos w).
Proof.
  induction items as [|da rest IH]; intros w Hw.
  - exists w. cbn. split; [reflexivity|]. split; [lia | reflexivity].
  - cbn [enqueue_all length].
    destruct (Z.eq_dec (head (action_fifos w)) (DEFERRED_ACTION_FIFO_SIZE - 1))
      as [Hfull | Hroom].
    + rewrite (bind_done _ _ _ _ _
                 (add_deferred_actions_full _ _ _ w ltac:(lia))).
      destruct (IH w Hw) as (w' & E & Hh & Ht).
      rewrite (bind_done _ _ _ _ _ E). exists w'.
      replace (Z.to_nat (DEFERRED_ACTION_FIFO_SIZE - 1 - head (action_fifos w)))
        with 0%nat in * by lia.
      rewrite Nat.min_0_r in *. cbn. auto.
    + rewrite (bind_done _ _ _ _ _
                 (add_deferred_actions_room _ _ _ w ltac:(lia))).
      set (w1 := with_fifo w _).
      assert (H1 : head (action_fifos w1) = head (action_fifos w) + 1)
        by reflexivity.
      assert (T1 : tail (action_fifos w1) = tail (action_fifos w))
        by reflexivity.
      destruct (IH w1 ltac:(lia)) as (w' & E & Hh & Ht).
      rewrite (bind_done _ _ _ _ _ E). exists w'.
      rewrite H1 in *.
      replace (Z.to_nat (DEFERRED_ACTION_FIFO_SIZE - 1 - head (action_fifos w)))
        with (S (Z.to_nat (DEFERRED_ACTION_FIFO_SIZE - 1
                           - (head (action_fifos w) + 1)))) by lia.
      cbn [Nat.min]. unfold ret. split; [reflexivity|]. split; [lia|congruence].
Qed.

(** ** Packet-buffer primitives *)

Lemma skb_clone_ok skb w w' :
  gfp_alloc w = Done true w' ->
  skb_clone skb w = Done (Some (with_id skb (next_skb_id w'))) (after_clone w').
Proof. intros H. unfold skb_clone. rewrite (bind_done _ _ _ _ _ H). reflexivity. Qed.

Lemma skb_clone_fail skb w w' :
  gfp_alloc w = Done false w' -> skb_clone skb w = Done None w'.
Proof. intros H. unfold skb_clone. rewrite (bind_done _ _ _ _ _ H). reflexivity. Qed.

Lemma gfp_alloc_fifo w b w' :
  gfp_alloc w = Done b w' ->
  action_fifos w' = action_fifos w /\ exec_actions_level w' = exec_actions_level w
  /\ trace w' = trace w /\ next_skb_id w' = next_skb_id w
  /\ prandom w' = prandom w.
Proof.
  unfold gfp_alloc. destruct (gfp_atomic w); intros [= <- <-]; cbn; auto.
Qed.

Lemma gfp_alloc_total w : exists b w', gfp_alloc w = Done b w'.
Proof. unfold gfp_alloc. destruct (gfp_atomic w); eauto. Qed.

Lemma sample_scan_fifo attrs :
  forall acc w r w',
    sample_scan attrs acc w = Done r w' ->
    action_fifos w' = action_fifos w /\ exec_actions_level w' = exec_actions_level w
    /\ trace w' = trace w /\ next_skb_id w' = next_skb_id w
    /\ gfp_atomic w' = gfp_atomic w.
Proof.
  induction attrs as [|a rest IH]; intros acc w r w'; cbn [sample_scan].
  - intros [= <- <-]; auto.
  - destruct a as [p|acts|t]; try (intros H; apply IH in H; exact H).
    unfold bind, prandom_u32.
    destruct (prandom w) as [|x xs].
    + destruct (u32 p <=? 0).
      * intros [= <- <-]; auto.
      * intros H; apply IH in H; exact H.
    + destruct (u32 p <=? u32 x).
      * intros [= <- <-]; cbn; auto.
      * intros H; apply IH in H; cbn in H; exact H.
Qed.

(** ** The executor's loop *)

Section LoopFacts.

Variable K : kernel.
Variable exec : datapath -> sk_buff -> sw_flow_key -> list nlattr -> M Z.

Lemma loop_cons dp skb key prev a next rem :
  0 < rem ->
  do_execute_actions_loop K exec dp skb key prev (a :: next) rem =
  (flush_prev_port K exec dp skb prev ;;
   r <- dispatch_action K dp skb key a rem ;;
   match r with
   | Return err => ret err
   | Next prev_port skb key =>
       do_execute_actions_loop K exec dp skb key prev_port next
         (rem - NLA_ALIGN (nla_len_field a))
   end).
Proof.
  intros H. cbn [do_execute_actions_loop].
  destruct (Z.leb_spec rem 0); [lia | reflexivity].
Qed.

Lemma loop_done dp skb key prev attr rem :
  rem <= 0 ->
  do_execute_actions_loop K exec dp skb key prev attr rem =
  finish_actions K exec dp skb prev.
Proof.
  intros H. destruct attr; cbn [do_execute_actions_loop];
    destruct (Z.leb_spec rem 0); try lia; reflexivity.
Qed.

Lemma sample_defer_full skb key acts w w' :
  gfp_alloc w = Done true w' ->
  DEFERRED_ACTION_FIFO_SIZE - 1 <= head (action_fifos w) ->
  sample_defer skb key acts w =
  Done 0 (after_event (after_clone w') (EvFree (with_id skb (next_skb_id w')))).
Proof.
  intros Hg Hfull. unfold sample_defer.
  rewrite (bind_done _ _ _ _ _ (skb_clone_ok skb _ _ Hg)).
  destruct (gfp_alloc_fifo _ _ _ Hg) as (Hf & _).
  rewrite (bind_done _ _ _ _ _
             (add_deferred_actions_full _ _ _ (after_clone w')
                ltac:(cbn; rewrite Hf; exact Hfull))).
  reflexivity.
Qed.

Lemma attrs_len_pos a l : 0 < attrs_len (a :: l).
Proof.
  assert (Hnn : forall l, 0 <= attrs_len l).
  { induction l0 as [|b l0 IH]; cbn [attrs_len]; [lia|].
    destruct b as [n x]. unfold NLA_ALIGN, nla_len_field, NLA_HDRLEN.
    assert (0 <= Z.land (4 + Z.of_nat n + 3) (Z.lnot 3)).
    { apply Z.land_nonneg. left. lia. }
    lia. }
  cbn [attrs_len]. specialize (Hnn l).
  destruct a as [n x]. unfold NLA_ALIGN, nla_len_field, NLA_HDRLEN.
  assert (4 <= Z.land (4 + Z.of_nat n + 3) (Z.lnot 3)); [|lia].
  replace (Z.lnot 3) with (-4) by reflexivity.
  assert (E : Z.land (4 + Z.of_nat n + 3) (-4) = 4 * ((4 + Z.of_nat n + 3) / 4)).
  { replace (-4) with (Z.lnot (Z.ones 2)) by reflexivity.
    rewrite <- Z.ldiff_land, Z.ldiff_ones_r by lia.
    rewrite Z.shiftr_div_pow2, Z.shiftl_mul_pow2 by lia.
    change (2 ^ 2) with 4. lia. }
  rewrite E.
  assert (1 <= (4 + Z.of_nat n + 3) / 4).
  { apply Z.div_le_lower_bound; lia. }
  lia.
Qed.

End LoopFacts.

Lemma nth_set_nth {A} (l : list A) i x d :
  0 <= i < Z.of_nat (length l) ->
  nth (Z.to_nat i) (set_nth l i x) d = x.
Proof.
  intros H. unfold set_nth.
  destruct (Z.leb_spec 0 i); [|lia].
  destruct (Z.ltb_spec i (Z.of_nat (length l))); [|lia]. cbn [andb].
  rewrite app_nth2; rewrite length_firstn; [|lia].
  replace (Z.to_nat i - Nat.min (Z.to_nat i) (length l))%nat with 0%nat by lia.
  reflexivity.
Qed.

Lemma set_nth_set_nth {A} (l : list A) i x y :
  set_nth (set_nth l i x) i y = set_nth l i y.
Proof.
  unfold set_nth.
  destruct ((0 <=? i) && (i <? Z.of_nat (length l))) eqn:E.
  - assert (Hl : length (firstn (Z.to_nat i) l ++ x :: skipn (S (Z.to_nat i)) l)
                 = length l).
    { apply andb_prop in E. destruct E as [E1 E2].
      apply Z.leb_le in E1. apply Z.ltb_lt in E2.
      rewrite length_app, length_firstn. cbn [length]. rewrite length_skipn. lia. }
    rewrite Hl, E.
    apply andb_prop in E. destruct E as [E1 E2].
    apply Z.leb_le in E1. apply Z.ltb_lt in E2.
    assert (Hf : length (firstn (Z.to_nat i) l) = Z.to_nat i)
      by (rewrite length_firstn; lia).
    f_equal.
    + rewrite firstn_app, Hf, Nat.sub_diag. cbn [firstn].
      rewrite firstn_firstn, Nat.min_id, app_nil_r. reflexivity.
    + f_equal.
      replace (S (Z.to_nat i))
        with (length (firstn (Z.to_nat i) l ++ [x]))
        by (rewrite length_app, Hf; cbn; lia).
      change (x :: skipn (length (firstn (Z.to_nat i) l ++ [x])) l)
        with ([x] ++ skipn (length (firstn (Z.to_nat i) l ++ [x])) l).
      rewrite app_assoc, skipn_app, skipn_all, Nat.sub_diag. reflexivity.
  - rewrite E. reflexivity.
Qed.

Lemma length_set_nth {A} (l : list A) i x : length (set_nth l i x) = length l.
Proof.
  unfold set_nth.
  destruct ((0 <=? i) && (i <? Z.of_nat (length l))) eqn:E; [|reflexivity].
  apply andb_prop in E. destruct E as [E1 E2].
  apply Z.leb_le in E1. apply Z.ltb_lt in E2.
  rewrite length_app, length_firstn. cbn [length]. rewrite length_skipn. lia.
Qed.

Lemma put_then_recirc_id skb key w :
  forall id (r : mret), fifo_wf (action_fifos w) ->
  head (action_fifos w) < DEFERRED_ACTION_FIFO_SIZE - 1 ->
  (da <- add_deferred_actions skb key None ;;
   match da with
   | Some i => da_set_recirc_id i (u32 id) ;; ret r
   | None => kfree_skb skb ;; ret r
   end) w
  = Done r
      (with_fifo w (fifo_after_put (action_fifos w) (recirc_entry skb key id))).
Proof.
  intros id r (Ht & Hh & Hl) Hroom.
  rewrite (bind_done _ _ _ _ _ (add_deferred_actions_room _ _ _ w Hroom)).
  unfold da_set_recirc_id, bind, modify, ret. f_equal.
  unfold with_fifo; cbn. f_equal.
  unfold fifo_after_put, fifo_store, fifo_slot; cbn.
  rewrite nth_set_nth by (rewrite Hl; unfold DEFERRED_ACTION_FIFO_SIZE in *; lia).
  cbn. rewrite set_nth_set_nth. reflexivity.
Qed.

Section RecircFacts.

Variable K : kernel.

Lemma execute_recirc_key_error dp skb key a id rem w err skb' key' :
  recirc_key K skb key = (err, skb', key') ->
  err <> 0 ->
  execute_recirc K dp skb key a id rem w = Done (err, skb', key') w.
Proof.
  intros Hk He. unfold execute_recirc, recirc_key in *.
  destruct (negb (is_flow_key_valid key)).
  - unfold bind at 1, ret at 1. rewrite Hk.
    destruct (Z.eqb_spec err 0); [contradiction | reflexivity].
  - injection Hk as <- <- <-. contradiction.
Qed.

Lemma execute_recirc_unfold dp skb key a id rem w skb' key' :
  recirc_key K skb key = (0, skb', key') ->
  is_flow_key_valid key' = true ->
  execute_recirc K dp skb key a id rem w =
  (c <- (if negb (last_action a rem) then skb_clone skb' else ret (Some skb')) ;;
   match c with
   | None => ret (0, skb', key')
   | Some q =>
       da <- add_deferred_actions q key' None ;;
       match da with
       | Some i => da_set_recirc_id i (u32 id) ;; ret (0, skb', key')
       | None => kfree_skb q ;; ret (0, skb', key')
       end
   end) w.
Proof.
  intros Hk Hv. unfold execute_recirc, recirc_key in *.
  destruct (negb (is_flow_key_valid key)).
  - unfold bind at 1, ret at 1. rewrite Hk. cbn [Z.eqb negb].
    rewrite Hv. reflexivity.
  - injection Hk as <- <-. unfold bind at 1, ret at 1. cbn [Z.eqb negb].
    rewrite Hv. reflexivity.
Qed.

Lemma execute_recirc_bug dp skb key a id rem w skb' key' :
  recirc_key K skb key = (0, skb', key') ->
  is_flow_key_valid key' = false ->
  execute_recirc K dp skb key a id rem w = Fault KernelOops.
Proof.
  intros Hk Hv. unfold execute_recirc, recirc_key in *.
  destruct (negb (is_flow_key_valid key)).
  - unfold bind at 1, ret at 1. rewrite Hk. cbn [Z.eqb negb].
    rewrite Hv. reflexivity.
  - injection Hk as <- <-. unfold bind at 1, ret at 1. cbn [Z.eqb negb].
    rewrite Hv. reflexivity.
Qed.

(** Not the last attribute, and no memory for the clone. *)
Lemma execute_recirc_clone_oom dp skb key a id rem w w' skb' key' :
  recirc_key K skb key = (0, skb', key') ->
  is_flow_key_valid key' = true ->
  last_action a rem = false ->
  gfp_alloc w = Done false w' ->
  execute_recirc K dp skb key a id rem w = Done (0, skb', key') w'.
Proof.
  intros Hk Hv Hl Hg. rewrite (execute_recirc_unfold _ _ _ _ _ _ _ _ _ Hk Hv).
  rewrite Hl. cbn [negb].
  rewrite (bind_done _ _ _ _ _ (skb_clone_fail _ _ _ Hg)). reflexivity.
Qed.

(** Not the last attribute: the clone is deferred. *)
Lemma execute_recirc_clone_deferred dp skb key a id rem w w' skb' key' :
  recirc_key K skb key = (0, skb', key') ->
  is_flow_key_valid key' = true ->
  last_action a rem = false ->
  gfp_alloc w = Done true w' ->
  fifo_wf (action_fifos w) ->
  head (action_fifos w) < DEFERRED_ACTION_FIFO_SIZE - 1 ->
  execute_recirc K dp skb key a id rem w =
  Done (0, skb', key')
    (with_fifo (after_clone w')
       (fifo_after_put (action_fifos w)
          (recirc_entry (with_id skb' (next_skb_id w')) key' id))).
Proof.
  intros Hk Hv Hl Hg Hwf Hroom.
  rewrite (execute_recirc_unfold _ _ _ _ _ _ _ _ _ Hk Hv).
  rewrite Hl. cbn [negb].
  rewrite (bind_done _ _ _ _ _ (skb_clone_ok _ _ _ Hg)).
  destruct (gfp_alloc_fifo _ _ _ Hg) as (Hf & _).
  rewrite put_then_recirc_id; cbn; rewrite ?Hf; auto.
Qed.

(** Not the last attribute, FIFO full: the clone is freed. *)
Lemma execute_recirc_clone_dropped dp skb key a id rem w w' skb' key' :
  recirc_key K skb key = (0, skb', key') ->
  is_flow_key_valid key' = true ->
  last_action a rem = false ->
  gfp_alloc w = Done true w' ->
  DEFERRED_ACTION_FIFO_SIZE - 1 <= head (action_fifos w) ->
  execute_recirc K dp skb key a id rem w =
  Done (0, skb', key')
    (after_event (after_clone w') (EvFree (with_id skb' (next_skb_id w')))).
Proof.
  intros Hk Hv Hl Hg Hfull.
  rewrite (execute_recirc_unfold _ _ _ _ _ _ _ _ _ Hk Hv).
  rewrite Hl. cbn [negb].
  rewrite (bind_done _ _ _ _ _ (skb_clone_ok _ _ _ Hg)).
  destruct (gfp_alloc_fifo _ _ _ Hg) as (Hf & _).
  rewrite (bind_done _ _ _ _ _
             (add_deferred_actions_full _ _ _ (after_clone w')
                ltac:(cbn; rewrite Hf; exact Hfull))).
  reflexivity.
Qed.

(** The last attribute: the packet itself is deferred. *)
Lemma execute_recirc_last_deferred dp skb key a id rem w skb' key' :
  recirc_key K skb key = (0, skb', key') ->
  is_flow_key_valid key' = true ->
  last_action a rem = true ->
  fifo_wf (action_fifos w) ->
  head (action_fifos w) < DEFERRED_ACTION_FIFO_SIZE - 1 ->
  execute_recirc K dp skb key a id rem w =
  Done (0, skb', key')
    (with_fifo w (fifo_after_put (action_fifos w) (recirc_entry skb' key' id))).
Proof.
  intros Hk Hv Hl Hwf Hroom.
  rewrite (execute_recirc_unfold _ _ _ _ _ _ _ _ _ Hk Hv).
  rewrite Hl. cbn [negb]. rewrite bind_ret_l.
  apply put_then_recirc_id; auto.
Qed.

(** The last attribute, FIFO full: the packet itself is freed. *)
Lemma execute_recirc_last_dropped dp skb key a id rem w skb' key' :
  recirc_key K skb key = (0, skb', key') ->
  is_flow_key_valid key' = true ->
  last_action a rem = true ->
  DEFERRED_ACTION_FIFO_SIZE - 1 <= head (action_fifos w) ->
  execute_recirc K dp skb key a id rem w =
  Done (0, skb', key') (after_event w (EvFree skb')).
Proof.
  intros Hk Hv Hl Hfull.
  rewrite (execute_recirc_unfold _ _ _ _ _ _ _ _ _ Hk Hv).
  rewrite Hl. cbn [negb]. rewrite bind_ret_l.
  rewrite (bind_done _ _ _ _ _ (add_deferred_actions_full _ _ _ w Hfull)).
  reflexivity.
Qed.

End RecircFacts.

Lemma sample_slow_path dp skb key sattrs w w' a0 rest0 :
  sample_scan sattrs None w = Done (Some (Some (a0 :: rest0))) w' ->
  single_userspace a0 (attrs_len (a0 :: rest0)) = None ->
  sample dp skb key sattrs w = sample_defer skb key (a0 :: rest0) w'.
Proof.
  intros Hs Hu. unfold sample. rewrite (bind_done _ _ _ _ _ Hs).
  pose proof (attrs_len_pos a0 rest0) as Hp.
  destruct (Z.eqb_spec (attrs_len (a0 :: rest0)) 0); [lia|].
  rewrite Hu. reflexivity.
Qed.

(** C2.  The producer put of the per-CPU FIFO fails exactly when
    [head >= DEFERRED_ACTION_FIFO_SIZE - 1 = 9], leaving the FIFO as it was,
    and otherwise fills slot [head] and advances [head] by one; so of any
    run of offers made to a reset FIFO exactly the first 9 are accepted.
    When the put fails in [sample] the clone is freed, when it fails in
    [execute_recirc] the clone (or, for a last [RECIRC], the packet itself)
    is freed; in both the loop of the executor goes on with the next
    attribute (or returns 0) and no error is surfaced. *)
Theorem deferred_fifo_put_bound :
  (forall skb key attr w,
     (DEFERRED_ACTION_FIFO_SIZE - 1 <= head (action_fifos w) ->
      add_deferred_actions skb key attr w = Done None w)
     /\ (head (action_fifos w) < DEFERRED_ACTION_FIFO_SIZE - 1 ->
         add_deferred_actions skb key attr w =
         Done (Some (head (action_fifos w)))
           (with_fifo w
              (fifo_after_put (action_fifos w)
                 {| da_skb := skb; da_actions := attr; da_pkt_key := key |}))))
  /\ (forall items w,
        head (action_fifos w) = 0 ->
        exists w',
          enqueue_all items w = Done (Nat.min (length items) 9) w'
          /\ head (action_fifos w') = Z.of_nat (Nat.min (length items) 9))
  /\ (forall K exec dp skb key prev len sattrs next rem w w1 w2 w3 a0 rest0,
        0 < rem ->
        flush_prev_port K exec dp skb prev w = Done tt w1 ->
        sample_scan sattrs None w1 = Done (Some (Some (a0 :: rest0))) w2 ->
        single_userspace a0 (attrs_len (a0 :: rest0)) = None ->
        gfp_alloc w2 = Done true w3 ->
        DEFERRED_ACTION_FIFO_SIZE - 1 <= head (action_fifos w1) ->
        do_execute_actions_loop K exec dp skb key prev
          (Nlattr len (OVS_ACTION_ATTR_SAMPLE sattrs) :: next) rem w
        = do_execute_actions_loop K exec dp skb key (-1) next
            (rem - NLA_ALIGN (NLA_HDRLEN + Z.of_nat len))
            (after_event (after_clone w3)
               (EvFree (with_id skb (next_skb_id w3)))))
  /\ (forall K exec dp skb key prev len id next rem w w1 w2 skb' key',
        0 < rem ->
        flush_prev_port K exec dp skb prev w = Done tt w1 ->
        recirc_key K skb key = (0, skb', key') ->
        is_flow_key_valid key' = true ->
        DEFERRED_ACTION_FIFO_SIZE - 1 <= head (action_fifos w1) ->
        let a := Nlattr len (OVS_ACTION_ATTR_RECIRC id) in
        (last_action a rem = false ->
         gfp_alloc w1 = Done true w2 ->
         do_execute_actions_loop K exec dp skb key prev (a :: next) rem w
         = do_execute_actions_loop K exec dp skb' key' (-1) next
             (rem - NLA_ALIGN (NLA_HDRLEN + Z.of_nat len))
             (after_event (after_clone w2)
                (EvFree (with_id skb' (next_skb_id w2)))))
        /\ (last_action a rem = true ->
            do_execute_actions_loop K exec dp skb key prev (a :: next) rem w
            = Done 0 (after_event w1 (EvFree skb')))).
Proof.
  split; [|split; [|split]].
  - intros skb key attr w. split.
    + apply add_deferred_actions_full.
    + apply add_deferred_actions_room.
  - intros items w H0.
    destruct (enqueue_all_count items w) as (w' & E & Hh & _).
    { rewrite H0. unfold DEFERRED_ACTION_FIFO_SIZE. lia. }
    rewrite H0 in *. exists w'. split; [exact E | rewrite Hh; reflexivity].
  - intros K exec dp skb key prev len sattrs next rem w w1 w2 w3 a0 rest0
           Hrem Hflush Hscan Hslow Hg Hfull.
    rewrite loop_cons by exact Hrem.
    rewrite (bind_done _ _ _ _ _ Hflush).
    unfold dispatch_action; cbn [nla_act].
    destruct (sample_scan_fifo _ _ _ _ _ Hscan) as (Hf & _).
    assert (Hs : sample dp skb key sattrs w1 =
                 Done 0 (after_event (after_clone w3)
                           (EvFree (with_id skb (next_skb_id w3))))).
    { rewrite (sample_slow_path _ _ _ _ _ _ _ _ Hscan Hslow).
      apply sample_defer_full; [exact Hg | rewrite Hf; exact Hfull]. }
    assert (Hd : dispatch_action K dp skb key
                   (Nlattr len (OVS_ACTION_ATTR_SAMPLE sattrs)) rem w1
                 = Done (Next (-1) skb key)
                     (after_event (after_clone w3)
                        (EvFree (with_id skb (next_skb_id w3))))).
    { unfold dispatch_action; cbn [nla_act].
      rewrite (bind_done _ _ _ _ _ Hs). reflexivity. }
    rewrite (bind_done _ _ _ _ _ Hd). reflexivity.
  - intros K exec dp skb key prev len id next rem w w1 w2 skb' key'
           Hrem Hflush Hk Hv Hfull a. split.
    + intros Hl Hg.
      rewrite loop_cons by exact Hrem.
      rewrite (bind_done _ _ _ _ _ Hflush).
      pose proof (execute_recirc_clone_dropped K dp skb key a id rem
                    w1 w2 skb' key' Hk Hv Hl Hg Hfull) as Hr.
      assert (Hd : dispatch_action K dp skb key a rem w1
                   = Done (Next (-1) skb' key')
                       (after_event (after_clone w2)
                          (EvFree (with_id skb' (next_skb_id w2))))).
      { unfold dispatch_action; cbn [nla_act a].
        rewrite (bind_done _ _ _ _ _ Hr). rewrite Hl. reflexivity. }
      rewrite (bind_done _ _ _ _ _ Hd). reflexivity.
    + intros Hl.
      rewrite loop_cons by exact Hrem.
      rewrite (bind_done _ _ _ _ _ Hflush).
      pose proof (execute_recirc_last_dropped K dp skb key a id rem
                    w1 skb' key' Hk Hv Hl Hfull) as Hr.
      assert (Hd : dispatch_action K dp skb key a rem w1
                   = Done (Return 0) (after_event w1 (EvFree skb'))).
      { unfold dispatch_action; cbn [nla_act a].
        rewrite (bind_done _ _ _ _ _ Hr). rewrite Hl. reflexivity. }
      rewrite (bind_done _ _ _ _ _ Hd). reflexivity.
Qed.

Section OutputFacts.

Variable K : kernel.
Variable exec : datapath -> sk_buff -> sw_flow_key -> list nlattr -> M Z.

Lemma flush_none dp skb w : flush_prev_port K exec dp skb (-1) w = Done tt w.
Proof. reflexivity. Qed.

Lemma flush_clone dp skb prev w w1 :
  prev <> -1 ->
  gfp_alloc w = Done true w1 ->
  flush_prev_port K exec dp skb prev w =
  do_output K exec dp (with_id skb (next_skb_id w1)) prev (after_clone w1).
Proof.
  intros Hp Hg. unfold flush_prev_port.
  destruct (Z.eqb_spec prev (-1)); [contradiction|]. cbn [negb].
  rewrite (bind_done _ _ _ _ _ (skb_clone_ok _ _ _ Hg)). reflexivity.
Qed.

Lemma flush_clone_oom dp skb prev w w1 :
  prev <> -1 ->
  gfp_alloc w = Done false w1 ->
  flush_prev_port K exec dp skb prev w = Done tt w1.
Proof.
  intros Hp Hg. unfold flush_prev_port.
  destruct (Z.eqb_spec prev (-1)); [contradiction|]. cbn [negb].
  rewrite (bind_done _ _ _ _ _ (skb_clone_fail _ _ _ Hg)). reflexivity.
Qed.

Lemma do_output_no_port dp skb port w :
  ovs_vport_rcu dp port = None ->
  do_output K exec dp skb port w = Done tt (after_event w (EvFree skb)).
Proof. intros H. unfold do_output. rewrite H. reflexivity. Qed.

(** C10.  When the port lookup for the target of an emission returns none,
    the packet handed to [do_output] is freed and nothing else happens: for
    a staged output the clone is freed and the loop runs the remaining
    attributes as it would with no output staged; after the last attribute
    the packet itself is freed and the executor returns 0. *)
Theorem output_to_missing_port_frees :
  forall dp port, ovs_vport_rcu dp port = None ->
  (forall skb w,
     do_output K exec dp skb port w = Done tt (after_event w (EvFree skb)))
  /\ (forall skb key a next rem w w1,
        port <> -1 -> 0 < rem ->
        gfp_alloc w = Done true w1 ->
        do_execute_actions_loop K exec dp skb key port (a :: next) rem w
        = do_execute_actions_loop K exec dp skb key (-1) (a :: next) rem
            (after_event (after_clone w1)
               (EvFree (with_id skb (next_skb_id w1)))))
  /\ (forall skb key attr rem w,
        port <> -1 -> rem <= 0 ->
        do_execute_actions_loop K exec dp skb key port attr rem w
        = Done 0 (after_event w (EvFree skb))).
Proof.
  intros dp port Hnone. split; [|split].
  - intros. apply do_output_no_port; assumption.
  - intros skb key a next rem w w1 Hp Hrem Hg.
    rewrite !loop_cons by exact Hrem.
    assert (Hf : flush_prev_port K exec dp skb port w =
                 Done tt (after_event (after_clone w1)
                            (EvFree (with_id skb (next_skb_id w1))))).
    { rewrite (flush_clone _ _ _ _ _ Hp Hg). apply do_output_no_port; assumption. }
    rewrite (bind_done _ _ _ _ _ Hf).
    rewrite (bind_done _ _ _ _ _ (flush_none _ _ _)). reflexivity.
  - intros skb key attr rem w Hp Hrem.
    rewrite loop_done by exact Hrem. unfold finish_actions.
    destruct (Z.eqb_spec port (-1)); [contradiction|]. cbn [negb].
    rewrite (bind_done _ _ _ _ _ (do_output_no_port _ _ _ _ Hnone)).
    reflexivity.
Qed.

End OutputFacts.

Lemma alloc_only_ret {A} (a : A) : alloc_only (ret a).
Proof. intros w. exists a, w. split; [reflexivity | destruct w; reflexivity]. Qed.

Lemma alloc_only_bind {A B} (m : M A) (f : A -> M B) :
  alloc_only m -> (forall a, alloc_only (f a)) -> alloc_only (bind m f).
Proof.
  intros Hm Hf w. destruct (Hm w) as (a & w1 & E1 & F1).
  destruct (Hf a w1) as (b & w2 & E2 & F2).
  exists b, w2. unfold bind. rewrite E1, E2. split; [reflexivity|].
  rewrite F2, F1 at 1. reflexivity.
Qed.

Lemma alloc_only_gfp : alloc_only gfp_alloc.
Proof.
  intros w. unfold gfp_alloc. destruct (gfp_atomic w) eqn:E.
  - exists true, w. split; [reflexivity|]. destruct w; cbn in *; subst; reflexivity.
  - exists b, (with_gfp w l). split; reflexivity.
Qed.

Ltac alloc_only_tac :=
  repeat first
    [ apply alloc_only_ret
    | apply alloc_only_gfp
    | apply alloc_only_bind; [| intros ?]
    | match goal with
      | |- alloc_only (if ?b then _ else _) => destruct b
      | |- alloc_only (match ?x with _ => _ end) => destruct x
      end ].

Lemma alloc_only_make_writable skb n : alloc_only (make_writable skb n).
Proof. unfold make_writable. alloc_only_tac. Qed.

Lemma alloc_only_skb_cow_head skb n : alloc_only (skb_cow_head skb n).
Proof. unfold skb_cow_head. alloc_only_tac. Qed.

Lemma alloc_only_push_mpls skb key mpls : alloc_only (push_mpls skb key mpls).
Proof.
  unfold push_mpls. apply alloc_only_bind; [apply alloc_only_skb_cow_head|].
  intros err. alloc_only_tac.
Qed.

Lemma alloc_only_pop_mpls skb key e : alloc_only (pop_mpls skb key e).
Proof.
  unfold pop_mpls. apply alloc_only_bind; [apply alloc_only_make_writable|].
  intros err. alloc_only_tac.
Qed.

Lemma alloc_only_set_mpls skb key lse : alloc_only (set_mpls skb key lse).
Proof.
  unfold set_mpls. apply alloc_only_bind; [apply alloc_only_make_writable|].
  intros err. alloc_only_tac.
Qed.

Lemma alloc_only___pop_vlan_tci skb : alloc_only (__pop_vlan_tci skb).
Proof.
  unfold __pop_vlan_tci. apply alloc_only_bind; [apply alloc_only_make_writable|].
  intros err. alloc_only_tac.
Qed.

Lemma alloc_only_pop_vlan skb key : alloc_only (pop_vlan skb key).
Proof.
  unfold pop_vlan. apply alloc_only_bind.
  - destruct (vlan_tx_tag_present skb); [apply alloc_only_ret|].
    destruct (no_inband_vlan skb); [apply alloc_only_ret|].
    apply alloc_only_bind; [apply alloc_only___pop_vlan_tci|].
    intros [[? ?] ?]. apply alloc_only_ret.
  - intros [[err skb'] stop]. destruct stop; [apply alloc_only_ret|].
    destruct (no_inband_vlan skb'); [apply alloc_only_ret|].
    apply alloc_only_bind; [apply alloc_only___pop_vlan_tci|].
    intros [[? ?] ?]. alloc_only_tac.
Qed.

Lemma alloc_only_set_eth_addr skb key k : alloc_only (set_eth_addr skb key k).
Proof.
  unfold set_eth_addr. apply alloc_only_bind; [apply alloc_only_make_writable|].
  intros err. alloc_only_tac.
Qed.

Lemma alloc_only_set_ipv4 skb key k : alloc_only (set_ipv4 skb key k).
Proof.
  unfold set_ipv4. apply alloc_only_bind; [apply alloc_only_make_writable|].
  intros err. destruct (negb (err =? 0)); [apply alloc_only_ret|].
  repeat match goal with
         | |- alloc_only (let '(_, _) := ?x in _) => destruct x
         end.
  apply alloc_only_ret.
Qed.

Lemma alloc_only_set_ipv6 K skb key k : alloc_only (set_ipv6 K skb key k).
Proof.
  unfold set_ipv6. apply alloc_only_bind; [apply alloc_only_make_writable|].
  intros err. destruct (negb (err =? 0)); [apply alloc_only_ret|].
  repeat match goal with
         | |- alloc_only (let '(_, _) := ?x in _) => destruct x
         end.
  apply alloc_only_ret.
Qed.

Lemma alloc_only_set_udp skb key k : alloc_only (set_udp skb key k).
Proof.
  unfold set_udp. apply alloc_only_bind; [apply alloc_only_make_writable|].
  intros err. destruct (negb (err =? 0)); [apply alloc_only_ret|].
  repeat match goal with
         | |- alloc_only (let '(_, _) := ?x in _) => destruct x
         end.
  apply alloc_only_ret.
Qed.

Lemma alloc_only_set_tcp skb key k : alloc_only (set_tcp skb key k).
Proof.
  unfold set_tcp. apply alloc_only_bind; [apply alloc_only_make_writable|].
  intros err. destruct (negb (err =? 0)); [apply alloc_only_ret|].
  repeat match goal with
         | |- alloc_only (let '(_, _) := ?x in _) => destruct x
         end.
  apply alloc_only_ret.
Qed.

Lemma alloc_only_set_sctp skb key k : alloc_only (set_sctp skb key k).
Proof.
  unfold set_sctp. apply alloc_only_bind; [apply alloc_only_make_writable|].
  intros err. alloc_only_tac.
Qed.

Lemma alloc_only_execute_set_action K skb key nested :
  alloc_only (execute_set_action K skb key nested).
Proof.
  destruct nested; cbn [execute_set_action];
    first [ apply alloc_only_ret | apply alloc_only_set_eth_addr
          | apply alloc_only_set_ipv4 | apply alloc_only_set_ipv6
          | apply alloc_only_set_tcp | apply alloc_only_set_udp
          | apply alloc_only_set_sctp | apply alloc_only_set_mpls ].
Qed.

(** ** Mutators keep the buffer head *)

Ltac split_ifs :=
  repeat match goal with
         | |- context [if ?b then _ else _] => destruct b
         end.

Lemma skb_id_inet_proto_csum_replace sum skb diff ph :
  skb_id (inet_proto_csum_replace sum skb diff ph) = skb_id skb.
Proof. unfold inet_proto_csum_replace. split_ifs; reflexivity. Qed.

Lemma skb_id_udp_mangle_zero skb : skb_id (udp_mangle_zero skb) = skb_id skb.
Proof. unfold udp_mangle_zero. split_ifs; reflexivity. Qed.

Lemma skb_id_set_ip_addr skb nh addr new_addr :
  skb_id (set_ip_addr skb nh addr new_addr) = skb_id skb.
Proof.
  unfold set_ip_addr, inet_proto_csum_replace4. cbn [skb_id with_data skb_clear_hash with_rxhash].
  split_ifs; rewrite ?skb_id_udp_mangle_zero, ?skb_id_inet_proto_csum_replace;
    reflexivity.
Qed.

Lemma skb_id_update_ipv6_checksum skb p addr new_addr :
  skb_id (update_ipv6_checksum skb p addr new_addr) = skb_id skb.
Proof.
  unfold update_ipv6_checksum, inet_proto_csum_replace16.
  split_ifs; rewrite ?skb_id_udp_mangle_zero, ?skb_id_inet_proto_csum_replace;
    reflexivity.
Qed.

Lemma skb_id_set_ipv6_addr skb p addr new_addr r :
  skb_id (set_ipv6_addr skb p addr new_addr r) = skb_id skb.
Proof.
  unfold set_ipv6_addr. cbn [skb_id with_data skb_clear_hash with_rxhash].
  destruct r; rewrite ?skb_id_update_ipv6_checksum; reflexivity.
Qed.

Lemma skb_id_set_tp_port skb port new_port check :
  skb_id (set_tp_port skb port new_port check) = skb_id skb.
Proof.
  unfold set_tp_port, inet_proto_csum_replace2, inet_proto_csum_replace4.
  cbn [skb_id with_data skb_clear_hash with_rxhash].
  apply skb_id_inet_proto_csum_replace.
Qed.

Lemma skb_id_set_udp_port skb port new_port :
  skb_id (set_udp_port skb port new_port) = skb_id skb.
Proof.
  unfold set_udp_port.
  split_ifs; rewrite ?skb_id_udp_mangle_zero, ?skb_id_set_tp_port; reflexivity.
Qed.

Ltac keeps_id_start :=
  intros w err skb' key' w'; unfold bind;
  match goal with
  | |- context [make_writable ?s ?n w] => destruct (make_writable s n w) as [e w1|]
  | |- context [skb_cow_head ?s ?n w] => destruct (skb_cow_head s n w) as [e w1|]
  end; [|discriminate].

Lemma keeps_id_push_mpls skb key mpls : keeps_id skb (push_mpls skb key mpls).
Proof.
  unfold push_mpls. keeps_id_start.
  destruct (e <? 0); unfold ret; intros [= <- <- <- <-]; [reflexivity|].
  split_ifs; reflexivity.
Qed.

Lemma keeps_id_pop_mpls skb key e0 : keeps_id skb (pop_mpls skb key e0).
Proof.
  unfold pop_mpls. keeps_id_start.
  destruct (negb (e =? 0)); unfold ret; intros [= <- <- <- <-]; [reflexivity|].
  split_ifs; reflexivity.
Qed.

Lemma keeps_id_set_mpls skb key lse : keeps_id skb (set_mpls skb key lse).
Proof.
  unfold set_mpls. keeps_id_start.
  destruct (negb (e =? 0)); unfold ret; intros [= <- <- <- <-]; [reflexivity|].
  split_ifs; reflexivity.
Qed.

Lemma skb_id___pop_vlan_tci skb w err skb' tci w' :
  __pop_vlan_tci skb w = Done (err, skb', tci) w' -> skb_id skb' = skb_id skb.
Proof.
  unfold __pop_vlan_tci, bind.
  destruct (make_writable skb VLAN_ETH_HLEN w) as [e w1|]; [|discriminate].
  destruct (negb (e =? 0)); unfold ret; intros [= <- <- <- <-]; [reflexivity|].
  unfold vlan_set_encap_proto. split_ifs; reflexivity.
Qed.

Lemma keeps_id_pop_vlan skb key : keeps_id skb (pop_vlan skb key).
Proof.
  intros w err skb' key' w'. unfold pop_vlan.
  destruct (vlan_tx_tag_present skb).
  - rewrite bind_ret_l.
    destruct (no_inband_vlan (vlan_set_tci skb 0)).
    + intros [= <- <- <- <-]. reflexivity.
    + unfold bind.
      destruct (__pop_vlan_tci (vlan_set_tci skb 0) w) as [[[e s] t] w1|] eqn:E;
        [|discriminate].
      apply skb_id___pop_vlan_tci in E. cbn in E.
      destruct (negb (e =? 0)); unfold ret; intros [= <- <- <- <-]; exact E.
  - destruct (no_inband_vlan skb) eqn:Hn.
    + rewrite bind_ret_l. intros [= <- <- <- <-]. reflexivity.
    + unfold bind at 1. unfold bind at 1.
      destruct (__pop_vlan_tci skb w) as [[[e s] t] w1|] eqn:E; [|discriminate].
      apply skb_id___pop_vlan_tci in E. unfold ret at 1.
      destruct (negb (e =? 0)).
      * intros [= <- <- <- <-]. exact E.
      * destruct (no_inband_vlan s).
        -- intros [= <- <- <- <-]. exact E.
        -- unfold bind.
           destruct (__pop_vlan_tci s w1) as [[[e2 s2] t2] w2|] eqn:E2;
             [|discriminate].
           apply skb_id___pop_vlan_tci in E2.
           destruct (negb (e2 =? 0)); unfold ret; intros [= <- <- <- <-];
             cbn; congruence.
Qed.

Lemma keeps_id_set_eth_addr skb key k : keeps_id skb (set_eth_addr skb key k).
Proof.
  unfold set_eth_addr. keeps_id_start.
  destruct (negb (e =? 0)); unfold ret; intros [= <- <- <- <-]; [reflexivity|].
  unfold ovs_skb_postpush_rcsum, skb_postpull_rcsum, is_complete.
  cbn. split_ifs; reflexivity.
Qed.

Ltac keeps_id_stage E :=
  match type of E with
  | (if ?c then _ else _) = _ =>
      destruct c in E; cbv zeta in E; apply (f_equal fst) in E;
      cbn [fst] in E; rewrite <- E;
      lazymatch goal with
      | |- skb_id (set_ip_addr _ _ _ _) = _ => apply skb_id_set_ip_addr
      | |- skb_id (set_udp_port _ _ _) = _ => apply skb_id_set_udp_port
      | |- skb_id (set_tp_port _ _ _ _) = _ => apply skb_id_set_tp_port
      | |- _ => reflexivity
      end
  end.

Lemma keeps_id_set_ipv4 skb key k : keeps_id skb (set_ipv4 skb key k).
Proof.
  unfold set_ipv4. keeps_id_start.
  destruct (negb (e =? 0)); unfold ret; [intros [= <- <- <- <-]; reflexivity|].
  match goal with |- context [let '(_, _) := ?x in _] =>
    destruct x as [s1 k1] eqn:E1 end.
  match goal with |- context [let '(_, _) := ?x in _] =>
    destruct x as [s2 k2] eqn:E2 end.
  match goal with |- context [let '(_, _) := ?x in _] =>
    destruct x as [s3 k3] eqn:E3 end.
  match goal with |- context [let '(_, _) := ?x in _] =>
    destruct x as [s4 k4] eqn:E4 end.
  intros [= <- <- <- <-].
  assert (H1 : skb_id s1 = skb_id skb) by keeps_id_stage E1.
  assert (H2 : skb_id s2 = skb_id s1) by keeps_id_stage E2.
  assert (H3 : skb_id s3 = skb_id s2) by keeps_id_stage E3.
  assert (H4 : skb_id s4 = skb_id s3) by keeps_id_stage E4.
  congruence.
Qed.

Lemma keeps_id_set_ipv6 K skb key k : keeps_id skb (set_ipv6 K skb key k).
Proof.
  unfold set_ipv6. keeps_id_start.
  destruct (negb (e =? 0)); unfold ret; [intros [= <- <- <- <-]; reflexivity|].
  destruct (set_ipv6_src_step skb key k) as [s1 k1] eqn:E1.
  destruct (set_ipv6_dst_step K s1 k1 k) as [s2 k2] eqn:E2.
  intros [= <- <- <- <-].
  unfold set_ipv6_fl, set_ipv6_tc. cbn [skb_id with_data].
  unfold set_ipv6_src_step in E1. unfold set_ipv6_dst_step in E2.
  assert (H1 : skb_id s1 = skb_id skb).
  { destruct (negb (in6_eqb _ _)) in E1; injection E1 as <- <-;
      rewrite ?skb_id_set_ipv6_addr; reflexivity. }
  assert (H2 : skb_id s2 = skb_id s1).
  { destruct (negb (in6_eqb _ _)) in E2; injection E2 as <- <-;
      rewrite ?skb_id_set_ipv6_addr; reflexivity. }
  congruence.
Qed.

Lemma keeps_id_set_udp skb key k : keeps_id skb (set_udp skb key k).
Proof.
  unfold set_udp. keeps_id_start.
  destruct (negb (e =? 0)); unfold ret; [intros [= <- <- <- <-]; reflexivity|].
  match goal with |- context [let '(_, _) := ?x in _] =>
    destruct x as [s1 k1] eqn:E1 end.
  match goal with |- context [let '(_, _) := ?x in _] =>
    destruct x as [s2 k2] eqn:E2 end.
  intros [= <- <- <- <-].
  assert (H1 : skb_id s1 = skb_id skb) by keeps_id_stage E1.
  assert (H2 : skb_id s2 = skb_id s1) by keeps_id_stage E2.
  congruence.
Qed.

Lemma keeps_id_set_tcp skb key k : keeps_id skb (set_tcp skb key k).
Proof.
  unfold set_tcp. keeps_id_start.
  destruct (negb (e =? 0)); unfold ret; [intros [= <- <- <- <-]; reflexivity|].
  match goal with |- context [let '(_, _) := ?x in _] =>
    destruct x as [s1 k1] eqn:E1 end.
  match goal with |- context [let '(_, _) := ?x in _] =>
    destruct x as [s2 k2] eqn:E2 end.
  intros [= <- <- <- <-].
  assert (H1 : skb_id s1 = skb_id skb) by keeps_id_stage E1.
  assert (H2 : skb_id s2 = skb_id s1) by keeps_id_stage E2.
  congruence.
Qed.

Lemma keeps_id_set_sctp skb key k : keeps_id skb (set_sctp skb key k).
Proof.
  unfold set_sctp. keeps_id_start.
  destruct (negb (e =? 0)); unfold ret; [intros [= <- <- <- <-]; reflexivity|].
  split_ifs; intros [= <- <- <- <-]; reflexivity.
Qed.

Lemma keeps_id_execute_set_action K skb key nested :
  keeps_id skb (execute_set_action K skb key nested).
Proof.
  destruct nested; cbn [execute_set_action];
    first [ apply keeps_id_set_eth_addr
          | apply keeps_id_set_ipv4 | apply keeps_id_set_ipv6
          | apply keeps_id_set_tcp | apply keeps_id_set_udp
          | apply keeps_id_set_sctp | apply keeps_id_set_mpls
          | intros w err skb' key' w'; unfold ret; intros [= <- <- <- <-];
            reflexivity ].
Qed.

Lemma header_mutator_alloc_only K skb key act m :
  header_mutator K skb key act = Some m -> alloc_only m.
Proof.
  destruct act; cbn [header_mutator]; intros [= <-];
    auto using alloc_only_push_mpls, alloc_only_pop_mpls, alloc_only_pop_vlan,
      alloc_only_execute_set_action.
Qed.

Lemma header_mutator_keeps_id K skb key act m :
  header_mutator K skb key act = Some m -> keeps_id skb m.
Proof.
  destruct act; cbn [header_mutator]; intros [= <-];
    auto using keeps_id_push_mpls, keeps_id_pop_mpls, keeps_id_pop_vlan,
      keeps_id_execute_set_action.
Qed.

Lemma header_mutator_dispatch K dp skb key a rem m :
  header_mutator K skb key (nla_act a) = Some m ->
  dispatch_action K dp skb key a rem = (r <- m ;; check_err r).
Proof.
  unfold dispatch_action.
  destruct (nla_act a); cbn [header_mutator]; intros [= <-]; reflexivity.
Qed.

Lemma push_vlan_cases skb key vlan w :
  exists err skb' key' w',
    push_vlan skb key vlan w = Done (err, skb', key') w'
    /\ skb_id skb' = skb_id skb
    /\ ((err = 0 /\ trace w' = trace w)
        \/ (err = - ENOMEM /\ trace w' = trace w ++ [EvFree skb])).
Proof.
  unfold push_vlan.
  destruct (vlan_tx_tag_present skb).
  - unfold __vlan_put_tag, skb_cow_head, bind.
    destruct (gfp_alloc_total w) as (b & w1 & Hg). rewrite Hg.
    destruct (gfp_alloc_fifo _ _ _ Hg) as (_ & _ & Ht & _).
    destruct b; unfold ret; cbn [Z.ltb Z.compare Z.opp ENOMEM].
    + do 4 eexists. split; [reflexivity|]. split.
      * split_ifs; reflexivity.
      * left. split; [reflexivity | exact Ht].
    + do 4 eexists. split; [reflexivity|]. split; [reflexivity|].
      right. split; [reflexivity|]. cbn. rewrite Ht. reflexivity.
  - do 4 eexists. split; [reflexivity|]. split; [reflexivity|].
    left. split; reflexivity.
Qed.

Section MutatorErrors.

Variable K : kernel.
Variable exec : datapath -> sk_buff -> sw_flow_key -> list nlattr -> M Z.

(** C9.  When a header mutator fails in the middle of the executor's loop,
    the executor frees the packet - the mutator has recorded no call of its
    own, so this is the one free - and returns the mutator's error, leaving
    the remaining attributes unexecuted.  [push_vlan] is the exception: its
    only error is [-ENOMEM] from its internal push, which has freed the
    packet already; the executor then returns that error at once and frees
    nothing. *)
Theorem mutator_error_frees_packet_once :
  forall dp skb key prev a next rem w w1,
    0 < rem ->
    flush_prev_port K exec dp skb prev w = Done tt w1 ->
    (forall m err skb' key' w2,
       header_mutator K skb key (nla_act a) = Some m ->
       m w1 = Done (err, skb', key') w2 ->
       err <> 0 ->
       do_execute_actions_loop K exec dp skb key prev (a :: next) rem w
       = Done err (after_event w2 (EvFree skb'))
       /\ trace w2 = trace w1
       /\ skb_id skb' = skb_id skb)
    /\ (forall vlan err skb' key' w2,
          nla_act a = OVS_ACTION_ATTR_PUSH_VLAN vlan ->
          push_vlan skb key vlan w1 = Done (err, skb', key') w2 ->
          err <> 0 ->
          do_execute_actions_loop K exec dp skb key prev (a :: next) rem w
          = Done err w2
          /\ trace w2 = trace w1 ++ [EvFree skb]).
Proof.
  intros dp skb key prev a next rem w w1 Hrem Hflush. split.
  - intros m err skb' key' w2 Hm Hrun Herr.
    rewrite loop_cons by exact Hrem.
    rewrite (bind_done _ _ _ _ _ Hflush).
    rewrite (header_mutator_dispatch _ dp _ _ _ rem _ Hm).
    assert (Hd : (r <- m ;; check_err r) w1
                 = Done (Return err) (after_event w2 (EvFree skb'))).
    { rewrite (bind_done _ _ _ _ _ Hrun). unfold check_err.
      destruct (Z.eqb_spec err 0); [contradiction | reflexivity]. }
    rewrite (bind_done _ _ _ _ _ Hd). split; [reflexivity|]. split.
    + destruct (header_mutator_alloc_only _ _ _ _ _ Hm w1) as (r & w' & E & F).
      rewrite Hrun in E. injection E as _ <-. rewrite F. reflexivity.
    + exact (header_mutator_keeps_id _ _ _ _ _ Hm _ _ _ _ _ Hrun).
  - intros vlan err skb' key' w2 Ha Hrun Herr.
    rewrite loop_cons by exact Hrem.
    rewrite (bind_done _ _ _ _ _ Hflush).
    assert (Hd : dispatch_action K dp skb key a rem w1 = Done (Return err) w2).
    { unfold dispatch_action. rewrite Ha.
      rewrite (bind_done _ _ _ _ _ Hrun).
      destruct (Z.eqb_spec err 0); [contradiction | reflexivity]. }
    rewrite (bind_done _ _ _ _ _ Hd). split; [reflexivity|].
    destruct (push_vlan_cases skb key vlan w1) as (e & s & k & w' & E & _ & H).
    rewrite Hrun in E. injection E as <- <- <- <-.
    destruct H as [[H0 _] | [_ Ht]]; [contradiction | exact Ht].
Qed.

End MutatorErrors.


Lemma bind_ext {A B} (m : M A) (f g : A -> M B) w :
  (forall a w', f a w' = g a w') -> bind m f w = bind m g w.
Proof. intros H. unfold bind. destruct (m w); [apply H | reflexivity]. Qed.





Section Staging.

Variable K : kernel.
Variable exec : datapath -> sk_buff -> sw_flow_key -> list nlattr -> M Z.





End Staging.

Lemma u8_range x : 0 <= u8 x < 256.
Proof. unfold u8. apply Z.mod_pos_bound. lia. Qed.

Lemma u16_range x : 0 <= u16 x < 65536.
Proof. unfold u16. apply Z.mod_pos_bound. lia. Qed.

Lemma u32_range x : 0 <= u32 x < 4294967296.
Proof. unfold u32. apply Z.mod_pos_bound. lia. Qed.

Lemma u16_small x : 0 <= x < 65536 -> u16 x = x.
Proof. intros. unfold u16. apply Z.mod_small. lia. Qed.

Lemma u32_small x : 0 <= x < 4294967296 -> u32 x = x.
Proof. intros. unfold u32. apply Z.mod_small. lia. Qed.

Lemma length_put_bytes d off bs :
  0 <= off -> off + Z.of_nat (length bs) <= Z.of_nat (length d) ->
  length (put_bytes d off bs) = length d.
Proof.
  intros H0 H1. unfold put_bytes.
  rewrite !length_app, length_firstn, length_skipn. lia.
Qed.

Lemma byte_at_put_bytes_in d off bs i :
  0 <= off -> off + Z.of_nat (length bs) <= Z.of_nat (length d) ->
  off <= i < off + Z.of_nat (length bs) ->
  byte_at (put_bytes d off bs) i = nth (Z.to_nat (i - off)) bs 0.
Proof.
  intros H0 H1 Hi. unfold byte_at, put_bytes.
  rewrite app_nth2; rewrite length_firstn; [|lia].
  rewrite app_nth1 by lia.
  f_equal. lia.
Qed.

Lemma byte_at_put_bytes_out d off bs i :
  0 <= off -> off + Z.of_nat (length bs) <= Z.of_nat (length d) ->
  0 <= i -> i < off \/ off + Z.of_nat (length bs) <= i ->
  byte_at (put_bytes d off bs) i = byte_at d i.
Proof.
  intros H0 H1 Hi0 Hi. unfold byte_at, put_bytes.
  destruct Hi as [Hi | Hi].
  - rewrite app_nth1 by (rewrite length_firstn; lia).
    rewrite nth_firstn.
    destruct (Nat.ltb_spec (Z.to_nat i) (Z.to_nat off)); [reflexivity | lia].
  - rewrite app_nth2; rewrite length_firstn; [|lia].
    rewrite app_nth2 by lia.
    rewrite nth_skipn. f_equal. lia.
Qed.

Lemma put_bytes_put_bytes d off bs1 bs2 :
  0 <= off -> off + Z.of_nat (length bs1) <= Z.of_nat (length d) ->
  length bs1 = length bs2 ->
  put_bytes (put_bytes d off bs1) off bs2 = put_bytes d off bs2.
Proof.
  intros H0 H1 Hl. unfold put_bytes.
  assert (Hf : length (firstn (Z.to_nat off) d) = Z.to_nat off)
    by (rewrite length_firstn; lia).
  f_equal.
  - rewrite firstn_app, Hf, Nat.sub_diag. cbn [firstn].
    rewrite app_nil_r, firstn_firstn, Nat.min_id. reflexivity.
  - f_equal. rewrite app_assoc.
    rewrite skipn_app.
    rewrite skipn_all2 by (rewrite length_app, Hf; lia).
    rewrite length_app, Hf, Hl, Nat.sub_diag. reflexivity.
Qed.

Lemma bytes_ok_put_bytes d off bs :
  bytes_ok d -> bytes_ok bs -> bytes_ok (put_bytes d off bs).
Proof.
  unfold bytes_ok, put_bytes. rewrite !Forall_forall. intros Hd Hb x Hx.
  apply in_app_or in Hx. destruct Hx as [Hx | Hx].
  - apply Hd. rewrite <- (firstn_skipn (Z.to_nat off) d).
    apply in_or_app. left. exact Hx.
  - apply in_app_or in Hx. destruct Hx as [Hx | Hx]; [apply Hb; exact Hx|].
    apply Hd. rewrite <- (firstn_skipn (Z.to_nat off + length bs) d).
    apply in_or_app. right. exact Hx.
Qed.

Lemma bytes_ok_be16 v : bytes_ok (be16_bytes v).
Proof. repeat constructor; apply u8_range. Qed.

Lemma bytes_ok_be32 v : bytes_ok (be32_bytes v).
Proof. repeat constructor; apply u8_range. Qed.

Lemma byte_at_range d i : bytes_ok d -> 0 <= byte_at d i < 256.
Proof.
  intros H. unfold byte_at.
  destruct (Nat.lt_ge_cases (Z.to_nat i) (length d)) as [Hlt | Hge].
  - unfold bytes_ok in H. rewrite Forall_forall in H. apply H, nth_In, Hlt.
  - rewrite nth_overflow by exact Hge. lia.
Qed.

Lemma get_be16_range d i : bytes_ok d -> 0 <= get_be16 d i < 65536.
Proof.
  intros H. unfold get_be16.
  pose proof (byte_at_range d i H). pose proof (byte_at_range d (i + 1) H). lia.
Qed.

Lemma get_be32_range d i : bytes_ok d -> 0 <= get_be32 d i < 4294967296.
Proof.
  intros H. unfold get_be32.
  pose proof (get_be16_range d i H). pose proof (get_be16_range d (i + 2) H). lia.
Qed.

Lemma be16_value v : u8 (v / 256) * 256 + u8 v = u16 v.
Proof.
  unfold u8, u16. change 65536 with (256 * 256).
  rewrite Z.rem_mul_r by lia. lia.
Qed.

Lemma get_be16_put_be16 d off v :
  0 <= off -> off + 2 <= Z.of_nat (length d) ->
  get_be16 (put_be16 d off v) off = u16 v.
Proof.
  intros H0 H1. unfold get_be16, put_be16.
  rewrite !byte_at_put_bytes_in by (cbn [length be16_bytes]; lia).
  replace (Z.to_nat (off - off)) with 0%nat by lia.
  replace (Z.to_nat (off + 1 - off)) with 1%nat by lia.
  cbn [nth be16_bytes]. apply be16_value.
Qed.

Lemma get_be16_put_bytes_out d off bs i :
  0 <= off -> off + Z.of_nat (length bs) <= Z.of_nat (length d) ->
  0 <= i -> i + 2 <= off \/ off + Z.of_nat (length bs) <= i ->
  get_be16 (put_bytes d off bs) i = get_be16 d i.
Proof.
  intros H0 H1 Hi0 Hi. unfold get_be16.
  rewrite !byte_at_put_bytes_out by lia. reflexivity.
Qed.

Lemma get_be32_put_bytes_out d off bs i :
  0 <= off -> off + Z.of_nat (length bs) <= Z.of_nat (length d) ->
  0 <= i -> i + 4 <= off \/ off + Z.of_nat (length bs) <= i ->
  get_be32 (put_bytes d off bs) i = get_be32 d i.
Proof.
  intros H0 H1 Hi0 Hi. unfold get_be32.
  rewrite !get_be16_put_bytes_out by lia. reflexivity.
Qed.

Lemma be32_value v :
  u16 (v / 65536) * 65536 + u16 v = u32 v.
Proof.
  unfold u16, u32.
  change 4294967296 with (65536 * 65536).
  rewrite Z.rem_mul_r by lia. lia.
Qed.

Lemma get_be32_put_be32 d off v :
  0 <= off -> off + 4 <= Z.of_nat (length d) ->
  get_be32 (put_be32 d off v) off = u32 v.
Proof.
  intros H0 H1. unfold get_be32, get_be16, put_be32.
  rewrite !byte_at_put_bytes_in by (cbn [length be32_bytes be16_bytes app]; lia).
  replace (Z.to_nat (off - off)) with 0%nat by lia.
  replace (Z.to_nat (off + 1 - off)) with 1%nat by lia.
  replace (Z.to_nat (off + 2 - off)) with 2%nat by lia.
  replace (Z.to_nat (off + 2 + 1 - off)) with 3%nat by lia.
  cbn [nth be32_bytes be16_bytes app].
  rewrite !be16_value. apply be32_value.
Qed.

Lemma sctp_cksum_delta_zero skb :
  sctp_cksum_delta skb = 0
  <-> sctp_stored_cksum skb = sctp_compute_cksum skb (skb_transport_offset skb).
Proof. unfold sctp_cksum_delta. apply Z.lxor_eq_0_iff. Qed.

Lemma lxor_u32 a b :
  0 <= a < 4294967296 -> 0 <= b < 4294967296 ->
  0 <= Z.lxor a b < 4294967296.
Proof.
  intros Ha Hb. split.
  - apply Z.lxor_nonneg. lia.
  - destruct (Z.eq_dec (Z.lxor a b) 0) as [E | E]; [lia|].
    assert (0 < Z.lxor a b) by (pose proof (proj2 (Z.lxor_nonneg a b)); lia).
    change 4294967296 with (2 ^ 32).
    apply Z.log2_lt_pow2; [lia|].
    pose proof (Z.log2_lxor a b ltac:(lia) ltac:(lia)).
    assert (Z.log2 a < 32).
    { destruct (Z.eq_dec a 0); [subst; cbn; lia|].
      apply Z.log2_lt_pow2; lia. }
    assert (Z.log2 b < 32).
    { destruct (Z.eq_dec b 0); [subst; cbn; lia|].
      apply Z.log2_lt_pow2; lia. }
    lia.
Qed.

Lemma cpu_to_le32_range x : 0 <= cpu_to_le32 x < 4294967296.
Proof.
  unfold cpu_to_le32.
  assert (H : forall y, 0 <= Z.land y 255 < 256).
  { intros y. change 255 with (Z.ones 8). rewrite Z.land_ones by lia.
    apply Z.mod_pos_bound. lia. }
  pose proof (H (Z.shiftr x 24)). pose proof (H (Z.shiftr x 16)).
  pose proof (H (Z.shiftr x 8)). pose proof (H x). lia.
Qed.

Lemma sctp_compute_cksum_range skb off :
  0 <= sctp_compute_cksum skb off < 4294967296.
Proof. apply cpu_to_le32_range. Qed.

(** The correct checksum does not depend on the stored one. *)
Lemma sctp_compute_cksum_ignores_stored skb off v :
  0 <= skb_transport_offset skb ->
  skb_transport_offset skb + sizeof_sctphdr <= skb_len skb ->
  sctp_compute_cksum
    (with_data skb
       (put_be32 (data skb) (skb_transport_offset skb + sctph_checksum) v))
    off
  = sctp_compute_cksum skb off.
Proof.
  intros H0 H1. unfold sctp_compute_cksum, put_be32.
  cbn [data with_data skb_transport_offset transport_header].
  unfold skb_transport_offset, skb_len, sizeof_sctphdr, sctph_checksum in *.
  rewrite put_bytes_put_bytes; [reflexivity | lia | | reflexivity].
  cbn [length be32_bytes be16_bytes app]. lia.
Qed.

Lemma make_writable_ok skb n w w' :
  make_writable skb n w = Done 0 w' -> 0 <= n <= skb_len skb.
Proof.
  unfold make_writable.
  destruct (Z.ltb_spec n 0) as [H1 | H1];
    destruct (Z.ltb_spec (skb_len skb) n) as [H2 | H2]; cbn [orb];
    try (unfold ret, ENOMEM; intros [= E _]; lia).
  intros _. lia.
Qed.

(** C5.  [set_sctp] carries a checksum error through a port change: the
    bit-wise difference between the checksum stored in the SCTP header and
    the correct CRC32c of the packet is the same after a successful
    [set_sctp] as before it, the stored checksum having become
    [old_stored ^ old_correct ^ new_correct]; so a checksum that was correct
    stays correct and one that was wrong stays wrong. *)
Theorem set_sctp_carries_checksum_error :
  forall skb key k w skb' key' w',
    bytes_ok (data skb) ->
    0 <= skb_transport_offset skb ->
    set_sctp skb key k w = Done (0, skb', key') w' ->
    sctp_cksum_delta skb' = sctp_cksum_delta skb
    /\ (sctp_stored_cksum skb = sctp_compute_cksum skb (skb_transport_offset skb)
        <-> sctp_stored_cksum skb'
            = sctp_compute_cksum skb' (skb_transport_offset skb'))
    /\ (negb (u16 (sctp_src k) =? get_be16 (data skb) (skb_transport_offset skb))
        || negb (u16 (sctp_dst k)
                 =? get_be16 (data skb) (skb_transport_offset skb + 2)) = true ->
        let moved :=
          with_data skb
            (put_be16
               (put_be16 (data skb) (skb_transport_offset skb) (sctp_src k))
               (skb_transport_offset skb + 2) (sctp_dst k)) in
        sctp_stored_cksum skb'
        = Z.lxor (Z.lxor (sctp_stored_cksum skb)
                    (sctp_compute_cksum skb (skb_transport_offset skb)))
            (sctp_compute_cksum moved (skb_transport_offset skb))
        /\ sctp_compute_cksum skb' (skb_transport_offset skb')
           = sctp_compute_cksum moved (skb_transport_offset skb)).
Proof.
  intros skb key k w skb' key' w' Hb Hth Hrun.
  unfold set_sctp in Hrun. unfold bind in Hrun.
  destruct (make_writable skb (skb_transport_offset skb + sizeof_sctphdr) w)
    as [e w1|] eqn:Hmw; [|discriminate].
  destruct (Z.eqb_spec e 0) as [-> | Hne]; cbn [negb] in Hrun.
  2:{ unfold ret in Hrun. injection Hrun as E _ _ _. contradiction. }
  apply make_writable_ok in Hmw.
  set (sh := skb_transport_offset skb) in *.
  set (moved := with_data skb
                  (put_be16 (put_be16 (data skb) sh (sctp_src k)) (sh + 2)
                     (sctp_dst k))).
  unfold skb_len, sizeof_sctphdr in Hmw.
  assert (Hl1 : length (put_be16 (data skb) sh (sctp_src k))
                = length (data skb)).
  { unfold put_be16. apply length_put_bytes; cbn [length be16_bytes]; lia. }
  assert (Hlm : length (data moved) = length (data skb)).
  { unfold moved. cbn [data with_data]. unfold put_be16 at 1.
    rewrite length_put_bytes; cbn [length be16_bytes]; rewrite ?Hl1; lia. }
  destruct (negb (u16 (sctp_src k) =? get_be16 (data skb) sh)
            || negb (u16 (sctp_dst k) =? get_be16 (data skb) (sh + 2))) eqn:Hchg.
  - unfold ret in Hrun.
    apply (f_equal (fun o => match o with
                             | Done (_, s, _) _ => Some s
                             | Fault _ => None
                             end)) in Hrun.
    cbn beta iota in Hrun. injection Hrun as Hs. subst skb'.
    fold moved.
    cbn [skb_clear_hash with_rxhash].
    set (x := Z.lxor (Z.lxor (get_be32 (data skb) (sh + sctph_checksum))
                        (sctp_compute_cksum skb sh))
                (sctp_compute_cksum moved sh)).
    assert (Hx : 0 <= x < 4294967296).
    { apply lxor_u32; [apply lxor_u32|]; auto using get_be32_range,
        sctp_compute_cksum_range. }
    assert (Hstored :
      sctp_stored_cksum
        (with_rxhash
           (with_data moved (put_be32 (data moved) (sh + sctph_checksum) x))
           None) = x).
    { unfold sctp_stored_cksum, skb_transport_offset.
      cbn [data with_data with_rxhash transport_header].
      change (transport_header moved) with sh.
      rewrite get_be32_put_be32; [apply u32_small; exact Hx | |];
        unfold sctph_checksum, sizeof_sctphdr in *; [lia|].
      rewrite Hlm. lia. }
    assert (Hcorrect :
      sctp_compute_cksum
        (with_rxhash
           (with_data moved (put_be32 (data moved) (sh + sctph_checksum) x))
           None) sh
      = sctp_compute_cksum moved sh).
    { transitivity
        (sctp_compute_cksum
           (with_data moved
              (put_be32 (data moved)
                 (skb_transport_offset moved + sctph_checksum) x)) sh);
        [reflexivity|].
      apply sctp_compute_cksum_ignores_stored.
      - exact Hth.
      - unfold skb_len, sizeof_sctphdr. rewrite Hlm. exact (proj2 Hmw). }
    assert (Hdelta :
      sctp_cksum_delta
        (with_rxhash
           (with_data moved (put_be32 (data moved) (sh + sctph_checksum) x))
           None) = sctp_cksum_delta skb).
    { unfold sctp_cksum_delta at 1.
      change (skb_transport_offset (with_rxhash _ None)) with sh.
      rewrite Hstored, Hcorrect. unfold x.
      rewrite Z.lxor_assoc, Z.lxor_nilpotent, Z.lxor_0_r. reflexivity. }
    split; [exact Hdelta|]. split.
    + pose proof (sctp_cksum_delta_zero skb) as A.
      match goal with
      | |- _ <-> sctp_stored_cksum ?s = _ =>
          pose proof (sctp_cksum_delta_zero s) as B
      end.
      split; intro E.
      * apply B. etransitivity; [exact Hdelta|]. apply A, E.
      * apply A. etransitivity; [symmetry; exact Hdelta|]. apply B, E.
    + intros _. cbv zeta. split; [exact Hstored | exact Hcorrect].
  - unfold ret in Hrun.
    apply (f_equal (fun o => match o with
                             | Done (_, s, _) _ => Some s
                             | Fault _ => None
                             end)) in Hrun.
    cbn beta iota in Hrun. injection Hrun as Hs. subst skb'.
    split; [reflexivity|]. split; [reflexivity|]. discriminate.
Qed.

Lemma udp_mangled_nonzero c : udp_mangled c <> 0.
Proof.
  unfold udp_mangled, CSUM_MANGLED_0. destruct (Z.eqb_spec c 0); lia.
Qed.

Lemma not16_range x : 0 <= not16 x < 65536.
Proof. unfold not16. pose proof (u16_range x). lia. Qed.

Lemma csum_fold_range x : 0 <= Csum.csum_fold x < 65536.
Proof. unfold Csum.csum_fold. apply not16_range. Qed.

Lemma length_inet_proto_csum_replace sum skb diff ph :
  0 <= sum -> sum + 2 <= skb_len skb ->
  length (data (inet_proto_csum_replace sum skb diff ph)) = length (data skb).
Proof.
  intros H0 H1. unfold skb_len in H1. unfold inet_proto_csum_replace.
  split_ifs; cbn [data with_data with_csum]; try reflexivity;
    unfold put_be16; apply length_put_bytes; cbn [length be16_bytes]; lia.
Qed.

Lemma transport_header_inet_proto_csum_replace sum skb diff ph :
  transport_header (inet_proto_csum_replace sum skb diff ph)
  = transport_header skb.
Proof. unfold inet_proto_csum_replace. split_ifs; reflexivity. Qed.

Lemma is_partial_inet_proto_csum_replace sum skb diff ph :
  is_partial (inet_proto_csum_replace sum skb diff ph) = is_partial skb.
Proof. unfold inet_proto_csum_replace. split_ifs; reflexivity. Qed.

(** Reading the checksum back after [udp_mangle_zero]. *)
Lemma udp_check_mangle_zero skb :
  0 <= skb_transport_offset skb ->
  skb_transport_offset skb + sizeof_udphdr <= skb_len skb ->
  udp_check (udp_mangle_zero skb) = udp_mangled (udp_check skb).
Proof.
  intros H0 H1. unfold udp_check, udp_mangle_zero, udp_mangled.
  unfold skb_len, sizeof_udphdr, udph_check, skb_transport_offset in *.
  destruct (Z.eqb_spec (get_be16 (data skb) (transport_header skb + 6)) 0).
  - cbn [data with_data transport_header].
    rewrite get_be16_put_be16 by lia. reflexivity.
  - reflexivity.
Qed.

Lemma length_udp_mangle_zero skb :
  0 <= skb_transport_offset skb ->
  skb_transport_offset skb + sizeof_udphdr <= skb_len skb ->
  length (data (udp_mangle_zero skb)) = length (data skb).
Proof.
  intros H0 H1. unfold udp_mangle_zero.
  unfold skb_len, sizeof_udphdr, udph_check, skb_transport_offset in *.
  split_ifs; cbn [data with_data]; [|reflexivity].
  unfold put_be16. apply length_put_bytes; cbn [length be16_bytes]; lia.
Qed.

Lemma transport_header_udp_mangle_zero skb :
  transport_header (udp_mangle_zero skb) = transport_header skb.
Proof. unfold udp_mangle_zero. split_ifs; reflexivity. Qed.

(** [set_udp_port], for one of the two port fields of the UDP header. *)
Lemma udp_check_set_udp_port skb port new_port :
  0 <= skb_transport_offset skb ->
  skb_transport_offset skb + sizeof_udphdr <= skb_len skb ->
  port = skb_transport_offset skb \/ port = skb_transport_offset skb + 2 ->
  udp_check (set_udp_port skb port new_port)
  = if negb (udp_check skb =? 0) && negb (is_partial skb)
    then udp_mangled
           (udp_check
              (inet_proto_csum_replace2
                 (skb_transport_offset skb + udph_check) skb
                 (get_be16 (data skb) port) new_port false))
    else udp_check skb.
Proof.
  intros H0 H1 Hport. unfold set_udp_port. fold (udp_check skb).
  pose proof H1 as H1'.
  unfold skb_len, sizeof_udphdr, skb_transport_offset in H0, H1.
  destruct (negb (udp_check skb =? 0) && negb (is_partial skb)) eqn:Hc.
  - unfold set_tp_port.
    set (s1 := inet_proto_csum_replace2 _ skb _ new_port false).
    assert (Hl1 : length (data s1) = length (data skb)).
    { apply length_inet_proto_csum_replace;
        unfold skb_len, skb_transport_offset, udph_check; lia. }
    assert (Ht1 : transport_header s1 = transport_header skb)
      by apply transport_header_inet_proto_csum_replace.
    rewrite udp_check_mangle_zero.
    + f_equal. unfold udp_check, skb_transport_offset.
      cbn [data with_data skb_clear_hash with_rxhash transport_header].
      rewrite Ht1. unfold put_be16.
      apply get_be16_put_bytes_out; cbn [length be16_bytes];
        unfold udph_check, skb_transport_offset in *; rewrite ?Hl1; lia.
    + unfold skb_transport_offset.
      cbn [data with_data skb_clear_hash with_rxhash transport_header].
      rewrite Ht1. exact H0.
    + unfold skb_transport_offset, skb_len, sizeof_udphdr.
      cbn [data with_data skb_clear_hash with_rxhash transport_header].
      rewrite Ht1. unfold put_be16.
      rewrite length_put_bytes; cbn [length be16_bytes];
        unfold skb_transport_offset in *; rewrite ?Hl1; lia.
  - unfold udp_check, skb_transport_offset.
    cbn [data with_data skb_clear_hash with_rxhash transport_header].
    unfold put_be16.
    apply get_be16_put_bytes_out; cbn [length be16_bytes];
      unfold udph_check, skb_transport_offset in *; lia.
Qed.

(** [set_ip_addr] on a UDP packet whose transport header lies behind the IP
    header. *)
Lemma udp_check_set_ip_addr skb nh addr new_addr :
  0 <= nh -> nh + sizeof_iphdr <= skb_transport_offset skb ->
  skb_transport_offset skb + sizeof_udphdr <= skb_len skb ->
  transport_has skb sizeof_udphdr = true ->
  get_u8 (data skb) (nh + iph_protocol) = IPPROTO_UDP ->
  addr = nh + iph_saddr \/ addr = nh + iph_daddr ->
  udp_check (set_ip_addr skb nh addr new_addr)
  = if negb (udp_check skb =? 0) || is_partial skb
    then udp_mangled
           (udp_check
              (inet_proto_csum_replace4
                 (skb_transport_offset skb + udph_check) skb
                 (get_be32 (data skb) addr) new_addr true))
    else udp_check skb.
Proof.
  intros Hnh Hth Hlen Hhas Hproto Haddr.
  unfold set_ip_addr. rewrite Hproto, Hhas.
  change (IPPROTO_UDP =? IPPROTO_TCP) with false.
  change (IPPROTO_UDP =? IPPROTO_UDP) with true. cbv iota.
  fold (udp_check skb).
  set (s1 := if negb (udp_check skb =? 0) || is_partial skb
             then udp_mangle_zero
                    (inet_proto_csum_replace4
                       (skb_transport_offset skb + udph_check) skb
                       (get_be32 (data skb) addr) new_addr true)
             else skb).
  assert (Hs1 : length (data s1) = length (data skb)
                /\ transport_header s1 = transport_header skb
                /\ udp_check s1
                   = if negb (udp_check skb =? 0) || is_partial skb
                     then udp_mangled
                            (udp_check
                               (inet_proto_csum_replace4
                                  (skb_transport_offset skb + udph_check) skb
                                  (get_be32 (data skb) addr) new_addr true))
                     else udp_check skb).
  { unfold s1. destruct (negb (udp_check skb =? 0) || is_partial skb);
      [|repeat split].
    set (s0 := inet_proto_csum_replace4 _ skb _ new_addr true).
    assert (Hl0 : length (data s0) = length (data skb)).
    { apply length_inet_proto_csum_replace;
        unfold skb_len, skb_transport_offset, udph_check, sizeof_udphdr,
          sizeof_iphdr in *; lia. }
    assert (Ht0 : transport_header s0 = transport_header skb)
      by apply transport_header_inet_proto_csum_replace.
    assert (A : 0 <= skb_transport_offset s0)
      by (unfold skb_transport_offset in *; rewrite Ht0;
          unfold sizeof_iphdr in *; lia).
    assert (B : skb_transport_offset s0 + sizeof_udphdr <= skb_len s0)
      by (unfold skb_transport_offset, skb_len in *; rewrite Ht0, Hl0; lia).
    split; [|split].
    - rewrite length_udp_mangle_zero; assumption.
    - rewrite transport_header_udp_mangle_zero. exact Ht0.
    - apply udp_check_mangle_zero; assumption. }
  destruct Hs1 as (Hl1 & Ht1 & Hc1). rewrite <- Hc1.
  unfold udp_check, skb_transport_offset.
  cbn [data with_data skb_clear_hash with_rxhash transport_header].
  rewrite Ht1.
  unfold skb_len, skb_transport_offset, sizeof_udphdr, sizeof_iphdr,
    iph_check, iph_saddr, iph_daddr, udph_check in *.
  assert (Hl2 : length (put_be16 (data s1) (nh + 10)
                          (Csum.csum_replace4 (get_be16 (data s1) (nh + 10))
                             (get_be32 (data s1) addr) new_addr))
                = length (data s1)).
  { unfold put_be16. apply length_put_bytes; cbn [length be16_bytes]; lia. }
  unfold put_be32 at 1.
  rewrite get_be16_put_bytes_out;
    cbn [length be32_bytes be16_bytes app]; rewrite ?Hl2; try lia.
  unfold put_be16.
  apply get_be16_put_bytes_out; cbn [length be16_bytes]; lia.
Qed.

(** [update_ipv6_checksum] on a UDP packet. *)
Lemma udp_check_update_ipv6_checksum skb addr new_addr :
  0 <= skb_transport_offset skb ->
  skb_transport_offset skb + sizeof_udphdr <= skb_len skb ->
  transport_has skb sizeof_udphdr = true ->
  udp_check (update_ipv6_checksum skb NEXTHDR_UDP addr new_addr)
  = if negb (udp_check skb =? 0) || is_partial skb
    then udp_mangled
           (udp_check
              (inet_proto_csum_replace16
                 (skb_transport_offset skb + udph_check) skb
                 (get_in6 (data skb) addr) new_addr true))
    else udp_check skb.
Proof.
  intros Hth Hlen Hhas. unfold update_ipv6_checksum. rewrite Hhas.
  change (NEXTHDR_UDP =? NEXTHDR_TCP) with false.
  change (NEXTHDR_UDP =? NEXTHDR_UDP) with true. cbv iota.
  fold (udp_check skb).
  destruct (negb (udp_check skb =? 0) || is_partial skb); [|reflexivity].
  set (s0 := inet_proto_csum_replace16 _ skb _ new_addr true).
  assert (Hl0 : length (data s0) = length (data skb)).
  { apply length_inet_proto_csum_replace;
      unfold skb_len, skb_transport_offset, udph_check, sizeof_udphdr in *;
      lia. }
  assert (Ht0 : transport_header s0 = transport_header skb)
    by apply transport_header_inet_proto_csum_replace.
  apply udp_check_mangle_zero;
    unfold skb_transport_offset, skb_len in *; rewrite Ht0, ?Hl0; lia.
Qed.

(** C4, as the code has it.  A [set_udp] port change corrects the UDP
    checksum only when it is non-zero and the packet is not in partial mode;
    the corrected value is stored with zero replaced by 0xFFFF, and with a
    zero checksum or in partial mode the field is left as it is.  An IPv4 or
    IPv6 address change corrects the UDP checksum when it is non-zero or the
    packet is in partial mode, and stores the corrected value with zero
    replaced by 0xFFFF in both modes; a zero checksum outside partial mode
    is left as it is. *)
Theorem udp_zero_checksum_policy :
  forall skb,
    0 <= skb_transport_offset skb ->
    skb_transport_offset skb + sizeof_udphdr <= skb_len skb ->
    (forall port new_port,
       port = skb_transport_offset skb \/ port = skb_transport_offset skb + 2 ->
       (udp_check skb <> 0 -> is_partial skb = false ->
        udp_check (set_udp_port skb port new_port)
        = udp_mangled
            (udp_check
               (inet_proto_csum_replace2
                  (skb_transport_offset skb + udph_check) skb
                  (get_be16 (data skb) port) new_port false))
        /\ udp_check (set_udp_port skb port new_port) <> 0)
       /\ (udp_check skb = 0 \/ is_partial skb = true ->
           udp_check (set_udp_port skb port new_port) = udp_check skb))
    /\ (forall nh addr new_addr,
          0 <= nh -> nh + sizeof_iphdr <= skb_transport_offset skb ->
          transport_has skb sizeof_udphdr = true ->
          get_u8 (data skb) (nh + iph_protocol) = IPPROTO_UDP ->
          addr = nh + iph_saddr \/ addr = nh + iph_daddr ->
          (udp_check skb <> 0 \/ is_partial skb = true ->
           udp_check (set_ip_addr skb nh addr new_addr)
           = udp_mangled
               (udp_check
                  (inet_proto_csum_replace4
                     (skb_transport_offset skb + udph_check) skb
                     (get_be32 (data skb) addr) new_addr true))
           /\ udp_check (set_ip_addr skb nh addr new_addr) <> 0)
          /\ (udp_check skb = 0 -> is_partial skb = false ->
              udp_check (set_ip_addr skb nh addr new_addr) = 0))
    /\ (forall addr new_addr,
          transport_has skb sizeof_udphdr = true ->
          (udp_check skb <> 0 \/ is_partial skb = true ->
           udp_check (update_ipv6_checksum skb NEXTHDR_UDP addr new_addr)
           = udp_mangled
               (udp_check
                  (inet_proto_csum_replace16
                     (skb_transport_offset skb + udph_check) skb
                     (get_in6 (data skb) addr) new_addr true))
           /\ udp_check (update_ipv6_checksum skb NEXTHDR_UDP addr new_addr)
              <> 0)
          /\ (udp_check skb = 0 -> is_partial skb = false ->
              udp_check (update_ipv6_checksum skb NEXTHDR_UDP addr new_addr)
              = 0)).
Proof.
  intros skb Hth Hlen. split; [|split].
  - intros port new_port Hport.
    pose proof (udp_check_set_udp_port skb port new_port Hth Hlen Hport) as E.
    split.
    + intros Hnz Hnp. rewrite Hnp in E.
      destruct (Z.eqb_spec (udp_check skb) 0); [contradiction|].
      cbn [negb andb] in E. rewrite E.
      split; [reflexivity | apply udp_mangled_nonzero].
    + intros [Hz | Hp].
      * rewrite E, Hz. reflexivity.
      * rewrite E, Hp, andb_false_r. reflexivity.
  - intros nh addr new_addr Hnh Hnt Hhas Hproto Haddr.
    pose proof (udp_check_set_ip_addr skb nh addr new_addr
                  Hnh Hnt Hlen Hhas Hproto Haddr) as E.
    split.
    + intros Hc.
      assert (Hb : negb (udp_check skb =? 0) || is_partial skb = true).
      { destruct Hc as [Hnz | Hp].
        - destruct (Z.eqb_spec (udp_check skb) 0); [contradiction | reflexivity].
        - rewrite Hp. apply orb_true_r. }
      rewrite Hb in E. rewrite E.
      split; [reflexivity | apply udp_mangled_nonzero].
    + intros Hz Hnp. rewrite E, Hz, Hnp. reflexivity.
  - intros addr new_addr Hhas.
    pose proof (udp_check_update_ipv6_checksum skb addr new_addr
                  Hth Hlen Hhas) as E.
    split.
    + intros Hc.
      assert (Hb : negb (udp_check skb =? 0) || is_partial skb = true).
      { destruct Hc as [Hnz | Hp].
        - destruct (Z.eqb_spec (udp_check skb) 0); [contradiction | reflexivity].
        - rewrite Hp. apply orb_true_r. }
      rewrite Hb in E. rewrite E.
      split; [reflexivity | apply udp_mangled_nonzero].
    + intros Hz Hnp. rewrite E, Hz, Hnp. reflexivity.
Qed.

(** C4 as stated fails: in partial mode an address change does substitute
    0xFFFF for a corrected checksum of zero. *)
Lemma udp_partial_mode_still_mangles :
  ~ (forall skb nh addr new_addr,
       is_partial skb = true ->
       get_u8 (data skb) (nh + iph_protocol) = IPPROTO_UDP ->
       transport_has skb sizeof_udphdr = true ->
       udp_check (set_ip_addr skb nh addr new_addr)
       = udp_check
           (inet_proto_csum_replace4
              (skb_transport_offset skb + udph_check) skb
              (get_be32 (data skb) addr) new_addr true)).
Proof.
  intros H.
  specialize (H partial_udp_skb 14 26 0 eq_refl eq_refl eq_refl).
  vm_compute in H. discriminate H.
Qed.










Lemma transport_has_room skb size :
  skb_transport_offset skb <= skb_len skb ->
  0 <= size ->
  transport_has skb size = true ->
  skb_transport_offset skb + size <= skb_len skb.
Proof.
  unfold transport_has, size_t_of_int. intros Hle Hs Hhas.
  apply Z.leb_le in Hhas.
  assert ((skb_len skb - skb_transport_offset skb) mod 18446744073709551616
          <= skb_len skb - skb_transport_offset skb)
    by (apply Z.mod_le; lia).
  lia.
Qed.





Lemma fifo_grows_refl f : fifo_grows f f.
Proof. repeat split; try lia. Qed.

Lemma fifo_grows_trans f1 f2 f3 :
  fifo_grows f1 f2 -> fifo_grows f2 f3 -> fifo_grows f1 f3.
Proof.
  intros (T1 & H1 & S1) (T2 & H2 & S2). repeat split; try lia.
  intros i Hi. rewrite S2 by lia. apply S1. exact Hi.
Qed.

Lemma nested_step_refl w : fifo_wf (action_fifos w) -> nested_step w w.
Proof. intros H. repeat split; try assumption; try lia; apply H. Qed.

Lemma nested_step_trans w1 w2 w3 :
  nested_step w1 w2 -> nested_step w2 w3 -> nested_step w1 w3.
Proof.
  intros (L1 & W1 & G1) (L2 & W2 & G2). split; [congruence|].
  split; [exact W2|]. eapply fifo_grows_trans; eassumption.
Qed.

Lemma nested_step_same w w' :
  fifo_wf (action_fifos w) ->
  exec_actions_level w' = exec_actions_level w ->
  action_fifos w' = action_fifos w ->
  nested_step w w'.
Proof.
  intros Hwf Hl Hf. split; [exact Hl|]. rewrite Hf.
  split; [exact Hwf | apply fifo_grows_refl].
Qed.

Lemma nests_ret {A} L (a : A) : nests L (ret a).
Proof. intros w Hwf _. apply nested_step_refl. exact Hwf. Qed.

Lemma nests_raise {A} L : nests L (@raise A KernelOops).
Proof. intros w _ _. reflexivity. Qed.

Lemma nests_bind {A B} L (m : M A) (f : A -> M B) :
  nests L m -> (forall a, nests L (f a)) -> nests L (bind m f).
Proof.
  intros Hm Hf w Hwf HL. unfold bind. specialize (Hm w Hwf HL).
  destruct (m w) as [a w1|e]; [|exact Hm].
  assert (H1 := Hm). destruct H1 as (L1 & W1 & G1).
  specialize (Hf a w1 W1 ltac:(lia)).
  destruct (f a w1) as [b w2|e]; [|exact Hf].
  eapply nested_step_trans; eassumption.
Qed.

Lemma nests_weaken {A} L L' (m : M A) : L <= L' -> nests L m -> nests L' m.
Proof. intros H Hm w Hwf HL. apply Hm; [exact Hwf | lia]. Qed.

Lemma nests_alloc_only {A} L (m : M A) : alloc_only m -> nests L m.
Proof.
  intros Hm w Hwf _. destruct (Hm w) as (r & w' & E & F). rewrite E.
  apply nested_step_same; [exact Hwf | rewrite F; reflexivity..].
Qed.

Lemma nests_emit L e : nests L (emit e).
Proof. intros w Hwf _. apply nested_step_same; [exact Hwf | reflexivity..]. Qed.

Lemma nests_kfree_skb L skb : nests L (kfree_skb skb).
Proof. apply nests_emit. Qed.

Lemma nests_consume_skb L skb : nests L (consume_skb skb).
Proof. apply nests_emit. Qed.

Lemma nests_get_world L : nests L get_world.
Proof. intros w Hwf _. apply nested_step_refl. exact Hwf. Qed.

Lemma nests_skb_clone L skb : nests L (skb_clone skb).
Proof.
  intros w Hwf _. unfold skb_clone, bind.
  destruct (alloc_only_gfp w) as (ok & w1 & E & F). rewrite E.
  destruct ok; cbn; apply nested_step_same; try exact Hwf;
    rewrite F; reflexivity.
Qed.

Lemma nests_prandom_u32 L : nests L prandom_u32.
Proof.
  intros w Hwf _. unfold prandom_u32.
  destruct (prandom w); apply nested_step_same; try exact Hwf; reflexivity.
Qed.

Lemma fifo_slot_store_other f i j da :
  i <> j -> 0 <= i -> 0 <= j ->
  fifo_slot (fifo_store f i da) j = fifo_slot f j.
Proof.
  intros Hne Hi Hj. unfold fifo_slot, fifo_store, set_nth. cbn [fifo].
  destruct ((0 <=? i) && (i <? Z.of_nat (length (fifo f)))) eqn:E;
    [|reflexivity].
  apply andb_prop in E. destruct E as [E1 E2].
  apply Z.leb_le in E1. apply Z.ltb_lt in E2.
  destruct (Z.ltb_spec j i).
  - rewrite app_nth1 by (rewrite length_firstn; lia).
    rewrite nth_firstn.
    destruct (Nat.ltb_spec (Z.to_nat j) (Z.to_nat i)); [reflexivity | lia].
  - rewrite app_nth2 by (rewrite length_firstn; lia).
    rewrite length_firstn.
    replace (Z.to_nat j - Nat.min (Z.to_nat i) (length (fifo f)))%nat
      with (S (Z.to_nat j - S (Z.to_nat i)))%nat by lia.
    cbn [nth]. rewrite nth_skipn. f_equal. lia.
Qed.

(** A put and whatever is then written into the slot it returned. *)
Lemma nested_step_put w da :
  fifo_wf (action_fifos w) ->
  head (action_fifos w) < DEFERRED_ACTION_FIFO_SIZE - 1 ->
  nested_step w (with_fifo w (fifo_after_put (action_fifos w) da)).
Proof.
  intros (Ht & Hh & Hl) Hroom. split; [reflexivity|].
  unfold fifo_after_put. cbn [action_fifos with_fifo]. split.
  - unfold fifo_wf, fifo_store. cbn [head tail fifo].
    rewrite length_set_nth. repeat split; try lia; exact Hl.
  - unfold fifo_grows. cbn [head tail fifo_store]. repeat split; try lia.
    intros i Hi. rewrite fifo_slot_store_other by lia. reflexivity.
Qed.

Lemma nests_add_deferred_actions L skb key attr :
  nests L (add_deferred_actions skb key attr).
Proof.
  intros w Hwf _.
  destruct (Z.lt_ge_cases (head (action_fifos w))
              (DEFERRED_ACTION_FIFO_SIZE - 1)) as [Hroom | Hfull].
  - rewrite (add_deferred_actions_room _ _ _ w Hroom).
    apply nested_step_put; assumption.
  - rewrite (add_deferred_actions_full _ _ _ w Hfull).
    apply nested_step_refl; assumption.
Qed.

Lemma nests_put_then_recirc_id L skb key id (r : mret) :
  nests L
    (da <- add_deferred_actions skb key None ;;
     match da with
     | Some i => da_set_recirc_id i (u32 id) ;; ret r
     | None => kfree_skb skb ;; ret r
     end).
Proof.
  intros w Hwf HL.
  destruct (Z.lt_ge_cases (head (action_fifos w))
              (DEFERRED_ACTION_FIFO_SIZE - 1)) as [Hroom | Hfull].
  - rewrite (put_then_recirc_id skb key w id r Hwf Hroom).
    apply nested_step_put; assumption.
  - rewrite (bind_done _ _ _ _ _ (add_deferred_actions_full _ _ _ w Hfull)).
    apply (nests_bind L (kfree_skb skb) (fun _ => ret r));
      [apply nests_kfree_skb | intros; apply nests_ret | exact Hwf | exact HL].
Qed.

Create HintDb nests discriminated.
#[export] Hint Resolve nests_ret nests_raise nests_emit nests_kfree_skb
  nests_consume_skb nests_get_world nests_skb_clone nests_prandom_u32
  nests_add_deferred_actions nests_put_then_recirc_id : nests.

Ltac nests_tac :=
  repeat first
    [ solve [auto 1 with nests]
    | apply nests_bind; [| intros ?]
    | match goal with
      | |- nests _ (if ?b then _ else _) => destruct b
      | |- nests _ (match ?x with _ => _ end) => destruct x
      end ].

Lemma nests_push_vlan L skb key vlan : nests L (push_vlan skb key vlan).
Proof.
  unfold push_vlan, __vlan_put_tag.
  destruct (vlan_tx_tag_present skb); [|apply nests_ret].
  apply nests_bind.
  - apply nests_bind; [apply nests_alloc_only, alloc_only_skb_cow_head|].
    intros err. nests_tac.
  - intros r. nests_tac.
Qed.

Section NestedExecutor.

Variable K : kernel.

Lemma nests_ovs_dp_upcall L dp skb key u : nests L (ovs_dp_upcall dp skb key u).
Proof. unfold ovs_dp_upcall. nests_tac. Qed.

Lemma nests_output_userspace L dp skb key attrs :
  nests L (output_userspace dp skb key attrs).
Proof. unfold output_userspace. apply nests_ovs_dp_upcall. Qed.

Lemma nests_sample_scan L attrs :
  forall acts, nests L (sample_scan attrs acts).
Proof.
  induction attrs as [|a rest IH]; intros acts; cbn [sample_scan].
  - apply nests_ret.
  - destruct a; try apply IH.
    apply nests_bind; [apply nests_prandom_u32|]. intros r.
    destruct (u32 p <=? r); [apply nests_ret | apply IH].
Qed.

Lemma nests_sample_defer L skb key acts : nests L (sample_defer skb key acts).
Proof. unfold sample_defer. nests_tac. Qed.

Lemma nests_sample L dp skb key attrs : nests L (sample dp skb key attrs).
Proof.
  unfold sample. apply nests_bind; [apply nests_sample_scan|].
  intros [[acts|]|]; [|apply nests_raise|apply nests_ret].
  cbv zeta. destruct (attrs_len acts =? 0); [apply nests_ret|].
  destruct acts as [|a rest]; [apply nests_raise|].
  destruct (single_userspace a _);
    [apply nests_output_userspace | apply nests_sample_defer].
Qed.

Lemma nests_execute_recirc L dp skb key a id rem :
  nests L (execute_recirc K dp skb key a id rem).
Proof.
  unfold execute_recirc. apply nests_bind.
  - destruct (negb (is_flow_key_valid key)); apply nests_ret.
  - intros [[err s] k]. destruct (negb (err =? 0)); [apply nests_ret|].
    destruct (negb (is_flow_key_valid k)); [apply nests_raise|].
    apply nests_bind.
    + destruct (negb (last_action a rem));
        [apply nests_skb_clone | apply nests_ret].
    + intros [q|]; [apply nests_put_then_recirc_id | apply nests_ret].
Qed.

Lemma nests_check_err L r : nests L (check_err r).
Proof. destruct r as [[err s] k]. unfold check_err. nests_tac. Qed.

Lemma nests_dispatch_action L dp skb key a rem :
  nests L (dispatch_action K dp skb key a rem).
Proof.
  unfold dispatch_action. destruct (nla_act a).
  - apply nests_ret.
  - apply nests_bind; [apply nests_output_userspace|].
    intros; apply nests_check_err.
  - destruct (execute_hash K skb key hash_basis). apply nests_check_err.
  - apply nests_bind; [apply nests_alloc_only, alloc_only_push_mpls|].
    intros; apply nests_check_err.
  - apply nests_bind; [apply nests_alloc_only, alloc_only_pop_mpls|].
    intros; apply nests_check_err.
  - apply nests_bind; [apply nests_push_vlan|].
    intros [[err s] k].
    destruct (negb (err =? 0)); [apply nests_ret | apply nests_check_err].
  - apply nests_bind; [apply nests_alloc_only, alloc_only_pop_vlan|].
    intros; apply nests_check_err.
  - apply nests_bind; [apply nests_execute_recirc|].
    intros [[err s] k].
    destruct (last_action a rem); [apply nests_ret | apply nests_check_err].
  - apply nests_bind;
      [apply nests_alloc_only, alloc_only_execute_set_action|].
    intros; apply nests_check_err.
  - apply nests_bind; [apply nests_sample|].
    intros; apply nests_check_err.
  - apply nests_check_err.
Qed.

Section WithExec.

Variable exec : datapath -> sk_buff -> sw_flow_key -> list nlattr -> M Z.
Variable L : Z.
Hypothesis exec_nests : forall dp skb key acts, nests L (exec dp skb key acts).

Lemma nests_ovs_dp_process_packet dp skb key :
  nests L (ovs_dp_process_packet exec dp skb key).
Proof.
  unfold ovs_dp_process_packet.
  destruct (ovs_flow_tbl_lookup dp key).
  - apply nests_bind; [apply exec_nests | intros; apply nests_ret].
  - apply nests_bind; [apply nests_ovs_dp_upcall|]. intros err.
    destruct (err =? 0); [apply nests_consume_skb | apply nests_kfree_skb].
Qed.

Lemma nests_ovs_vport_send dp v skb : nests L (ovs_vport_send K exec dp v skb).
Proof.
  unfold ovs_vport_send. apply nests_bind; [apply nests_emit|]. intros _.
  destruct (loops_to v); [|apply nests_ret].
  destruct (ovs_flow_key_extract K z skb) as [[err s] k].
  destruct (err =? 0);
    [apply nests_ovs_dp_process_packet | apply nests_kfree_skb].
Qed.

Lemma nests_do_output dp skb port : nests L (do_output K exec dp skb port).
Proof.
  unfold do_output. destruct (ovs_vport_rcu dp port);
    [apply nests_ovs_vport_send | apply nests_kfree_skb].
Qed.

Lemma nests_flush_prev_port dp skb prev :
  nests L (flush_prev_port K exec dp skb prev).
Proof.
  unfold flush_prev_port. destruct (negb (prev =? -1)); [|apply nests_ret].
  apply nests_bind; [apply nests_skb_clone|].
  intros [q|]; [apply nests_do_output | apply nests_ret].
Qed.

Lemma nests_finish_actions dp skb prev :
  nests L (finish_actions K exec dp skb prev).
Proof.
  unfold finish_actions. apply nests_bind; [|intros; apply nests_ret].
  destruct (negb (prev =? -1));
    [apply nests_do_output | apply nests_consume_skb].
Qed.

Lemma nests_do_execute_actions_loop dp attr :
  forall skb key prev rem,
    nests L (do_execute_actions_loop K exec dp skb key prev attr rem).
Proof.
  induction attr as [|a next IH]; intros skb key prev rem;
    cbn [do_execute_actions_loop];
    (destruct (rem <=? 0); [apply nests_finish_actions|]).
  - apply nests_raise.
  - apply nests_bind; [apply nests_flush_prev_port|]. intros _.
    apply nests_bind; [apply nests_dispatch_action|].
    intros [err | p s k]; [apply nests_ret | apply IH].
Qed.

Lemma nests_do_execute_actions dp skb key attr len :
  nests L (do_execute_actions K exec dp skb key attr len).
Proof. apply nests_do_execute_actions_loop. Qed.

End WithExec.

End NestedExecutor.

Section Levels.

Variable K : kernel.

Lemma ovs_execute_actions_unfold depth dp skb key acts w :
  ovs_execute_actions K depth dp skb key acts w
  = if EXEC_ACTIONS_LEVEL_LIMIT <=? exec_actions_level w
    then Done (- ELOOP) (after_event w (EvFree skb))
    else
      match depth with
      | O => Fault OutOfFuel
      | S d =>
          (err <- do_execute_actions K (ovs_execute_actions K d) dp skb key
                    acts (attrs_len acts) ;;
           (if exec_actions_level w =? 0
            then process_deferred_actions K (ovs_execute_actions K d) dp
            else ret tt) ;;
           modify (fun w => with_level w (exec_actions_level w - 1)) ;;
           ret err)
            (with_level w (exec_actions_level w + 1))
      end.
Proof.
  destruct depth; cbn [ovs_execute_actions]; unfold bind at 1, get_world;
    destruct (EXEC_ACTIONS_LEVEL_LIMIT <=? exec_actions_level w); reflexivity.
Qed.

Lemma nests_ovs_execute_actions depth :
  forall dp skb key acts,
    nests (level_floor depth) (ovs_execute_actions K depth dp skb key acts).
Proof.
  induction depth as [|d IH]; intros dp skb key acts w Hwf HL;
    rewrite ovs_execute_actions_unfold;
    destruct (Z.leb_spec EXEC_ACTIONS_LEVEL_LIMIT (exec_actions_level w))
      as [Hlim | Hlim];
    try (apply nested_step_same; [exact Hwf | reflexivity..]).
  - unfold level_floor, EXEC_ACTIONS_LEVEL_LIMIT in *. lia.
  - set (w1 := with_level w (exec_actions_level w + 1)).
    pose proof (nests_do_execute_actions K (ovs_execute_actions K d)
                  (level_floor d) IH dp skb key acts (attrs_len acts) w1) as H.
    unfold bind at 1.
    destruct (do_execute_actions K (ovs_execute_actions K d) dp skb key acts
                (attrs_len acts) w1) as [err w2|f].
    + destruct H as (Hl & Hw & Hg).
      * exact Hwf.
      * unfold w1, level_floor, EXEC_ACTIONS_LEVEL_LIMIT in *.
        cbn [exec_actions_level with_level]. lia.
      * assert (Hz : (exec_actions_level w =? 0) = false).
        { apply Z.eqb_neq. unfold level_floor in HL. lia. }
        rewrite Hz. unfold bind, ret, modify.
        split; [|split].
        -- cbn [exec_actions_level with_level]. rewrite Hl. unfold w1.
           cbn [exec_actions_level with_level]. lia.
        -- exact Hw.
        -- exact Hg.
    + apply H.
      * exact Hwf.
      * unfold w1, level_floor, EXEC_ACTIONS_LEVEL_LIMIT in *.
        cbn [exec_actions_level with_level]. lia.
Qed.

Section Drain.

Variable exec : datapath -> sk_buff -> sw_flow_key -> list nlattr -> M Z.
Variable L : Z.
Hypothesis exec_nests : forall dp skb key acts, nests L (exec dp skb key acts).

Lemma run_deferred_action_nonempty dp w :
  tail (action_fifos w) <> head (action_fifos w) ->
  run_deferred_action K exec dp w
  = run_entry K exec dp (fifo_slot (action_fifos w) (tail (action_fifos w)))
      (with_fifo w (fifo_after_get (action_fifos w))).
Proof.
  intros Hne. unfold run_deferred_action, bind at 1, get_world.
  unfold action_fifo_get, action_fifo_is_empty.
  destruct (Z.eqb_spec (head (action_fifos w)) (tail (action_fifos w)));
    [congruence|].
  unfold bind at 1, modify. unfold run_entry, fifo_slot. cbn [fifo].
  destruct (da_actions _) as [[|a rest]|]; reflexivity.
Qed.

Lemma nests_run_entry dp da : nests L (run_entry K exec dp da).
Proof.
  unfold run_entry. destruct (da_actions da) as [[|a rest]|].
  - apply nests_raise.
  - apply nests_bind; [|intros; apply nests_ret].
    apply nests_do_execute_actions. exact exec_nests.
  - apply nests_ovs_dp_process_packet. exact exec_nests.
Qed.

Lemma run_deferred_action_step dp w :
  fifo_wf (action_fifos w) -> L <= exec_actions_level w ->
  tail (action_fifos w) <> head (action_fifos w) ->
  match run_deferred_action K exec dp w with
  | Done _ w' => drain_step w w'
  | Fault f => f = KernelOops
  end.
Proof.
  intros Hwf HL Hne. rewrite run_deferred_action_nonempty by exact Hne.
  set (w1 := with_fifo w (fifo_after_get (action_fifos w))).
  assert (Hwf1 : fifo_wf (action_fifos w1)).
  { destruct Hwf as (Ht & Hh & Hlen). unfold w1, fifo_wf.
    cbn [action_fifos with_fifo fifo_after_get head tail fifo].
    repeat split; try lia; exact Hlen. }
  pose proof (nests_run_entry dp
                (fifo_slot (action_fifos w) (tail (action_fifos w)))
                w1 Hwf1 HL) as H.
  destruct (run_entry K exec dp _ w1) as [[] w2|f]; [|exact H].
  destruct H as (Hl & Hw & Ht & Hh & Hs).
  unfold w1 in *. cbn [action_fifos with_fifo fifo_after_get head tail fifo
                       exec_actions_level] in *.
  repeat split; try assumption; try apply Hw.
Qed.

(** The drain loop with enough rounds left for every entry the FIFO can
    still hold empties the FIFO. *)
Lemma drain_deferred_actions_empties dp :
  forall n w,
    fifo_wf (action_fifos w) -> L <= exec_actions_level w ->
    tail (action_fifos w) <> head (action_fifos w) ->
    DEFERRED_ACTION_FIFO_SIZE <= tail (action_fifos w) + Z.of_nat n ->
    match drain_deferred_actions K exec n dp w with
    | Done _ w' =>
        exec_actions_level w' = exec_actions_level w
        /\ fifo_wf (action_fifos w')
        /\ head (action_fifos w') = tail (action_fifos w')
    | Fault f => f = KernelOops
    end.
Proof.
  induction n as [|n IH]; intros w Hwf HL Hne Hfuel.
  - destruct Hwf as (Ht & Hh & _). unfold DEFERRED_ACTION_FIFO_SIZE in *. lia.
  - cbn [drain_deferred_actions]. unfold bind at 1.
    pose proof (run_deferred_action_step dp w Hwf HL Hne) as H.
    destruct (run_deferred_action K exec dp w) as [[] w1|f]; [|exact H].
    destruct H as (Hl & Hw & Ht & Hh & Hs).
    unfold bind at 1, get_world. unfold action_fifo_is_empty.
    destruct (Z.eqb_spec (head (action_fifos w1)) (tail (action_fifos w1)))
      as [He | Hn].
    + unfold ret. repeat split; try assumption; apply Hw.
    + specialize (IH w1 Hw ltac:(lia) ltac:(congruence) ltac:(lia)).
      destruct (drain_deferred_actions K exec n dp w1) as [[] w2|f];
        [|exact IH].
      destruct IH as (Hl2 & Hw2 & He2). repeat split; try apply Hw2; congruence.
Qed.

(** [process_deferred_actions] leaves an empty FIFO: the one it found, when
    that was empty, and otherwise the FIFO reset to its first slot. *)
Lemma process_deferred_actions_empties dp w :
  fifo_wf (action_fifos w) -> L <= exec_actions_level w ->
  match process_deferred_actions K exec dp w with
  | Done _ w' =>
      exec_actions_level w' = exec_actions_level w
      /\ fifo_wf (action_fifos w')
      /\ head (action_fifos w') = tail (action_fifos w')
      /\ (if action_fifo_is_empty (action_fifos w)
          then action_fifos w' = action_fifos w
          else head (action_fifos w') = 0)
  | Fault f => f = KernelOops
  end.
Proof.
  intros Hwf HL. unfold process_deferred_actions, bind at 1, get_world.
  unfold action_fifo_is_empty.
  destruct (Z.eqb_spec (head (action_fifos w)) (tail (action_fifos w)))
    as [He | Hn].
  - unfold ret. repeat split; try assumption; apply Hwf.
  - unfold bind at 1.
    pose proof (drain_deferred_actions_empties dp
                  (Z.to_nat DEFERRED_ACTION_FIFO_SIZE) w Hwf HL
                  ltac:(congruence)) as H.
    destruct (drain_deferred_actions K exec _ dp w) as [[] w1|f].
    + destruct H as (Hl & Hw & He).
      { destruct Hwf as (Ht & _). unfold DEFERRED_ACTION_FIFO_SIZE. lia. }
      unfold modify. cbn [exec_actions_level action_fifos with_fifo
                          action_fifo_init head tail fifo].
      destruct Hw as (_ & _ & Hlen). unfold fifo_wf.
      cbn [action_fifo_init head tail fifo].
      repeat split; try assumption; try reflexivity;
        unfold DEFERRED_ACTION_FIFO_SIZE; lia.
    + apply H. destruct Hwf as (Ht & _). unfold DEFERRED_ACTION_FIFO_SIZE. lia.
Qed.

End Drain.

End Levels.

Section Chain.

Variable K : kernel.

Lemma reentry_chain dp port v in_port :
  reenters K dp port v in_port ->
  forall n depth skb key w,
    (n <= depth)%nat ->
    exec_actions_level w = EXEC_ACTIONS_LEVEL_LIMIT - Z.of_nat n ->
    0 <= exec_actions_level w ->
    head (action_fifos w) = tail (action_fifos w) ->
    ovs_execute_actions K depth dp skb key (output_to port) w
    = Done (if (n =? 0)%nat then - ELOOP else 0)
        (with_trace w (trace w ++ reentry_trace K v in_port n skb)).
Proof.
  intros (Hp & Hv & Hloop & Hext & Hflow).
  induction n as [|n IH]; intros depth skb key w Hd Hl H0 Hempty;
    rewrite ovs_execute_actions_unfold.
  - destruct (Z.leb_spec EXEC_ACTIONS_LEVEL_LIMIT (exec_actions_level w));
      [reflexivity | lia].
  - destruct (Z.leb_spec EXEC_ACTIONS_LEVEL_LIMIT (exec_actions_level w));
      [lia|].
    destruct depth as [|d]; [lia|].
    set (w1 := with_level w (exec_actions_level w + 1)).
    (* the action list: the output is staged, then sent on the packet *)
    assert (Hrun :
      do_execute_actions K (ovs_execute_actions K d) dp skb key
        (output_to port) (attrs_len (output_to port)) w1
      = Done 0
          (with_trace w1
             (trace w1 ++ reentry_trace K v in_port (S n) skb))).
    { unfold do_execute_actions, output_to.
      cbn [do_execute_actions_loop attrs_len].
      change (NLA_ALIGN (nla_len_field (Nlattr 4 (OVS_ACTION_ATTR_OUTPUT port)))
              + 0 <=? 0) with false. cbv iota.
      rewrite (bind_done _ _ _ _ _
                 (flush_none K (ovs_execute_actions K d) dp skb w1)).
      unfold dispatch_action at 1. cbn [nla_act]. rewrite bind_ret_l.
      change (NLA_ALIGN (nla_len_field (Nlattr 4 (OVS_ACTION_ATTR_OUTPUT port)))
              + 0
              - NLA_ALIGN
                  (nla_len_field (Nlattr 4 (OVS_ACTION_ATTR_OUTPUT port)))
              <=? 0) with true. cbv iota.
      unfold finish_actions.
      destruct (Z.eqb_spec (int_of_u32 port) (-1)); [contradiction|].
      cbn [negb]. unfold do_output. rewrite Hv.
      unfold ovs_vport_send. rewrite Hloop.
      unfold bind at 1. unfold bind at 1. unfold emit at 1, modify at 1.
      pose proof (Hext skb) as He.
      destruct (ovs_flow_key_extract K in_port skb) as [[err s] k] eqn:Ex.
      cbn [fst snd] in He. subst err. cbn [Z.eqb].
      unfold ovs_dp_process_packet. rewrite Hflow.
      unfold bind at 1.
      fold (output_to port).
      rewrite (IH d s k) by
        (unfold w1; cbn [exec_actions_level with_level with_trace
                         action_fifos]; lia || exact Hempty).
      unfold ret. f_equal.
      cbn [reentry_trace]. rewrite Ex. cbn [fst snd].
      unfold with_trace. cbn. rewrite <- app_assoc. reflexivity. }
    unfold bind at 1. rewrite Hrun.
    assert (Hproc :
      forall w2,
        head (action_fifos w2) = tail (action_fifos w2) ->
        (if exec_actions_level w =? 0
         then process_deferred_actions K (ovs_execute_actions K d) dp
         else ret tt) w2 = Done tt w2).
    { intros w2 He. destruct (exec_actions_level w =? 0); [|reflexivity].
      unfold process_deferred_actions, bind, get_world, action_fifo_is_empty.
      rewrite He, Z.eqb_refl. reflexivity. }
    unfold bind at 1. rewrite Hproc by exact Hempty.
    unfold bind, modify, ret. f_equal.
    unfold w1, with_trace, with_level. cbn. f_equal. lia.
Qed.

End Chain.

(** C1.  [ovs_execute_actions] and the per-CPU level.
    - Entered with the level at [EXEC_ACTIONS_LEVEL_LIMIT] (4) or above, it
      frees the packet and returns [-ELOOP]; nothing else is recorded, so no
      action was executed.
    - Entered below the limit, it runs the action list (and, for the
      outermost call, the drain) in the world whose level is one higher,
      and lowers the level again before it returns.
    - With as many nested entries allowed as the limit leaves room for, a
      call never runs out of them, and on return the level is what it was
      at entry.
    - On a flow that re-enters the executor through a port that loops back,
      a call entered at level 0 records exactly four sends, one per level
      0..3, followed by the free of the packet of the fourth nested
      re-entry, which found the level at 4; the outermost call returns 0. *)
Theorem exec_actions_level_limit (K : kernel) :
  (forall depth dp skb key acts w,
     EXEC_ACTIONS_LEVEL_LIMIT <= exec_actions_level w ->
     ovs_execute_actions K depth dp skb key acts w
     = Done (- ELOOP) (after_event w (EvFree skb)))
  /\ (forall depth dp skb key acts w,
        exec_actions_level w < EXEC_ACTIONS_LEVEL_LIMIT ->
        ovs_execute_actions K (S depth) dp skb key acts w
        = (err <- do_execute_actions K (ovs_execute_actions K depth) dp skb
                    key acts (attrs_len acts) ;;
           (if exec_actions_level w =? 0
            then process_deferred_actions K (ovs_execute_actions K depth) dp
            else ret tt) ;;
           modify (fun w => with_level w (exec_actions_level w - 1)) ;;
           ret err)
            (with_level w (exec_actions_level w + 1)))
  /\ (forall depth dp skb key acts w,
        fifo_wf (action_fifos w) ->
        0 <= exec_actions_level w ->
        EXEC_ACTIONS_LEVEL_LIMIT <= exec_actions_level w + Z.of_nat depth ->
        match ovs_execute_actions K depth dp skb key acts w with
        | Done _ w' => exec_actions_level w' = exec_actions_level w
        | Fault f => f = KernelOops
        end)
  /\ (forall depth dp port v in_port skb key w,
        reenters K dp port v in_port ->
        (Z.to_nat EXEC_ACTIONS_LEVEL_LIMIT <= depth)%nat ->
        exec_actions_level w = 0 ->
        head (action_fifos w) = tail (action_fifos w) ->
        ovs_execute_actions K depth dp skb key (output_to port) w
        = Done 0
            (with_trace w
               (trace w
                ++ reentry_trace K v in_port
                     (Z.to_nat EXEC_ACTIONS_LEVEL_LIMIT) skb))).
Proof.
  split; [|split; [|split]].
  - intros depth dp skb key acts w Hl. rewrite ovs_execute_actions_unfold.
    destruct (Z.leb_spec EXEC_ACTIONS_LEVEL_LIMIT (exec_actions_level w));
      [reflexivity | lia].
  - intros depth dp skb key acts w Hl. rewrite ovs_execute_actions_unfold.
    destruct (Z.leb_spec EXEC_ACTIONS_LEVEL_LIMIT (exec_actions_level w));
      [lia | reflexivity].
  - intros depth dp skb key acts w Hwf H0 Hd.
    destruct (Z.eq_dec (exec_actions_level w) 0) as [Hz | Hnz].
    + (* the outermost call *)
      rewrite ovs_execute_actions_unfold.
      destruct (Z.leb_spec EXEC_ACTIONS_LEVEL_LIMIT (exec_actions_level w))
        as [Hlim | Hlim];
        [unfold EXEC_ACTIONS_LEVEL_LIMIT in *; lia|].
      destruct depth as [|d]; [unfold EXEC_ACTIONS_LEVEL_LIMIT in *; lia|].
      set (w1 := with_level w (exec_actions_level w + 1)).
      assert (Hfloor : level_floor d <= 1)
        by (unfold level_floor, EXEC_ACTIONS_LEVEL_LIMIT in *; lia).
      assert (Hex : forall dp skb key acts,
                 nests 1 (ovs_execute_actions K d dp skb key acts)).
      { intros. eapply nests_weaken; [exact Hfloor|].
        apply nests_ovs_execute_actions. }
      pose proof (nests_do_execute_actions K _ 1 Hex dp skb key acts
                    (attrs_len acts) w1 Hwf
                    ltac:(unfold w1; cbn [exec_actions_level with_level]; lia))
        as H1.
      unfold bind at 1.
      destruct (do_execute_actions K (ovs_execute_actions K d) dp skb key acts
                  (attrs_len acts) w1) as [err w2|f]; [|exact H1].
      destruct H1 as (Hl1 & Hw1 & _).
      rewrite Hz. cbn [Z.eqb]. unfold bind at 1.
      pose proof (process_deferred_actions_empties K _ 1 Hex dp w2 Hw1
                    ltac:(rewrite Hl1; unfold w1;
                          cbn [exec_actions_level with_level]; lia)) as H2.
      destruct (process_deferred_actions K (ovs_execute_actions K d) dp w2)
        as [[] w3|f]; [|exact H2].
      destruct H2 as (Hl2 & _). unfold bind, modify, ret.
      cbn [exec_actions_level with_level]. rewrite Hl2, Hl1. unfold w1.
      cbn [exec_actions_level with_level]. lia.
    + pose proof (nests_ovs_execute_actions K depth dp skb key acts w Hwf
                    ltac:(unfold level_floor; lia)) as H.
      destruct (ovs_execute_actions K depth dp skb key acts w);
        [apply H | exact H].
  - intros depth dp port v in_port skb key w Hre Hd Hl He.
    rewrite (reentry_chain K dp port v in_port Hre
               (Z.to_nat EXEC_ACTIONS_LEVEL_LIMIT) depth skb key w Hd)
      by (assumption || (rewrite Hl; reflexivity) || lia).
    reflexivity.
Qed.


(** C7.  [RECIRC] as the last attribute, reached with an invalidated flow
    key whose re-extraction fails: [execute_recirc] returns the error, and
    the executor returns it at once.  The world is as it was before the
    attribute: the packet has been neither queued nor freed. *)
Theorem recirc_last_key_update_failure_leaks (K : kernel)
    (exec : datapath -> sk_buff -> sw_flow_key -> list nlattr -> M Z) :
  forall dp skb key a id next rem w err skb' key',
    nla_act a = OVS_ACTION_ATTR_RECIRC id ->
    last_action a rem = true ->
    0 < rem ->
    is_flow_key_valid key = false ->
    ovs_flow_key_update K skb key = (err, skb', key') ->
    err <> 0 ->
    do_execute_actions K exec dp skb key (a :: next) rem w = Done err w.
Proof.
  intros dp skb key a id next rem w err skb' key' Ha Hlast Hrem Hinv Hupd Herr.
  unfold do_execute_actions. rewrite loop_cons by exact Hrem.
  rewrite (bind_done _ _ _ _ _ (flush_none K exec dp skb w)).
  assert (Hd : dispatch_action K dp skb key a rem w = Done (Return err) w).
  { unfold dispatch_action. rewrite Ha.
    assert (Hr : execute_recirc K dp skb key a id rem w
                 = Done (err, skb', key') w).
    { unfold execute_recirc. rewrite Hinv. cbn [negb].
      unfold bind at 1, ret at 1. rewrite Hupd.
      destruct (Z.eqb_spec err 0); [contradiction | reflexivity]. }
    rewrite (bind_done _ _ _ _ _ Hr). rewrite Hlast. reflexivity. }
  rewrite (bind_done _ _ _ _ _ Hd). reflexivity.
Qed.

Lemma fifo_wf_init : fifo_wf action_fifos_init.
Proof. unfold fifo_wf. cbn. repeat split; lia. Qed.

Lemma reenters0 :
  reenters kernel0 datapath0 9 {| port_no := 9; loops_to := Some 1 |} 1.
Proof.
  unfold reenters. repeat split; try reflexivity.
  vm_compute. discriminate.
Qed.

(** C1, on the flow that loops through port 9: four sends, then the free. *)
Lemma exec_actions_level_limit_witness :
  ovs_execute_actions kernel0 4 datapath0 udp_packet key0 (output_to 9) world0
  = Done 0
      (with_trace world0
         [EvSend 9 udp_packet; EvSend 9 udp_packet; EvSend 9 udp_packet;
          EvSend 9 udp_packet; EvFree udp_packet]).
Proof.
  exact (proj2 (proj2 (proj2 (exec_actions_level_limit kernel0)))
           4%nat datapath0 9 {| port_no := 9; loops_to := Some 1 |} 1
           udp_packet key0 world0 reenters0 (le_n 4) eq_refl eq_refl).
Defined.

(** C2, twelve entries offered to the empty FIFO: nine are taken. *)
Lemma deferred_fifo_put_bound_witness :
  exists w',
    enqueue_all (repeat da_zero 12) world0 = Done 9%nat w'
    /\ head (action_fifos w') = 9.
Proof.
  exact (proj1 (proj2 deferred_fifo_put_bound) (repeat da_zero 12) world0
           eq_refl).
Defined.



(** C4, a source-port change 53 -> 54 whose corrected checksum is zero:
    0xFFFF is stored. *)
Lemma udp_zero_checksum_policy_witness :
  udp_check (set_udp_port udp_packet 34 54) = 65535.
Proof.
  assert (H0 : 0 <= skb_transport_offset udp_packet)
    by (vm_compute; discriminate).
  assert (H1 : skb_transport_offset udp_packet + sizeof_udphdr
               <= skb_len udp_packet) by (vm_compute; discriminate).
  assert (Hc : udp_check udp_packet <> 0) by (vm_compute; discriminate).
  rewrite (proj1 (proj1 (proj1 (udp_zero_checksum_policy udp_packet H0 H1)
                           34 54 (or_introl eq_refl)) Hc eq_refl)).
  vm_compute. reflexivity.
Defined.

Lemma bytes_ok_sctp_packet : bytes_ok (data sctp_packet).
Proof. unfold bytes_ok. cbn. repeat constructor; lia. Qed.

(** C5, on a packet whose stored checksum is wrong: after the ports are
    set, it is wrong by the same bits. *)
Lemma set_sctp_carries_checksum_error_witness :
  exists skb' key' w',
    set_sctp sctp_packet key0 {| sctp_src := 6000; sctp_dst := 6001 |} world0
    = Done (0, skb', key') w'
    /\ sctp_cksum_delta skb' = sctp_cksum_delta sctp_packet
    /\ sctp_cksum_delta sctp_packet <> 0.
Proof.
  destruct (set_sctp sctp_packet key0 {| sctp_src := 6000; sctp_dst := 6001 |}
              world0) as [[[e s] k] w'|f] eqn:E;
    [|vm_compute in E; discriminate E].
  assert (He : e = 0)
    by (vm_compute in E; injection E as <- _ _ _; reflexivity).
  subst e. exists s, k, w'. split; [reflexivity|]. split.
  - exact (proj1 (set_sctp_carries_checksum_error sctp_packet key0 _ world0
                    s k w' bytes_ok_sctp_packet
                    ltac:(vm_compute; discriminate) E)).
  - vm_compute. discriminate.
Defined.


(** C7, [RECIRC] alone with an invalidated key: the error comes back and
    nothing has been recorded. *)
Lemma recirc_last_key_update_failure_leaks_witness :
  do_execute_actions kernel0 exec0 datapath0 udp_packet
    (invalidate_flow_key key0) [Nlattr 4 (OVS_ACTION_ATTR_RECIRC 7)] 8 world0
  = Done (-22) world0.
Proof.
  exact (recirc_last_key_update_failure_leaks kernel0 exec0 datapath0
           udp_packet (invalidate_flow_key key0)
           (Nlattr 4 (OVS_ACTION_ATTR_RECIRC 7)) 7 [] 8 world0 (-22)
           udp_packet (invalidate_flow_key key0)
           eq_refl eq_refl eq_refl eq_refl eq_refl
           ltac:(discriminate)).
Defined.


(** C9, [PUSH_MPLS] when the headroom cannot be allocated: [-ENOMEM], one
    free. *)
Lemma mutator_error_frees_packet_once_witness :
  do_execute_actions_loop kernel0 exec0 datapath0 udp_packet key0 (-1)
    [Nlattr 8
       (OVS_ACTION_ATTR_PUSH_MPLS {| mpls_lse := 1; mpls_ethertype := 34887 |});
     Nlattr 4 (OVS_ACTION_ATTR_OUTPUT 3)] 20 world_oom
  = Done (- ENOMEM) (after_event world0 (EvFree udp_packet)).
Proof.
  exact (proj1 (proj1 (mutator_error_frees_packet_once kernel0 exec0 datapath0
                         udp_packet key0 (-1)
                         (Nlattr 8
                            (OVS_ACTION_ATTR_PUSH_MPLS
                               {| mpls_lse := 1; mpls_ethertype := 34887 |}))
                         [Nlattr 4 (OVS_ACTION_ATTR_OUTPUT 3)] 20 world_oom
                         world_oom eq_refl eq_refl)
                  _ (- ENOMEM) udp_packet key0 world0 eq_refl eq_refl
                  ltac:(discriminate))).
Defined.

(** C10, port 5 does not exist. *)
Lemma output_to_missing_port_frees_witness :
  do_output kernel0 exec0 datapath0 udp_packet 5 world0
  = Done tt (after_event world0 (EvFree udp_packet)).
Proof.
  exact (proj1 (output_to_missing_port_frees kernel0 exec0 datapath0 5
                  eq_refl) udp_packet world0).
Defined.

(** ** Netlink alignment *)

Lemma NLA_ALIGN_div len : NLA_ALIGN len = 4 * ((len + 3) / 4).
Proof.
  unfold NLA_ALIGN. replace (Z.lnot 3) with (Z.lnot (Z.ones 2)) by reflexivity.
  rewrite <- Z.ldiff_land, Z.ldiff_ones_r by lia.
  rewrite Z.shiftr_div_pow2, Z.shiftl_mul_pow2 by lia.
  change (2 ^ 2) with 4. lia.
Qed.

Lemma NLA_ALIGN_bounds len : len <= NLA_ALIGN len < len + 4.
Proof.
  rewrite NLA_ALIGN_div.
  pose proof (Z.div_mod (len + 3) 4 ltac:(lia)).
  pose proof (Z.mod_pos_bound (len + 3) 4 ltac:(lia)). lia.
Qed.

Lemma NLA_ALIGN_aligned len : NLA_ALIGN len mod 4 = 0.
Proof. rewrite NLA_ALIGN_div, Z.mul_comm. apply Z.mod_mul. lia. Qed.

Lemma NLA_ALIGN_fixed len : len mod 4 = 0 -> NLA_ALIGN len = len.
Proof.
  intros H. rewrite NLA_ALIGN_div.
  pose proof (Z.div_mod len 4 ltac:(lia)).
  replace (len + 3) with (3 + (len / 4) * 4) by lia.
  rewrite Z.div_add by lia. change (3 / 4) with 0. lia.
Qed.

(** ** Deferred action lists *)

Section DeferredLists.

Variable K : kernel.
Variable exec : datapath -> sk_buff -> sw_flow_key -> list nlattr -> M Z.

(** X1.  The drain runs a deferred action list with [nla_len(actions)] as its
    length, and [actions] points at the first nested attribute: the walk
    ends after that attribute whatever follows it, and before it when its
    payload is empty. *)
Theorem deferred_list_runs_first_attribute_only :
  forall dp skb key a rest w,
    do_execute_actions K exec dp skb key (a :: rest) (nla_len a) w
    = do_execute_actions K exec dp skb key [a] (nla_len a) w
    /\ (nla_len a = 0 ->
        do_execute_actions K exec dp skb key (a :: rest) (nla_len a) w
        = Done 0 (after_event w (EvConsume skb)))
    /\ (forall v,
          tail (action_fifos v) <> head (action_fifos v) ->
          da_actions (fifo_slot (action_fifos v) (tail (action_fifos v)))
          = Some (a :: rest) ->
          run_deferred_action K exec dp v
          = (_ <- do_execute_actions K exec dp
                    (da_skb (fifo_slot (action_fifos v) (tail (action_fifos v))))
                    (da_pkt_key
                       (fifo_slot (action_fifos v) (tail (action_fifos v))))
                    [a] (nla_len a) ;;
             ret tt)
              (with_fifo v (fifo_after_get (action_fifos v)))).
Proof.
  intros dp skb key a rest w.
  assert (H1 : forall s k v,
             do_execute_actions K exec dp s k (a :: rest) (nla_len a) v
             = do_execute_actions K exec dp s k [a] (nla_len a) v).
  { intros s k v. unfold do_execute_actions.
    destruct (Z.lt_ge_cases 0 (nla_len a)) as [Hpos | Hz].
    - rewrite !loop_cons by exact Hpos.
      apply bind_ext. intros _ w1. apply bind_ext. intros [err | p s' k'] w2;
        [reflexivity|].
      pose proof (NLA_ALIGN_bounds (nla_len_field a)).
      unfold nla_len in *.
      rewrite !loop_done by (unfold NLA_HDRLEN in *; lia). reflexivity.
    - rewrite !loop_done by lia. reflexivity. }
  split; [apply H1|]. split.
  - intros Hz. unfold do_execute_actions. rewrite loop_done by lia.
    reflexivity.
  - intros v Hne Hda. rewrite (run_deferred_action_nonempty K exec dp v Hne).
    unfold run_entry. rewrite Hda. unfold bind. rewrite H1. reflexivity.
Qed.

End DeferredLists.

(** ** Recirculation *)

Section Recirculation.

Variable K : kernel.

(** X2.  [RECIRC] on a key that is valid, or that [ovs_flow_key_update] makes
    valid: with room in the FIFO, and not as the last attribute, a clone
    with a fresh buffer head is queued - its key the packet's key with
    [recirc_id] set, its action list none - and the packet goes on; without
    memory for the clone nothing is queued or recorded; as the last
    attribute the packet itself is queued and no clone is made. *)
Theorem recirc_defers_clone_or_packet :
  forall dp skb key a id rem w skb' key',
    recirc_key K skb key = (0, skb', key') ->
    is_flow_key_valid key' = true ->
    fifo_wf (action_fifos w) ->
    head (action_fifos w) < DEFERRED_ACTION_FIFO_SIZE - 1 ->
    (last_action a rem = false ->
     forall w',
       (gfp_alloc w = Done true w' ->
        execute_recirc K dp skb key a id rem w
        = Done (0, skb', key')
            (with_fifo (after_clone w')
               (fifo_after_put (action_fifos w)
                  {| da_skb := with_id skb' (next_skb_id w');
                     da_actions := None;
                     da_pkt_key := key_with_recirc_id key' (u32 id) |})))
       /\ (gfp_alloc w = Done false w' ->
           execute_recirc K dp skb key a id rem w = Done (0, skb', key') w'
           /\ action_fifos w' = action_fifos w /\ trace w' = trace w))
    /\ (last_action a rem = true ->
        execute_recirc K dp skb key a id rem w
        = Done (0, skb', key')
            (with_fifo w
               (fifo_after_put (action_fifos w)
                  {| da_skb := skb'; da_actions := None;
                     da_pkt_key := key_with_recirc_id key' (u32 id) |}))).
Proof.
  intros dp skb key a id rem w skb' key' Hk Hv Hwf Hroom. split.
  - intros Hl w'. split.
    + intros Hg.
      apply (execute_recirc_clone_deferred K dp skb key a id rem w w' skb' key');
        assumption.
    + intros Hg. split.
      * apply (execute_recirc_clone_oom K dp skb key a id rem w w' skb' key');
          assumption.
      * destruct (gfp_alloc_fifo _ _ _ Hg) as (Hf & _ & Ht & _). auto.
  - intros Hl.
    apply (execute_recirc_last_deferred K dp skb key a id rem w skb' key');
      assumption.
Qed.

End Recirculation.

(** ** Hashing *)


(** ** Upcalls and sampling *)

Lemma output_userspace_upcall dp skb key uattrs w :
  exists u,
    output_userspace dp skb key uattrs w
    = Done (ovs_dp_upcall_ret dp skb key u) (after_event w (EvUpcall skb key u))
    /\ cmd u = OVS_PACKET_CMD_ACTION.
Proof.
  unfold output_userspace. cbv zeta.
  match goal with
  | |- context [fold_left ?f uattrs ?u0] => set (step := f); set (u := u0)
  end.
  exists (fold_left step uattrs u). split; [reflexivity|].
  assert (H : forall l u1, cmd (fold_left step l u1) = cmd u1).
  { induction l as [|x l IH]; intros u1; [reflexivity|].
    cbn [fold_left]. rewrite IH. unfold step. destruct x; try reflexivity.
    destruct (ovs_vport_rcu dp (u32 port)) as [v|]; [|reflexivity].
    destruct (ovs_vport_get_egress_tun_info dp v skb) as [err info].
    destruct (err =? 0); reflexivity. }
  rewrite H. reflexivity.
Qed.

Section Upcalls.

Variable K : kernel.

(** X4.  The executor drops the result of a [USERSPACE] action: whatever the
    upcall returns, one upcall on the packet is recorded, the packet is
    kept and the loop goes on with nothing staged.  The same upcall made
    by [SAMPLE] for its single user-space action is not dropped: an error
    frees the packet and ends the loop with that error. *)
Theorem userspace_error_dropped_sample_error_returned :
  forall dp skb key a rem w,
    (forall uattrs,
       nla_act a = OVS_ACTION_ATTR_USERSPACE uattrs ->
       exists u,
         dispatch_action K dp skb key a rem w
         = Done (Next (-1) skb key) (after_event w (EvUpcall skb key u))
         /\ cmd u = OVS_PACKET_CMD_ACTION)
    /\ (forall sattrs b uattrs w1 err,
          nla_act a = OVS_ACTION_ATTR_SAMPLE sattrs ->
          sample_scan sattrs None w = Done (Some (Some [b])) w1 ->
          nla_act b = OVS_ACTION_ATTR_USERSPACE uattrs ->
          nla_len_field b mod 4 = 0 ->
          (forall u, ovs_dp_upcall_ret dp skb key u = err) ->
          err <> 0 ->
          exists u,
            dispatch_action K dp skb key a rem w
            = Done (Return err)
                (after_event (after_event w1 (EvUpcall skb key u))
                   (EvFree skb))).
Proof.
  intros dp skb key a rem w. split.
  - intros uattrs Ha. unfold dispatch_action. rewrite Ha.
    destruct (output_userspace_upcall dp skb key uattrs w) as (u & E & Hc).
    exists u. rewrite (bind_done _ _ _ _ _ E). split; [reflexivity | exact Hc].
  - intros sattrs b uattrs w1 err Ha Hscan Hb Halign Hret Herr.
    unfold dispatch_action. rewrite Ha.
    destruct (output_userspace_upcall dp skb key uattrs w1) as (u & E & Hc).
    exists u.
    assert (Hs : sample dp skb key sattrs w
                 = Done err (after_event w1 (EvUpcall skb key u))).
    { unfold sample. rewrite (bind_done _ _ _ _ _ Hscan). cbv zeta.
      pose proof (attrs_len_pos b []) as Hp.
      destruct (Z.eqb_spec (attrs_len [b]) 0); [lia|].
      unfold single_userspace. rewrite Hb.
      unfold last_action. cbn [attrs_len].
      rewrite (NLA_ALIGN_fixed _ Halign), Z.add_0_r, Z.eqb_refl.
      rewrite E, Hret. reflexivity. }
    rewrite (bind_done _ _ _ _ _ Hs). unfold check_err.
    destruct (Z.eqb_spec err 0); [contradiction | reflexivity].
Qed.

End Upcalls.

(** X5.  [sample] and its probability: a draw at or above the probability ends
    [sample] at once with 0, the draw being all that was used.  When the
    scan ends with a list of one user-space action whose length is
    aligned, [sample] makes that upcall on the packet itself: no clone is
    made and nothing is queued.  Any other non-empty list goes to a clone
    that is queued with the list. *)
Theorem sample_probability_and_fast_path :
  forall dp skb key,
    (forall p rest r draws w,
       prandom w = r :: draws ->
       u32 p <= u32 r ->
       sample dp skb key (OVS_SAMPLE_ATTR_PROBABILITY p :: rest) w
       = Done 0 (with_prandom w draws))
    /\ (forall sattrs a uattrs w w1,
          sample_scan sattrs None w = Done (Some (Some [a])) w1 ->
          nla_act a = OVS_ACTION_ATTR_USERSPACE uattrs ->
          nla_len_field a mod 4 = 0 ->
          exists u,
            sample dp skb key sattrs w
            = Done (ovs_dp_upcall_ret dp skb key u)
                (after_event w1 (EvUpcall skb key u)))
    /\ (forall sattrs a rest w w1,
          sample_scan sattrs None w = Done (Some (Some (a :: rest))) w1 ->
          single_userspace a (attrs_len (a :: rest)) = None ->
          sample dp skb key sattrs w = sample_defer skb key (a :: rest) w1).
Proof.
  intros dp skb key. split; [|split].
  - intros p rest r draws w Hr Hp. unfold sample.
    cbn [sample_scan]. unfold bind at 1. unfold bind at 1.
    unfold prandom_u32. rewrite Hr.
    destruct (Z.leb_spec (u32 p) (u32 r)); [reflexivity | lia].
  - intros sattrs a uattrs w w1 Hscan Ha Halign.
    destruct (output_userspace_upcall dp skb key uattrs w1) as (u & E & Hc).
    exists u. unfold sample. rewrite (bind_done _ _ _ _ _ Hscan). cbv zeta.
    pose proof (attrs_len_pos a []) as Hp.
    destruct (Z.eqb_spec (attrs_len [a]) 0); [lia|].
    unfold single_userspace. rewrite Ha.
    unfold last_action. cbn [attrs_len].
    rewrite (NLA_ALIGN_fixed _ Halign), Z.add_0_r, Z.eqb_refl. exact E.
  - intros sattrs a rest w w1 Hscan Hu.
    apply sample_slow_path; assumption.
Qed.

Lemma make_writable_errno skb n w e w' :
  make_writable skb n w = Done e w' -> e = 0 \/ e = - ENOMEM.
Proof.
  unfold make_writable.
  destruct ((n <? 0) || (skb_len skb <? n)).
  - unfold ret. intros [= <- _]. right. reflexivity.
  - unfold bind. destruct (gfp_alloc w) as [b w1|]; [|discriminate].
    unfold ret. intros [= <- _]. destruct b; auto.
Qed.

Lemma make_writable_short skb n w :
  skb_len skb < n -> make_writable skb n w = Done (- ENOMEM) w.
Proof.
  intros H. unfold make_writable.
  destruct (Z.ltb_spec (skb_len skb) n); [|lia].
  rewrite orb_true_r. reflexivity.
Qed.

Ltac fails_clean_start :=
  intros w err skb' key' w'; unfold bind;
  match goal with
  | |- context [make_writable ?s ?n ?w0] =>
      let e := fresh "e" in
      let w1 := fresh "w1" in
      let Hmw := fresh "Hmw" in
      destruct (make_writable s n w0) as [e w1|] eqn:Hmw; [|discriminate];
      pose proof (make_writable_errno _ _ _ _ _ Hmw);
      destruct (Z.eqb_spec e 0); cbn [negb]; unfold ret;
      [ | intros [= <- <- <- <-]; right; split; [tauto | split; reflexivity] ]
  end.

Ltac done_err E :=
  apply (f_equal (fun o : outcome mret =>
                    match o with
                    | Done (e, _, _) _ => e
                    | Fault _ => 0
                    end)) in E;
  cbv beta iota zeta in E; symmetry; exact E.

Lemma fails_clean_set_eth_addr skb key k :
  fails_clean skb key (set_eth_addr skb key k).
Proof. unfold set_eth_addr. fails_clean_start. intros E. left. done_err E. Qed.

Lemma fails_clean_set_mpls skb key lse :
  fails_clean skb key (set_mpls skb key lse).
Proof. unfold set_mpls. fails_clean_start. intros E. left. done_err E. Qed.

Lemma fails_clean_pop_mpls skb key e0 :
  fails_clean skb key (pop_mpls skb key e0).
Proof. unfold pop_mpls. fails_clean_start. intros E. left. done_err E. Qed.

Lemma fails_clean_push_mpls skb key mpls :
  fails_clean skb key (push_mpls skb key mpls).
Proof.
  unfold push_mpls, skb_cow_head. intros w err skb' key' w'. unfold bind.
  destruct (gfp_alloc w) as [b w1|]; [|discriminate]. unfold ret.
  destruct b; cbn [Z.ltb Z.compare Z.opp ENOMEM].
  - intros E. left. done_err E.
  - intros [= <- <- <- <-]. right. repeat split.
Qed.

Ltac split_pairs :=
  repeat match goal with
         | |- context [let '(_, _) := ?x in _] => destruct x as [? ?]
         end.

Lemma fails_clean_set_ipv4 skb key k : fails_clean skb key (set_ipv4 skb key k).
Proof.
  unfold set_ipv4. fails_clean_start. split_pairs.
  intros [= <- _ _ _]. left. reflexivity.
Qed.

Lemma fails_clean_set_ipv6 K skb key k :
  fails_clean skb key (set_ipv6 K skb key k).
Proof.
  unfold set_ipv6. fails_clean_start.
  destruct (set_ipv6_src_step skb key k) as [s1 k1].
  destruct (set_ipv6_dst_step K s1 k1 k) as [s2 k2].
  intros E. left. done_err E.
Qed.

Lemma fails_clean_set_tcp skb key k : fails_clean skb key (set_tcp skb key k).
Proof.
  unfold set_tcp. fails_clean_start. split_pairs.
  intros [= <- _ _ _]. left. reflexivity.
Qed.

Lemma fails_clean_set_udp skb key k : fails_clean skb key (set_udp skb key k).
Proof.
  unfold set_udp. fails_clean_start. split_pairs.
  intros [= <- _ _ _]. left. reflexivity.
Qed.

Lemma fails_clean_set_sctp skb key k : fails_clean skb key (set_sctp skb key k).
Proof.
  unfold set_sctp. fails_clean_start.
  match goal with |- (if ?b then _ else _) _ = _ -> _ => destruct b end;
    intros E; left; done_err E.
Qed.

Lemma fails_clean_execute_set_action K skb key nested :
  fails_clean skb key (execute_set_action K skb key nested).
Proof.
  destruct nested; cbn [execute_set_action];
    auto using fails_clean_set_eth_addr, fails_clean_set_ipv4,
      fails_clean_set_ipv6, fails_clean_set_tcp, fails_clean_set_udp,
      fails_clean_set_sctp, fails_clean_set_mpls;
    intros w err skb' key' w'; unfold ret; intros E; left; done_err E.
Qed.

(** X6.  A [SET] action always returns; it records no call and leaves the level
    and the FIFO alone - the world differs at most in the allocations
    used; the packet it hands back has the buffer head it was given; and
    its only error is [-ENOMEM], returned with the packet and the key
    untouched. *)
Theorem set_action_is_total_and_fails_clean (K : kernel) :
  forall skb key nested w,
    exists err skb' key' w',
      execute_set_action K skb key nested w = Done (err, skb', key') w'
      /\ w' = with_gfp w (gfp_atomic w')
      /\ skb_id skb' = skb_id skb
      /\ (err = 0 \/ (err = - ENOMEM /\ skb' = skb /\ key' = key)).
Proof.
  intros skb key nested w.
  destruct (alloc_only_execute_set_action K skb key nested w)
    as ([[err skb'] key'] & w' & E & F).
  exists err, skb', key', w'. split; [exact E|]. split; [exact F|]. split.
  - exact (keeps_id_execute_set_action K skb key nested _ _ _ _ _ E).
  - exact (fails_clean_execute_set_action K skb key nested _ _ _ _ _ E).
Qed.

(** X7.  The MPLS mutators: [push_mpls] and [pop_mpls] fail only with [-ENOMEM],
    handing back the packet and key untouched, and [pop_mpls] does so
    without an allocation when the packet is shorter than its mac header
    and one label; when they succeed the flow key is invalidated, so that
    a later [RECIRC] re-extracts it. *)
Theorem mpls_mutators_invalidate_key_or_fail_clean :
  forall skb key w,
    (forall mpls err skb' key' w',
       push_mpls skb key mpls w = Done (err, skb', key') w' ->
       (err = 0 /\ is_flow_key_valid key' = false)
       \/ (err = - ENOMEM /\ skb' = skb /\ key' = key))
    /\ (forall ethertype err skb' key' w',
          pop_mpls skb key ethertype w = Done (err, skb', key') w' ->
          (err = 0 /\ is_flow_key_valid key' = false)
          \/ (err = - ENOMEM /\ skb' = skb /\ key' = key))
    /\ (forall ethertype,
          skb_len skb < mac_len skb + MPLS_HLEN ->
          pop_mpls skb key ethertype w = Done (- ENOMEM, skb, key) w).
Proof.
  intros skb key w. split; [|split].
  - intros mpls err skb' key' w' E.
    destruct (fails_clean_push_mpls skb key mpls _ _ _ _ _ E) as [Hz | Hf];
      [left | right; exact Hf].
    split; [exact Hz|]. subst err. revert E.
    unfold push_mpls, skb_cow_head, bind.
    destruct (gfp_alloc w) as [b w1|]; [|discriminate]. unfold ret.
    destruct b; cbn [Z.ltb Z.compare Z.opp ENOMEM]; [|discriminate].
    intros E.
    apply (f_equal (fun o : outcome mret =>
                      match o with
                      | Done (_, _, k) _ => is_flow_key_valid k
                      | Fault _ => false
                      end)) in E.
    cbv beta iota zeta in E. rewrite <- E. reflexivity.
  - intros ethertype err skb' key' w' E.
    destruct (fails_clean_pop_mpls skb key ethertype _ _ _ _ _ E) as [Hz | Hf];
      [left | right; exact Hf].
    split; [exact Hz|]. subst err. revert E.
    unfold pop_mpls, bind.
    destruct (make_writable skb (mac_len skb + MPLS_HLEN) w) as [e w1|];
      [|discriminate].
    destruct (Z.eqb_spec e 0); cbn [negb]; unfold ret.
    + intros E.
      apply (f_equal (fun o : outcome mret =>
                        match o with
                        | Done (_, _, k) _ => is_flow_key_valid k
                        | Fault _ => false
                        end)) in E.
      cbv beta iota zeta in E. rewrite <- E. reflexivity.
    + intros [= He _ _ _]. contradiction.
  - intros ethertype Hshort. unfold pop_mpls.
    rewrite (bind_done _ _ _ _ _ (make_writable_short skb _ w Hshort)).
    reflexivity.
Qed.

Lemma ports_frame_refl port check d : ports_frame port check d d.
Proof. split; reflexivity. Qed.

Lemma ports_frame_trans port check d1 d2 d3 :
  ports_frame port check d1 d2 -> ports_frame port check d2 d3 ->
  ports_frame port check d1 d3.
Proof.
  intros [L1 B1] [L2 B2]. split; [congruence|].
  intros i H0 Hp Hc. rewrite B2, B1 by assumption. reflexivity.
Qed.

Lemma ports_frame_put_be16_port port check d v :
  0 <= port -> port + 2 <= Z.of_nat (length d) ->
  ports_frame port check d (put_be16 d port v).
Proof.
  intros H0 H1. unfold put_be16. split.
  - apply length_put_bytes; cbn [length be16_bytes]; lia.
  - intros i Hi Hp Hc. apply byte_at_put_bytes_out; cbn [length be16_bytes]; lia.
Qed.

Lemma ports_frame_put_be16_check port check d v :
  0 <= check -> check + 2 <= Z.of_nat (length d) ->
  ports_frame port check d (put_be16 d check v).
Proof.
  intros H0 H1. unfold put_be16. split.
  - apply length_put_bytes; cbn [length be16_bytes]; lia.
  - intros i Hi Hp Hc. apply byte_at_put_bytes_out; cbn [length be16_bytes]; lia.
Qed.

Lemma ports_frame_wider port port' check d d' :
  ports_frame port' check d d' ->
  (port = port' \/ port + 2 = port' \/ port = port' + 2) ->
  forall i, 0 <= i ->
    i < Z.min port port' \/ Z.max port port' + 2 <= i ->
    i < check \/ check + 2 <= i ->
    byte_at d' i = byte_at d i.
Proof. intros [L B] Hp i Hi Ho Hc. apply B; lia. Qed.

(** What [inet_proto_csum_replace2] with no pseudo-header does: nothing but
    the checksum field is written. *)
Lemma csum_replace2_frame port check skb from to :
  0 <= check -> check + 2 <= skb_len skb ->
  let s := inet_proto_csum_replace2 check skb from to false in
  ports_frame port check (data skb) (data s)
  /\ transport_header s = transport_header skb
  /\ network_header s = network_header skb
  /\ mac_len s = mac_len skb
  /\ ip_summed s = ip_summed skb
  /\ csum s = csum skb
  /\ skb_id s = skb_id skb.
Proof.
  intros H0 H1 s. unfold s, inet_proto_csum_replace2, inet_proto_csum_replace4,
    inet_proto_csum_replace, skb_len in *.
  destruct (negb (is_partial skb)).
  - rewrite andb_false_r. cbn [data with_data transport_header network_header
                                mac_len ip_summed csum skb_id].
    split; [apply ports_frame_put_be16_check; assumption|]. repeat split.
  - split; [apply ports_frame_refl|]. repeat split.
Qed.

Lemma set_tp_port_frame skb port new_port check :
  0 <= port -> port + 2 <= check -> check + 2 <= skb_len skb ->
  let s := set_tp_port skb port new_port check in
  ports_frame port check (data skb) (data s)
  /\ get_be16 (data s) port = u16 new_port
  /\ transport_header s = transport_header skb
  /\ network_header s = network_header skb
  /\ mac_len s = mac_len skb
  /\ ip_summed s = ip_summed skb
  /\ csum s = csum skb
  /\ skb_id s = skb_id skb.
Proof.
  intros H0 H1 H2 s. unfold s, set_tp_port.
  pose proof (csum_replace2_frame port check skb
                (get_be16 (data skb) port) new_port ltac:(lia) H2) as F.
  cbv zeta in F.
  set (s1 := inet_proto_csum_replace2 check skb _ new_port false) in *.
  destruct F as (Fd & Ft & Fn & Fm & Fi & Fc & Fid).
  unfold skb_clear_hash. cbn [data with_data with_rxhash transport_header
                              network_header mac_len ip_summed csum skb_id].
  unfold skb_len in *. pose proof (proj1 Fd) as Hlen.
  split.
  - eapply ports_frame_trans; [exact Fd|].
    apply ports_frame_put_be16_port; lia.
  - split; [apply get_be16_put_be16; lia|]. repeat split; assumption.
Qed.

Lemma make_writable_ok_len skb n w w' :
  make_writable skb n w = Done 0 w' -> 0 <= n <= skb_len skb.
Proof.
  unfold make_writable.
  destruct (Z.ltb_spec n 0); cbn [orb].
  - unfold ret. intros E. discriminate E.
  - destruct (Z.ltb_spec (skb_len skb) n).
    + unfold ret. intros E. discriminate E.
    + intros _. lia.
Qed.

(** X8.  A successful [set_tcp] leaves the two ports of the action in the TCP
    header and in the key's transport ports wherever it changed them,
    rewrites no byte of the packet outside the ports and the TCP checksum
    field, and moves no header offset. *)
Theorem set_tcp_writes_ports_and_checksum_only :
  forall skb key k w skb' key' w',
    0 <= skb_transport_offset skb ->
    set_tcp skb key k w = Done (0, skb', key') w' ->
    let th := skb_transport_offset skb in
    get_be16 (data skb') th = u16 (tcp_src k)
    /\ get_be16 (data skb') (th + 2) = u16 (tcp_dst k)
    /\ tp_src key'
       = (if u16 (tcp_src k) =? get_be16 (data skb) th
          then tp_src key else u16 (tcp_src k))
    /\ tp_dst key'
       = (if u16 (tcp_dst k) =? get_be16 (data skb) (th + 2)
          then tp_dst key else u16 (tcp_dst k))
    /\ length (data skb') = length (data skb)
    /\ (forall i, 0 <= i -> i < th \/ th + 4 <= i ->
                  i < th + tcph_check \/ th + tcph_check + 2 <= i ->
                  byte_at (data skb') i = byte_at (data skb) i)
    /\ skb_transport_offset skb' = th
    /\ skb_network_offset skb' = skb_network_offset skb.
Proof.
  intros skb key k w skb' key' w' Hth Hrun th.
  unfold set_tcp, bind in Hrun.
  destruct (make_writable skb (skb_transport_offset skb + sizeof_tcphdr) w)
    as [e w1|] eqn:Hmw; [|discriminate].
  destruct (Z.eqb_spec e 0) as [He | Hne]; cbn [negb] in Hrun.
  2:{ unfold ret in Hrun. injection Hrun as H _ _ _. contradiction. }
  subst e. pose proof (make_writable_ok_len _ _ _ _ Hmw) as Hlen.
  unfold sizeof_tcphdr in Hlen. fold th in Hlen, Hrun.
  cbv zeta in Hrun.
  (* the source port *)
  set (c1 := u16 (tcp_src k) =? get_be16 (data skb) th) in *.
  set (p1 := if negb c1
             then (set_tp_port skb th (tcp_src k) (th + tcph_check),
                   key_with_tp_src key (u16 (tcp_src k)))
             else (skb, key)) in *.
  assert (S1 : ports_frame th (th + tcph_check) (data skb) (data (fst p1))
               /\ get_be16 (data (fst p1)) th = u16 (tcp_src k)
               /\ transport_header (fst p1) = transport_header skb
               /\ network_header (fst p1) = network_header skb
               /\ tp_src (snd p1) = (if c1 then tp_src key else u16 (tcp_src k))
               /\ tp_dst (snd p1) = tp_dst key).
  { unfold p1. destruct c1 eqn:Ec; cbn [negb fst snd].
    - split; [apply ports_frame_refl|]. unfold c1 in Ec.
      apply Z.eqb_eq in Ec. repeat split. symmetry. exact Ec.
    - pose proof (set_tp_port_frame skb th (tcp_src k) (th + tcph_check)
                    ltac:(fold th in Hth; lia)
                    ltac:(unfold tcph_check; lia)
                    ltac:(unfold tcph_check; lia)) as F.
      cbv zeta in F. destruct F as (Fd & Fg & Ft & Fn & _).
      repeat split; try assumption; apply Fd. }
  destruct p1 as [s1 k1]. cbn [fst snd] in S1.
  destruct S1 as (D1 & G1 & T1 & N1 & KS1 & KD1).
  (* the destination port *)
  set (c2 := u16 (tcp_dst k) =? get_be16 (data s1) (th + 2)) in *.
  set (p2 := if negb c2
             then (set_tp_port s1 (th + 2) (tcp_dst k) (th + tcph_check),
                   key_with_tp_dst k1 (u16 (tcp_dst k)))
             else (s1, k1)) in *.
  assert (L1 : length (data s1) = length (data skb)) by apply D1.
  assert (S2 : ports_frame (th + 2) (th + tcph_check) (data s1) (data (fst p2))
               /\ get_be16 (data (fst p2)) (th + 2) = u16 (tcp_dst k)
               /\ transport_header (fst p2) = transport_header s1
               /\ network_header (fst p2) = network_header s1
               /\ tp_src (snd p2) = tp_src k1
               /\ tp_dst (snd p2) = (if c2 then tp_dst k1 else u16 (tcp_dst k))).
  { unfold p2. destruct c2 eqn:Ec; cbn [negb fst snd].
    - split; [apply ports_frame_refl|]. unfold c2 in Ec.
      apply Z.eqb_eq in Ec. repeat split. symmetry. exact Ec.
    - pose proof (set_tp_port_frame s1 (th + 2) (tcp_dst k) (th + tcph_check)
                    ltac:(fold th in Hth; lia)
                    ltac:(unfold tcph_check; lia)
                    ltac:(unfold skb_len, tcph_check in *; lia)) as F.
      cbv zeta in F. destruct F as (Fd & Fg & Ft & Fn & _).
      repeat split; try assumption; apply Fd. }
  destruct p2 as [s2 k2]. cbn [fst snd] in S2.
  destruct S2 as (D2 & G2 & T2 & N2 & KS2 & KD2).
  unfold ret in Hrun. injection Hrun as <- <- <-.
  assert (Hc2 : get_be16 (data s1) (th + 2) = get_be16 (data skb) (th + 2)).
  { unfold get_be16. destruct D1 as [_ B1].
    rewrite !B1 by (unfold tcph_check; fold th in Hth; lia). reflexivity. }
  split.
  - unfold get_be16. destruct D2 as [_ B2].
    rewrite !B2 by (unfold tcph_check; fold th in Hth; lia). exact G1.
  - split; [exact G2|]. split; [rewrite KS2; exact KS1|]. split.
    + rewrite KD2, KD1. unfold c2. rewrite Hc2. reflexivity.
    + split; [destruct D2 as [L2 _]; congruence|]. split.
      * intros i Hi Hp Hc. destruct D1 as [_ B1]. destruct D2 as [_ B2].
        rewrite B2, B1 by lia. reflexivity.
      * subst th. unfold skb_transport_offset, skb_network_offset in *.
        split; congruence.
Qed.

(** ** MPLS *)

Lemma be16_bytes_of_word x y v :
  0 <= x < 256 -> 0 <= y < 256 -> u16 v = x * 256 + y ->
  be16_bytes v = [x; y].
Proof.
  intros Hx Hy Hv. unfold be16_bytes.
  assert (E1 : u8 v = y).
  { unfold u8, u16 in *.
    rewrite <- (Z.mod_mod_divide v 65536 256) by (exists 256; reflexivity).
    rewrite Hv. rewrite Z.add_comm, Z.mod_add by lia. apply Z.mod_small. lia. }
  assert (E2 : u8 (v / 256) = x).
  { pose proof (be16_value v) as B. rewrite E1, Hv in B. lia. }
  rewrite E1, E2. reflexivity.
Qed.

(** X9.  [push_mpls] on a packet with a plain Ethernet header puts the label
    stack entry right behind the 14 bytes of that header and the MPLS
    ethertype into it, and moves the network and transport offsets up by
    the 4 bytes pushed.  [pop_mpls] with the packet's former ethertype then
    gives back the bytes, the length and the offsets the packet had. *)
Theorem push_mpls_then_pop_mpls_restores_packet :
  forall skb key mpls ethertype w s1 k1 w1 s2 k2 w2,
    mac_len skb = ETH_HLEN ->
    ETH_HLEN <= skb_len skb ->
    bytes_ok (data skb) ->
    is_complete skb = false ->
    push_mpls skb key mpls w = Done (0, s1, k1) w1 ->
    pop_mpls s1 k1 ethertype w1 = Done (0, s2, k2) w2 ->
    (get_be32 (data s1) ETH_HLEN = u32 (mpls_lse mpls)
     /\ get_be16 (data s1) (2 * ETH_ALEN) = u16 (mpls_ethertype mpls)
     /\ skb_len s1 = skb_len skb + MPLS_HLEN
     /\ skb_network_offset s1 = skb_network_offset skb + MPLS_HLEN
     /\ skb_transport_offset s1 = skb_transport_offset skb + MPLS_HLEN)
    /\ (u16 ethertype = get_be16 (data skb) (2 * ETH_ALEN) ->
        data s2 = data skb)
    /\ skb_len s2 = skb_len skb
    /\ skb_network_offset s2 = skb_network_offset skb
    /\ skb_transport_offset s2 = skb_transport_offset skb
    /\ mac_len s2 = mac_len skb
    /\ csum s2 = csum skb.
Proof.
  intros skb key mpls ethertype w s1 k1 w1 s2 k2 w2 Hmac Hlen Hb Hc Hpush Hpop.
  destruct skb as [id d ml nh th ips cs pr ipr vp vt prio mk rh tun].
  cbn [mac_len data] in Hmac, Hb. unfold skb_len in Hlen. cbn [data] in Hlen.
  subst ml.
  assert (Hips : ip_summed_eqb ips CHECKSUM_COMPLETE = false) by exact Hc.
  clear Hc.
  (* the packet pushed *)
  unfold push_mpls, skb_cow_head, bind in Hpush.
  destruct (gfp_alloc w) as [b wa|]; [|discriminate].
  destruct b; unfold ret in Hpush; cbn [Z.ltb Z.compare Z.opp ENOMEM] in Hpush;
    [|discriminate].
  assert (P : data s1
              = put_be16
                  (firstn 14 d ++ be32_bytes (mpls_lse mpls) ++ skipn 14 d)
                  12 (mpls_ethertype mpls)
              /\ mac_len s1 = 14
              /\ network_header s1 = nh + 4
              /\ transport_header s1 = th + 4
              /\ ip_summed s1 = ips
              /\ csum s1 = cs).
  { apply (f_equal (fun o : outcome mret =>
                      match o with
                      | Done (_, s, _) _ =>
                          (data s, mac_len s, network_header s,
                           transport_header s, ip_summed s, csum s)
                      | Fault _ => ([], 0, 0, 0, ips, 0)
                      end)) in Hpush.
    lazy beta iota zeta delta
      [data mac_len network_header transport_header ip_summed csum protocol
       inner_protocol skb_id vlan_proto vlan_tci priority mark rxhash
       egress_tun_info shift_headers with_data with_csum with_protocol
       with_inner_protocol is_complete ETH_HLEN ETH_ALEN MPLS_HLEN]
      in Hpush.
    rewrite Hips in Hpush.
    destruct (ipr =? 0) in Hpush;
      injection Hpush as E1 E2 E3 E4 E5 E6;
      repeat split; symmetry; assumption. }
  clear Hpush.
  destruct s1 as [id1 d1 ml1 nh1 th1 ips1 cs1 pr1 ipr1 vp1 vt1 prio1 mk1 rh1
                  tun1].
  cbn [data mac_len network_header transport_header ip_summed csum] in P.
  destruct P as (-> & -> & -> & -> & -> & ->).
  (* the packet popped *)
  unfold pop_mpls, bind in Hpop.
  match type of Hpop with
  | context [make_writable ?s ?n w1] =>
      destruct (make_writable s n w1) as [e wb|]; [|discriminate]
  end.
  destruct (Z.eqb_spec e 0); cbn [negb] in Hpop; unfold ret in Hpop.
  2:{ injection Hpop as E _ _ _. contradiction. }
  set (D1 := put_be16 (firstn 14 d ++ be32_bytes (mpls_lse mpls) ++ skipn 14 d)
               12 (mpls_ethertype mpls)) in *.
  assert (Q : data s2
              = put_be16 (firstn 14 D1 ++ skipn (14 + 4) D1) 12 ethertype
              /\ mac_len s2 = 14
              /\ network_header s2 = nh + 4 + -4
              /\ transport_header s2 = th + 4 + -4
              /\ csum s2 = cs).
  { apply (f_equal (fun o : outcome mret =>
                      match o with
                      | Done (_, s, _) _ =>
                          (data s, mac_len s, network_header s,
                           transport_header s, csum s)
                      | Fault _ => ([], 0, 0, 0, 0)
                      end)) in Hpop.
    lazy beta iota zeta delta
      [data mac_len network_header transport_header ip_summed csum protocol
       inner_protocol skb_id vlan_proto vlan_tci priority mark rxhash
       egress_tun_info shift_headers with_data with_csum with_protocol
       with_inner_protocol is_complete mac_header_end ETH_HLEN ETH_ALEN
       MPLS_HLEN]
      in Hpop.
    rewrite Hips in Hpop.
    change (Z.to_nat 14) with 14%nat in Hpop.
    change (Z.to_nat 4) with 4%nat in Hpop.
    change (14 - 14 + 2 * 6) with 12 in Hpop.
    destruct (eth_p_mpls pr1) in Hpop;
      injection Hpop as E1 E2 E3 E4 E5;
      repeat split; symmetry; assumption. }
  clear Hpop.
  destruct Q as (Qd & Qm & Qn & Qt & Qc).
  unfold skb_len, skb_network_offset, skb_transport_offset, ETH_HLEN, ETH_ALEN,
    MPLS_HLEN.
  cbn [data mac_len network_header transport_header csum].
  rewrite Qd, Qm, Qn, Qt, Qc. clear Qd Qm Qn Qt Qc.
  unfold ETH_HLEN in Hlen.
  do 14 (destruct d as [|? d]; [cbn [length] in Hlen; lia|]).
  unfold D1, put_be16, put_bytes.
  change (Z.to_nat 12) with 12%nat. change (2 * 6) with 12.
  cbn [firstn skipn app length be16_bytes be32_bytes Nat.add].
  unfold get_be32, get_be16, byte_at.
  change (Z.to_nat 14) with 14%nat. change (Z.to_nat (14 + 1)) with 15%nat.
  change (Z.to_nat (14 + 2)) with 16%nat.
  change (Z.to_nat (14 + 2 + 1)) with 17%nat.
  change (Z.to_nat 12) with 12%nat. change (Z.to_nat (12 + 1)) with 13%nat.
  cbn [nth].
  split; [|split; [|split; [|split; [|split; [|split]]]]]; try lia;
    try reflexivity.
  - split; [rewrite !be16_value; apply be32_value|].
    split; [apply be16_value|]. repeat split; lia.
  - intros Het.
    unfold bytes_ok in Hb.
    repeat match goal with
           | H : Forall _ (_ :: _) |- _ => inversion H; subst; clear H
           end.
    assert (E : be16_bytes ethertype = [z11; z12])
      by (apply be16_bytes_of_word; assumption).
    unfold be16_bytes in E. injection E as -> ->. reflexivity.
Qed.


(** ** Ethernet addresses *)

Lemma length_ether_addr a : length (ether_addr a) = 6%nat.
Proof.
  unfold ether_addr. rewrite length_map, length_firstn, length_app, repeat_length.
  change (Z.to_nat ETH_ALEN) with 6%nat. lia.
Qed.

(** X11.  [set_eth_addr] on success: bytes 0..5 of the packet are the action's
    destination address, bytes 6..11 its source address, each as six
    bytes; nothing behind them is touched; and the key holds both. *)
Theorem set_eth_addr_writes_both_addresses :
  forall skb key k w skb' key' w',
    set_eth_addr skb key k w = Done (0, skb', key') w' ->
    (forall i, 0 <= i < ETH_ALEN ->
       byte_at (data skb') i
       = nth (Z.to_nat i) (ether_addr (key_eth_dst k)) 0)
    /\ (forall i, ETH_ALEN <= i < 2 * ETH_ALEN ->
          byte_at (data skb') i
          = nth (Z.to_nat (i - ETH_ALEN)) (ether_addr (key_eth_src k)) 0)
    /\ (forall i, 2 * ETH_ALEN <= i ->
          byte_at (data skb') i = byte_at (data skb) i)
    /\ length (data skb') = length (data skb)
    /\ eth_src key' = ether_addr (key_eth_src k)
    /\ eth_dst key' = ether_addr (key_eth_dst k)
    /\ is_flow_key_valid key' = is_flow_key_valid key.
Proof.
  intros skb key k w skb' key' w' Hrun.
  unfold set_eth_addr, bind in Hrun.
  destruct (make_writable skb ETH_HLEN w) as [e w1|] eqn:Hmw; [|discriminate].
  destruct (Z.eqb_spec e 0) as [-> | Hne]; cbn [negb] in Hrun;
    unfold ret in Hrun.
  2:{ injection Hrun as E _ _ _. contradiction. }
  pose proof (make_writable_ok_len _ _ _ _ Hmw) as Hlen.
  unfold skb_len, ETH_HLEN, ETH_ALEN in *.
  assert (P : data skb'
              = put_bytes
                  (put_bytes (data skb) 6 (ether_addr (key_eth_src k)))
                  0 (ether_addr (key_eth_dst k))
              /\ key' = key_with_eth_addrs key (ether_addr (key_eth_src k))
                          (ether_addr (key_eth_dst k))).
  { apply (f_equal (fun o : outcome mret =>
                      match o with
                      | Done (_, s, k) _ => (data s, k)
                      | Fault _ => ([], key)
                      end)) in Hrun.
    cbv beta iota zeta in Hrun.
    unfold skb_postpull_rcsum, ovs_skb_postpush_rcsum in Hrun.
    destruct (is_complete skb) eqn:Ec in Hrun;
      cbn [data with_data with_csum ip_summed is_complete] in Hrun;
      unfold is_complete in *;
      cbn [data with_data with_csum ip_summed] in Hrun;
      rewrite ?Ec in Hrun;
      cbn [data with_data with_csum ip_summed] in Hrun;
      injection Hrun as E1 E2; split; symmetry; assumption. }
  destruct P as (Pd & Pk). rewrite Pd, Pk. clear Pd Pk Hrun.
  pose proof (length_ether_addr (key_eth_src k)) as Ls.
  pose proof (length_ether_addr (key_eth_dst k)) as Ld.
  assert (L1 : length (put_bytes (data skb) 6 (ether_addr (key_eth_src k)))
               = length (data skb))
    by (apply length_put_bytes; rewrite ?Ls; lia).
  split; [|split; [|split; [|split; [|repeat split]]]].
  - intros i Hi. rewrite byte_at_put_bytes_in by (rewrite ?Ld, ?L1; lia).
    rewrite Z.sub_0_r. reflexivity.
  - intros i Hi. rewrite byte_at_put_bytes_out by (rewrite ?Ld, ?L1; lia).
    rewrite byte_at_put_bytes_in by (rewrite ?Ls; lia). reflexivity.
  - intros i Hi. rewrite byte_at_put_bytes_out by (rewrite ?Ld, ?L1; lia).
    apply byte_at_put_bytes_out; rewrite ?Ls; lia.
  - rewrite length_put_bytes by (rewrite ?Ld, ?L1; lia). exact L1.
Qed.

(** ** VLAN tags kept in the buffer's metadata *)

Lemma tag_present_lor x :
  negb (Z.land (Z.lor VLAN_TAG_PRESENT x) VLAN_TAG_PRESENT =? 0) = true.
Proof.
  unfold VLAN_TAG_PRESENT. rewrite Z.land_lor_distr_l.
  change (Z.land 4096 4096) with 4096.
  destruct (Z.eqb_spec (Z.lor 4096 (Z.land x 4096)) 0) as [E|]; [|reflexivity].
  apply Z.lor_eq_0_iff in E. lia.
Qed.

(** X12.  [push_vlan] on a packet that carries no tag in its metadata writes no
    byte and allocates nothing: the tag goes into the metadata, marked
    present, and its TCI into the key.  [pop_vlan] straight after, on a
    packet without an in-band 802.1Q header, takes that tag away again,
    still without touching a byte, and clears the key's TCI. *)
Theorem vlan_hwaccel_push_then_pop :
  forall skb key vlan w,
    vlan_tx_tag_present skb = false ->
    exists s1 k1,
      push_vlan skb key vlan w = Done (0, s1, k1) w
      /\ data s1 = data skb
      /\ vlan_tx_tag_present s1 = true
      /\ vlan_proto s1 = u16 (vlan_tpid vlan)
      /\ eth_tci k1 = u16 (vlan_tci_arg vlan)
      /\ (no_inband_vlan skb = true ->
          exists s2 k2,
            pop_vlan s1 k1 w = Done (0, s2, k2) w
            /\ data s2 = data skb
            /\ vlan_tx_tag_present s2 = false
            /\ eth_tci k2 = 0).
Proof.
  intros skb key vlan w Hnp. unfold push_vlan. rewrite Hnp.
  eexists. eexists. split; [reflexivity|].
  split; [reflexivity|]. split.
  - unfold vlan_tx_tag_present, __vlan_hwaccel_put_tag.
    cbn [vlan_tci with_vlan]. apply tag_present_lor.
  - split; [reflexivity|]. split; [reflexivity|].
    intros Hnv. unfold pop_vlan.
    assert (Hp : vlan_tx_tag_present
                   (__vlan_hwaccel_put_tag skb (u16 (vlan_tpid vlan))
                      (Z.land (u16 (vlan_tci_arg vlan))
                         (65535 - VLAN_TAG_PRESENT))) = true).
    { unfold vlan_tx_tag_present, __vlan_hwaccel_put_tag.
      cbn [vlan_tci with_vlan]. apply tag_present_lor. }
    rewrite Hp. rewrite bind_ret_l. cbv iota beta.
    assert (Hn : no_inband_vlan
                   (vlan_set_tci
                      (__vlan_hwaccel_put_tag skb (u16 (vlan_tpid vlan))
                         (Z.land (u16 (vlan_tci_arg vlan))
                            (65535 - VLAN_TAG_PRESENT))) 0) = true)
      by exact Hnv.
    rewrite Hn. eexists. eexists. split; [reflexivity|].
    split; [reflexivity|]. split; reflexivity.
Qed.

Lemma ones_eq_refl a : ones_eq a a.
Proof. exists 0. lia. Qed.

Lemma ones_eq_sym a b : ones_eq a b -> ones_eq b a.
Proof. intros [k H]. exists (- k). lia. Qed.

Lemma ones_eq_trans a b c : ones_eq a b -> ones_eq b c -> ones_eq a c.
Proof. intros [k H] [l H']. exists (k + l). lia. Qed.

Lemma ones_eq_mod a b : ones_eq a b -> a mod 65535 = b mod 65535.
Proof.
  intros [k ->]. rewrite Z.mul_comm. apply Z.mod_add. lia.
Qed.

Lemma fold_step x :
  0 <= x ->
  Z.land x 65535 + Z.shiftr x 16 = x mod 65536 + x / 65536.
Proof.
  intros H. change 65535 with (Z.ones 16).
  rewrite Z.land_ones, Z.shiftr_div_pow2 by lia. reflexivity.
Qed.

Lemma fold_twice x :
  0 <= x < 4294967296 ->
  let a := Z.land x 65535 + Z.shiftr x 16 in
  let b := Z.land a 65535 + Z.shiftr a 16 in
  0 <= b <= 65535 /\ ones_eq b x.
Proof.
  intros Hx a b. unfold b, a.
  rewrite (fold_step x) by lia.
  pose proof (Z.div_mod x 65536 ltac:(lia)) as E1.
  pose proof (Z.mod_pos_bound x 65536 ltac:(lia)) as B1.
  assert (Q1 : 0 <= x / 65536 < 65536).
  { split; [apply Z.div_pos; lia | apply Z.div_lt_upper_bound; lia]. }
  set (a1 := x mod 65536 + x / 65536) in *.
  assert (Ha : 0 <= a1 <= 131070) by (unfold a1; lia).
  rewrite (fold_step a1) by lia.
  pose proof (Z.div_mod a1 65536 ltac:(lia)) as E2.
  pose proof (Z.mod_pos_bound a1 65536 ltac:(lia)) as B2.
  assert (Q2 : 0 <= a1 / 65536 <= 1).
  { split; [apply Z.div_pos; lia|].
    apply Z.lt_succ_r. apply Z.div_lt_upper_bound; lia. }
  split; [lia|]. exists (- (a1 / 65536) - x / 65536). unfold a1 in *. lia.
Qed.

Lemma from32to16_spec x :
  0 <= x < 4294967296 ->
  0 <= Csum.from32to16 x <= 65535 /\ ones_eq (Csum.from32to16 x) x.
Proof. intros H. apply (fold_twice x H). Qed.

Lemma csum_fold_spec c :
  0 <= Csum.csum_fold c <= 65535
  /\ ones_eq (Csum.csum_fold c + u32 c) 0.
Proof.
  unfold Csum.csum_fold. cbv zeta.
  pose proof (u32_range c) as Hc.
  destruct (fold_twice (u32 c) Hc) as (Hb & k & Hk). cbv zeta in Hb, Hk.
  set (b := Z.land (Z.land (u32 c) 65535 + Z.shiftr (u32 c) 16) 65535
            + Z.shiftr (Z.land (u32 c) 65535 + Z.shiftr (u32 c) 16) 16) in *.
  unfold not16. rewrite (u16_small b) by lia.
  split; [lia|]. exists (1 - k). lia.
Qed.

Lemma sum16_diff4 from to :
  Csum.sum16 (Csum.diff4 from to)
  = u16 (not32 from / 65536) + u16 (not32 from) + u16 (to / 65536) + u16 to.
Proof.
  unfold Csum.diff4, be32_bytes, be16_bytes. cbn [app Csum.sum16].
  rewrite <- !be16_value. lia.
Qed.

Lemma u32_words v : ones_eq (u16 (v / 65536) + u16 v) (u32 v).
Proof.
  pose proof (be32_value v) as H. exists (- u16 (v / 65536)). lia.
Qed.

Lemma csum_partial_spec bs wsum :
  0 <= Csum.sum16 bs < 4294967296 ->
  0 <= wsum < 4294967296 ->
  0 <= Csum.csum_partial bs wsum < 4294967296
  /\ ones_eq (Csum.csum_partial bs wsum) (Csum.sum16 bs + wsum).
Proof.
  intros Hs Hw. unfold Csum.csum_partial, Csum.do_csum. cbv zeta.
  destruct (from32to16_spec _ Hs) as (Hd & kd & Hkd).
  set (dsum := Csum.from32to16 (Csum.sum16 bs)) in *.
  rewrite (u32_small wsum) by lia.
  destruct (Z.lt_ge_cases (dsum + wsum) 4294967296) as [Hno | Hov].
  - rewrite (u32_small (dsum + wsum)) by lia.
    destruct (Z.ltb_spec (dsum + wsum) wsum); [lia|].
    split; [lia|]. exists kd. lia.
  - assert (E : u32 (dsum + wsum) = dsum + wsum - 4294967296).
    { unfold u32. symmetry. apply (Z.mod_unique _ _ 1); lia. }
    rewrite E.
    destruct (Z.ltb_spec (dsum + wsum - 4294967296) wsum); [|lia].
    rewrite u32_small by lia. split; [lia|].
    exists (kd - 65537). lia.
Qed.

(** [csum_replace4]: the new checksum is the old one plus the words taken
    out minus the words put in, as a one's-complement sum. *)
Lemma csum_replace4_spec sum from to :
  0 <= Csum.csum_replace4 sum from to <= 65535
  /\ ones_eq (Csum.csum_replace4 sum from to + u32 to) (u32 sum + u32 from).
Proof.
  unfold Csum.csum_replace4, Csum.csum_unfold.
  set (ws := not32 sum).
  assert (Hws : 0 <= ws < 4294967296)
    by (unfold ws, not32; pose proof (u32_range sum); lia).
  assert (Hs : 0 <= Csum.sum16 (Csum.diff4 from to) < 4294967296).
  { rewrite sum16_diff4.
    pose proof (u16_range (not32 from / 65536)). pose proof (u16_range (not32 from)).
    pose proof (u16_range (to / 65536)). pose proof (u16_range to). lia. }
  destruct (csum_partial_spec _ ws Hs Hws) as (Hp & kp & Hkp).
  destruct (csum_fold_spec (Csum.csum_partial (Csum.diff4 from to) ws))
    as (Hf & kf & Hkf).
  rewrite (u32_small (Csum.csum_partial _ ws)) in Hkf by lia.
  split; [exact Hf|].
  rewrite sum16_diff4 in Hkp.
  destruct (u32_words (not32 from)) as (k1 & H1).
  destruct (u32_words to) as (k2 & H2).
  assert (Hnf : u32 (not32 from) = 4294967295 - u32 from).
  { unfold not32. apply u32_small. pose proof (u32_range from). lia. }
  unfold ws, not32 in *.
  exists (kf - kp - k1 - k2 - 65537 - 65537). lia.
Qed.

Lemma get_be16_put_be16_out d off v i :
  0 <= off -> off + 2 <= Z.of_nat (length d) -> 0 <= i ->
  i + 2 <= off \/ off + 2 <= i ->
  get_be16 (put_be16 d off v) i = get_be16 d i.
Proof.
  intros. unfold put_be16. apply get_be16_put_bytes_out;
    cbn [length be16_bytes]; lia.
Qed.

Lemma length_put_be16 d off v :
  0 <= off -> off + 2 <= Z.of_nat (length d) ->
  length (put_be16 d off v) = length d.
Proof.
  intros. unfold put_be16. apply length_put_bytes; cbn [length be16_bytes]; lia.
Qed.

Lemma set_ip_ttl_stage :
  forall skb nh new_ttl,
    bytes_ok (data skb) ->
    0 <= nh -> nh + sizeof_iphdr <= skb_len skb ->
    let skb' := set_ip_ttl skb nh new_ttl in
    ones_eq (ip_header_sum (data skb') nh) (ip_header_sum (data skb) nh)
    /\ (ip_header_sum (data skb) nh mod 65535 = 0 ->
        ip_header_sum (data skb') nh mod 65535 = 0)
    /\ get_u8 (data skb') (nh + iph_ttl) = u8 new_ttl
    /\ length (data skb') = length (data skb)
    /\ (forall i, 0 <= i -> i <> nh + iph_ttl ->
          i < nh + iph_check \/ nh + iph_check + 2 <= i ->
          byte_at (data skb') i = byte_at (data skb) i)
    /\ bytes_ok (data skb')
    /\ transport_header skb' = transport_header skb
    /\ network_header skb' = network_header skb.
Proof.
  intros skb nh new_ttl Hb H0 Hlen skb'.
  unfold skb_len, sizeof_iphdr in Hlen.
  unfold skb', set_ip_ttl, iph_ttl, iph_check. cbv zeta. cbn [data with_data].
  set (d := data skb) in *.
  set (C := Csum.csum_replace2 (get_be16 d (nh + 10))
              (u16 (get_u8 d (nh + 8) * 256)) (u16 (new_ttl * 256))).
  assert (L1 : length (put_be16 d (nh + 10) C) = length d)
    by (apply length_put_be16; lia).
  assert (Hsum : ones_eq
                   (ip_header_sum (put_u8 (put_be16 d (nh + 10) C) (nh + 8)
                                     new_ttl) nh)
                   (ip_header_sum d nh)).
  { unfold ip_header_sum.
    assert (Hout : forall i, 0 <= i -> i + 2 <= nh + 8 \/ nh + 12 <= i ->
              get_be16 (put_u8 (put_be16 d (nh + 10) C) (nh + 8) new_ttl) i
              = get_be16 d i).
    { intros i Hi Ho. unfold put_u8.
      rewrite get_be16_put_bytes_out by (cbn [length]; lia).
      apply get_be16_put_be16_out; lia. }
    rewrite (Hout nh), (Hout (nh + 2)), (Hout (nh + 4)), (Hout (nh + 6)),
      (Hout (nh + 12)), (Hout (nh + 14)), (Hout (nh + 16)), (Hout (nh + 18))
      by lia.
    (* the word with the TTL *)
    assert (W8 : get_be16 (put_u8 (put_be16 d (nh + 10) C) (nh + 8) new_ttl)
                   (nh + 8)
                 = u8 new_ttl * 256 + byte_at d (nh + 8 + 1)).
    { unfold get_be16, put_u8.
      rewrite byte_at_put_bytes_in by (cbn [length]; lia).
      rewrite byte_at_put_bytes_out by (cbn [length]; lia).
      replace (Z.to_nat (nh + 8 - (nh + 8))) with 0%nat by lia. cbn [nth].
      unfold put_be16.
      rewrite byte_at_put_bytes_out by (cbn [length be16_bytes]; lia).
      reflexivity. }
    (* the checksum word *)
    assert (W10 : get_be16 (put_u8 (put_be16 d (nh + 10) C) (nh + 8) new_ttl)
                    (nh + 10) = u16 C).
    { unfold put_u8.
      rewrite get_be16_put_bytes_out by (cbn [length]; lia).
      apply get_be16_put_be16; lia. }
    rewrite W8, W10.
    destruct (csum_replace4_spec (get_be16 d (nh + 10))
                (u16 (get_u8 d (nh + 8) * 256)) (u16 (new_ttl * 256)))
      as (HC & k & Hk).
    fold (Csum.csum_replace2 (get_be16 d (nh + 10))
            (u16 (get_u8 d (nh + 8) * 256)) (u16 (new_ttl * 256))) in HC, Hk.
    fold C in HC, Hk.
    rewrite (u16_small C) by lia.
    pose proof (get_be16_range d (nh + 10) Hb) as R10.
    pose proof (byte_at_range d (nh + 8) Hb) as R8.
    rewrite (u32_small (get_be16 d (nh + 10))) in Hk by lia.
    unfold get_u8 in Hk.
    rewrite (u16_small (byte_at d (nh + 8) * 256)) in Hk by lia.
    assert (E : u16 (new_ttl * 256) = u8 new_ttl * 256).
    { unfold u16, u8. change 65536 with (256 * 256).
      rewrite Z.mul_mod_distr_r by lia. reflexivity. }
    rewrite E in Hk. pose proof (u8_range new_ttl) as Rn.
    rewrite (u32_small (u8 new_ttl * 256)) in Hk by lia.
    rewrite (u32_small (byte_at d (nh + 8) * 256)) in Hk by lia.
    change (get_be16 d (nh + 8))
      with (byte_at d (nh + 8) * 256 + byte_at d (nh + 8 + 1)).
    exists k. lia. }
  split; [exact Hsum|]. split.
  - intros Hv. rewrite (ones_eq_mod _ _ Hsum). exact Hv.
  - split.
    + unfold get_u8, put_u8.
      rewrite byte_at_put_bytes_in by (cbn [length]; lia).
      replace (Z.to_nat (nh + 8 - (nh + 8))) with 0%nat by lia. reflexivity.
    + split.
      * unfold put_u8. rewrite length_put_bytes by (cbn [length]; lia).
        exact L1.
      * split.
        -- intros i Hi Hn Ho. unfold put_u8.
           rewrite byte_at_put_bytes_out by (cbn [length]; lia).
           unfold put_be16. apply byte_at_put_bytes_out;
             cbn [length be16_bytes]; lia.
        -- split; [|split; reflexivity].
           unfold put_u8, put_be16. apply bytes_ok_put_bytes.
           ++ apply bytes_ok_put_bytes; [exact Hb | apply bytes_ok_be16].
           ++ repeat constructor; apply u8_range.
Qed.

(** X13.  [set_ip_ttl] keeps the IPv4 header checksum in step with the header:
    the header's one's-complement sum after the change is the sum before,
    so a header that verified still verifies; the TTL byte is the new TTL
    and no byte outside the TTL and the checksum field is written. *)
Theorem set_ip_ttl_keeps_header_checksum :
  forall skb nh new_ttl,
    bytes_ok (data skb) ->
    0 <= nh -> nh + sizeof_iphdr <= skb_len skb ->
    let skb' := set_ip_ttl skb nh new_ttl in
    ones_eq (ip_header_sum (data skb') nh) (ip_header_sum (data skb) nh)
    /\ (ip_header_sum (data skb) nh mod 65535 = 0 ->
        ip_header_sum (data skb') nh mod 65535 = 0)
    /\ get_u8 (data skb') (nh + iph_ttl) = u8 new_ttl
    /\ length (data skb') = length (data skb)
    /\ (forall i, 0 <= i -> i <> nh + iph_ttl ->
          i < nh + iph_check \/ nh + iph_check + 2 <= i ->
          byte_at (data skb') i = byte_at (data skb) i).
Proof.
  intros skb nh new_ttl Hb H0 Hlen skb'.
  destruct (set_ip_ttl_stage skb nh new_ttl Hb H0 Hlen)
    as (S1 & S2 & S3 & S4 & S5 & _).
  repeat split; assumption.
Qed.

(** An L4 checksum correction behind the transport offset leaves the front
    of the packet alone. *)
Lemma inet_proto_csum_replace_front skb off diff ph :
  0 <= skb_transport_offset skb ->
  0 <= off -> skb_transport_offset skb + off + 2 <= skb_len skb ->
  let s := inet_proto_csum_replace (skb_transport_offset skb + off) skb diff
             ph in
  length (data s) = length (data skb)
  /\ transport_header s = transport_header skb
  /\ (forall i, 0 <= i < skb_transport_offset skb ->
        byte_at (data s) i = byte_at (data skb) i).
Proof.
  intros Ht Ho Hl s. unfold s, inet_proto_csum_replace, skb_len,
    skb_transport_offset in *.
  split_ifs; cbn [data with_data with_csum transport_header];
    (split; [|split]); try reflexivity;
    try (unfold put_be16; apply length_put_bytes; cbn [length be16_bytes]; lia);
    intros i Hi; unfold put_be16; apply byte_at_put_bytes_out;
    cbn [length be16_bytes]; lia.
Qed.

Lemma get_be16_front d d' lo i :
  (forall j, 0 <= j < lo -> byte_at d' j = byte_at d j) ->
  0 <= i -> i + 2 <= lo -> get_be16 d' i = get_be16 d i.
Proof. intros H Hi Hl. unfold get_be16. rewrite !H by lia. reflexivity. Qed.

Lemma set_ip_addr_stage :
  forall skb nh addr new_addr,
    bytes_ok (data skb) ->
    0 <= nh -> nh + sizeof_iphdr <= skb_transport_offset skb ->
    skb_transport_offset skb <= skb_len skb ->
    addr = nh + iph_saddr \/ addr = nh + iph_daddr ->
    let skb' := set_ip_addr skb nh addr new_addr in
    ones_eq (ip_header_sum (data skb') nh) (ip_header_sum (data skb) nh)
    /\ (ip_header_sum (data skb) nh mod 65535 = 0 ->
        ip_header_sum (data skb') nh mod 65535 = 0)
    /\ get_be32 (data skb') addr = u32 new_addr
    /\ length (data skb') = length (data skb)
    /\ (forall i, 0 <= i < skb_transport_offset skb ->
          i < addr \/ addr + 4 <= i ->
          i < nh + iph_check \/ nh + iph_check + 2 <= i ->
          byte_at (data skb') i = byte_at (data skb) i)
    /\ bytes_ok (data skb')
    /\ transport_header skb' = transport_header skb
    /\ network_header skb' = network_header skb.
Proof.
  intros skb nh addr new_addr Hb H0 Hth Hlen Haddr skb'.
  unfold sizeof_iphdr, iph_saddr, iph_daddr in *.
  unfold skb', set_ip_addr. cbv zeta.
  match goal with
  | |- context [put_be16 (data ?s) (nh + iph_check) _] => set (s1 := s)
  end.
  unfold skb_clear_hash, iph_check.
  cbn [data with_data with_rxhash].
  (* the L4 stage stays behind the IP header *)
  assert (F : length (data s1) = length (data skb)
              /\ (forall i, 0 <= i < skb_transport_offset skb ->
                    byte_at (data s1) i = byte_at (data skb) i)
              /\ bytes_ok (data s1)
              /\ transport_header s1 = transport_header skb
              /\ network_header s1 = network_header skb).
  { assert (R : forall off,
               0 <= off ->
               skb_transport_offset skb + off + 2 <= skb_len skb ->
               let s := inet_proto_csum_replace4
                          (skb_transport_offset skb + off) skb
                          (get_be32 (data skb) addr) new_addr true in
               length (data s) = length (data skb)
               /\ (forall i, 0 <= i < skb_transport_offset skb ->
                     byte_at (data s) i = byte_at (data skb) i)
               /\ bytes_ok (data s)
               /\ transport_header s = transport_header skb
               /\ network_header s = network_header skb).
    { intros off Ho Hl s.
      pose proof (inet_proto_csum_replace_front skb off
                    (Csum.diff4 (get_be32 (data skb) addr) new_addr) true
                    ltac:(lia) Ho Hl) as R.
      cbv zeta in R. destruct R as (L & T & B).
      split; [exact L|]. split; [exact B|]. split; [|split; [exact T|]].
      - unfold s, inet_proto_csum_replace4, inet_proto_csum_replace.
        split_ifs; cbn [data with_data with_csum]; try exact Hb;
          unfold put_be16; apply bytes_ok_put_bytes;
          solve [exact Hb | apply bytes_ok_be16].
      - unfold s, inet_proto_csum_replace4, inet_proto_csum_replace.
        split_ifs; reflexivity. }
    unfold s1.
    destruct (get_u8 (data skb) (nh + iph_protocol) =? IPPROTO_TCP).
    - destruct (transport_has skb sizeof_tcphdr) eqn:Hh;
        [|repeat split; assumption].
      pose proof (transport_has_room skb sizeof_tcphdr Hlen
                    ltac:(unfold sizeof_tcphdr; lia) Hh) as Hroom.
      apply (R tcph_check); unfold tcph_check, sizeof_tcphdr in *; lia.
    - destruct (get_u8 (data skb) (nh + iph_protocol) =? IPPROTO_UDP);
        [|repeat split; assumption].
      destruct (transport_has skb sizeof_udphdr) eqn:Hh;
        [|repeat split; assumption].
      destruct (negb (get_be16 (data skb)
                        (skb_transport_offset skb + udph_check) =? 0)
                || is_partial skb); [|repeat split; assumption].
      pose proof (transport_has_room skb sizeof_udphdr Hlen
                    ltac:(unfold sizeof_udphdr; lia) Hh) as Hroom.
      pose proof (R udph_check ltac:(unfold udph_check; lia)
                    ltac:(unfold udph_check, sizeof_udphdr in *; lia)) as R'.
      cbv zeta in R'.
      set (s := inet_proto_csum_replace4 _ skb _ new_addr true) in *.
      destruct R' as (L & B & Bo & T & N).
      unfold udp_mangle_zero, skb_transport_offset, skb_len, udph_check,
        sizeof_udphdr in *.
      destruct (get_be16 (data s) (transport_header s + 6) =? 0);
        cbn [data with_data transport_header network_header];
        [|repeat split; assumption].
      split; [|split; [|split; [|split; assumption]]].
      + unfold put_be16. rewrite length_put_bytes;
          cbn [length be16_bytes]; rewrite ?T, ?L; lia.
      + intros i Hi. unfold put_be16. rewrite byte_at_put_bytes_out;
          cbn [length be16_bytes]; rewrite ?T, ?L; try lia.
        apply B. lia.
      + unfold put_be16. apply bytes_ok_put_bytes;
          [exact Bo | apply bytes_ok_be16]. }
  destruct F as (L1 & B1 & Bo1 & T1 & N1).
  unfold skb_len in *.
  set (d := data skb) in *. set (d1 := data s1) in *.
  set (HC := get_be16 d1 (nh + 10)).
  set (old := get_be32 d1 addr).
  set (C := Csum.csum_replace4 HC old new_addr).
  assert (L2 : length (put_be16 d1 (nh + 10) C) = length d1)
    by (apply length_put_be16; lia).
  assert (Hd1 : forall i, 0 <= i -> i + 2 <= nh + 20 ->
                  get_be16 d1 i = get_be16 d i).
  { intros i Hi Hl. apply (get_be16_front d d1 (skb_transport_offset skb));
      [exact B1 | lia | lia]. }
  assert (Hsum : ones_eq
                   (ip_header_sum
                      (put_be32 (put_be16 d1 (nh + 10) C) addr new_addr) nh)
                   (ip_header_sum d nh)).
  { destruct (csum_replace4_spec HC old new_addr) as (RC & k & Hk).
    fold C in RC, Hk.
    pose proof (get_be16_range d (nh + 10) Hb) as R10.
    assert (EHC : HC = get_be16 d (nh + 10)) by (apply Hd1; lia).
    rewrite (u32_small HC) in Hk by lia.
    assert (Eold : old = get_be16 d addr * 65536 + get_be16 d (addr + 2)).
    { unfold old, get_be32. rewrite !Hd1 by lia. reflexivity. }
    pose proof (get_be16_range d addr Hb) as Ra.
    pose proof (get_be16_range d (addr + 2) Hb) as Ra2.
    rewrite (u32_small old) in Hk by lia.
    destruct (u32_words new_addr) as (kn & Hn).
    assert (Hput : forall i, 0 <= i -> i + 2 <= nh + 20 ->
              i + 2 <= addr \/ addr + 4 <= i ->
              i + 2 <= nh + 10 \/ nh + 12 <= i ->
              get_be16 (put_be32 (put_be16 d1 (nh + 10) C) addr new_addr) i
              = get_be16 d i).
    { intros i Hi Hl Ho1 Ho2. unfold put_be32.
      rewrite get_be16_put_bytes_out
        by (cbn [length be32_bytes be16_bytes app]; lia).
      rewrite get_be16_put_be16_out by lia. apply Hd1; lia. }
    assert (Hck : get_be16 (put_be32 (put_be16 d1 (nh + 10) C) addr new_addr)
                    (nh + 10) = C).
    { unfold put_be32.
      rewrite get_be16_put_bytes_out
        by (cbn [length be32_bytes be16_bytes app]; lia).
      rewrite get_be16_put_be16 by lia. apply u16_small. lia. }
    assert (Hnew : get_be16 (put_be32 (put_be16 d1 (nh + 10) C) addr new_addr)
                     addr
                   + get_be16 (put_be32 (put_be16 d1 (nh + 10) C) addr
                                 new_addr) (addr + 2)
                   = u16 (new_addr / 65536) + u16 new_addr).
    { unfold put_be32, be32_bytes.
      assert (E1 : forall X, 0 <= addr -> addr + 4 <= Z.of_nat (length X) ->
                get_be16 (put_bytes X addr
                            (be16_bytes (new_addr / 65536)
                             ++ be16_bytes new_addr)) addr
                = u16 (new_addr / 65536)).
      { intros X Ha Hx. unfold get_be16.
        rewrite !byte_at_put_bytes_in
          by (cbn [length be16_bytes app]; lia).
        replace (Z.to_nat (addr - addr)) with 0%nat by lia.
        replace (Z.to_nat (addr + 1 - addr)) with 1%nat by lia.
        cbn [nth be16_bytes app]. apply be16_value. }
      assert (E2 : forall X, 0 <= addr -> addr + 4 <= Z.of_nat (length X) ->
                get_be16 (put_bytes X addr
                            (be16_bytes (new_addr / 65536)
                             ++ be16_bytes new_addr)) (addr + 2)
                = u16 new_addr).
      { intros X Ha Hx. unfold get_be16.
        rewrite !byte_at_put_bytes_in
          by (cbn [length be16_bytes app]; lia).
        replace (Z.to_nat (addr + 2 - addr)) with 2%nat by lia.
        replace (Z.to_nat (addr + 2 + 1 - addr)) with 3%nat by lia.
        cbn [nth be16_bytes app]. apply be16_value. }
      rewrite E1, E2 by lia. reflexivity. }
    unfold ip_header_sum.
    destruct Haddr as [-> | ->].
    - rewrite (Hput nh), (Hput (nh + 2)), (Hput (nh + 4)), (Hput (nh + 6)),
        (Hput (nh + 8)), (Hput (nh + 16)), (Hput (nh + 18)) by lia.
      rewrite Hck.
      replace (nh + 14) with (nh + 12 + 2) by lia.
      exists (get_be16 d (nh + 12) + k + kn). lia.
    - rewrite (Hput nh), (Hput (nh + 2)), (Hput (nh + 4)), (Hput (nh + 6)),
        (Hput (nh + 8)), (Hput (nh + 12)), (Hput (nh + 14)) by lia.
      rewrite Hck.
      replace (nh + 18) with (nh + 16 + 2) by lia.
      exists (get_be16 d (nh + 16) + k + kn). lia. }
  split; [exact Hsum|]. split.
  - intros Hv. rewrite (ones_eq_mod _ _ Hsum). exact Hv.
  - split.
    + apply get_be32_put_be32; lia.
    + split.
      * unfold put_be32. rewrite length_put_bytes
          by (cbn [length be32_bytes be16_bytes app]; lia).
        congruence.
      * split; [|split; [|split; assumption]].
        -- intros i Hi Ha Hc. unfold put_be32.
           rewrite byte_at_put_bytes_out
             by (cbn [length be32_bytes be16_bytes app]; lia).
           unfold put_be16.
           rewrite byte_at_put_bytes_out by (cbn [length be16_bytes]; lia).
           apply B1. exact Hi.
        -- unfold put_be32, put_be16. apply bytes_ok_put_bytes.
           ++ apply bytes_ok_put_bytes; [exact Bo1 | apply bytes_ok_be16].
           ++ apply bytes_ok_be32.
Qed.

(** X14.  [set_ip_addr] keeps the IPv4 header checksum in step with the header:
    with the transport header behind the 20 bytes of the IP header, the
    header's one's-complement sum after an address change is the sum
    before, so a header that verified still verifies, and the address
    field holds the new address. *)
Theorem set_ip_addr_keeps_header_checksum :
  forall skb nh addr new_addr,
    bytes_ok (data skb) ->
    0 <= nh -> nh + sizeof_iphdr <= skb_transport_offset skb ->
    skb_transport_offset skb <= skb_len skb ->
    addr = nh + iph_saddr \/ addr = nh + iph_daddr ->
    let skb' := set_ip_addr skb nh addr new_addr in
    ones_eq (ip_header_sum (data skb') nh) (ip_header_sum (data skb) nh)
    /\ (ip_header_sum (data skb) nh mod 65535 = 0 ->
        ip_header_sum (data skb') nh mod 65535 = 0)
    /\ get_be32 (data skb') addr = u32 new_addr
    /\ length (data skb') = length (data skb).
Proof.
  intros skb nh addr new_addr Hb H0 Hth Hlen Haddr skb'.
  destruct (set_ip_addr_stage skb nh addr new_addr Hb H0 Hth Hlen Haddr)
    as (S1 & S2 & S3 & S4 & _).
  repeat split; assumption.
Qed.

Lemma dsfield_check_spec check tos ds :
  0 <= check <= 65535 -> 0 <= tos <= 255 -> 0 <= ds <= 255 ->
  let c1 := u32 (check + tos) in
  let c2 :=
    if negb (Z.shiftr (u32 (c1 + 1)) 16 =? 0)
    then Z.land (u32 (c1 + 1)) 65535 else c1 in
  let c3 := u32 (c2 - ds) in
  let c4 := u32 (c3 + Z.shiftr c3 16) in
  0 <= c4 <= 65535 /\ ones_eq (c4 + ds) (check + tos).
Proof.
  intros Hc Ht Hd c1 c2 c3 c4.
  assert (E1 : c1 = check + tos) by (unfold c1; apply u32_small; lia).
  assert (H2 : 0 <= c2 <= 65534 /\ ones_eq c2 (check + tos)).
  { unfold c2. rewrite E1. rewrite (u32_small (check + tos + 1)) by lia.
    rewrite Z.shiftr_div_pow2 by lia.
    change 65535 with (Z.ones 16). rewrite Z.land_ones by lia.
    change (2 ^ 16) with 65536.
    destruct (Z.lt_ge_cases (check + tos + 1) 65536) as [Hlt | Hge].
    - rewrite Z.div_small by lia. cbn [Z.eqb negb].
      split; [lia | apply ones_eq_refl].
    - assert (Eq : (check + tos + 1) / 65536 = 1).
      { symmetry. apply (Z.div_unique _ _ _ (check + tos + 1 - 65536)); lia. }
      assert (Em : (check + tos + 1) mod 65536 = check + tos + 1 - 65536).
      { symmetry. apply (Z.mod_unique _ _ 1); lia. }
      rewrite Eq, Em. cbn [Z.eqb negb]. split; [lia|]. exists (-1). lia. }
  clearbody c2. clear c1 E1.
  destruct H2 as (R2 & k2 & Hk2).
  unfold c4, c3. clear c4 c3.
  destruct (Z.le_gt_cases ds c2) as [Hle | Hgt].
  - rewrite (u32_small (c2 - ds)) by lia.
    rewrite Z.shiftr_div_pow2 by lia. change (2 ^ 16) with 65536.
    rewrite (Z.div_small (c2 - ds)) by lia. rewrite Z.add_0_r.
    rewrite u32_small by lia. split; [lia|]. exists k2. lia.
  - assert (E3 : u32 (c2 - ds) = c2 - ds + 4294967296).
    { unfold u32. symmetry. apply (Z.mod_unique _ _ (-1)); lia. }
    rewrite E3. rewrite Z.shiftr_div_pow2 by lia. change (2 ^ 16) with 65536.
    assert (Eq : (c2 - ds + 4294967296) / 65536 = 65535).
    { symmetry.
      apply (Z.div_unique _ _ _ (c2 - ds + 4294967296 - 65535 * 65536)); lia. }
    rewrite Eq.
    assert (E4 : u32 (c2 - ds + 4294967296 + 65535) = c2 - ds + 65535).
    { unfold u32. symmetry. apply (Z.mod_unique _ _ 1); lia. }
    rewrite E4. split; [lia|]. exists (k2 + 1). lia.
Qed.

Lemma ipv4_change_dsfield_stage :
  forall skb nh value,
    bytes_ok (data skb) ->
    0 <= nh -> nh + sizeof_iphdr <= skb_len skb ->
    let skb' := ipv4_change_dsfield skb nh 0 value in
    ones_eq (ip_header_sum (data skb') nh) (ip_header_sum (data skb) nh)
    /\ (ip_header_sum (data skb) nh mod 65535 = 0 ->
        ip_header_sum (data skb') nh mod 65535 = 0)
    /\ get_u8 (data skb') (nh + iph_tos) = u8 value
    /\ length (data skb') = length (data skb)
    /\ (forall i, 0 <= i -> i <> nh + iph_tos ->
          i < nh + iph_check \/ nh + iph_check + 2 <= i ->
          byte_at (data skb') i = byte_at (data skb) i)
    /\ bytes_ok (data skb')
    /\ transport_header skb' = transport_header skb
    /\ network_header skb' = network_header skb.
Proof.
  intros skb nh value Hb H0 Hlen skb'.
  unfold skb_len, sizeof_iphdr in Hlen.
  unfold skb', ipv4_change_dsfield, iph_tos, iph_check. cbv zeta.
  cbn [data with_data]. set (d := data skb) in *.
  rewrite Z.land_0_r, Z.lor_0_l.
  pose proof (get_be16_range d (nh + 10) Hb) as R10.
  pose proof (byte_at_range d (nh + 1) Hb) as R1.
  pose proof (u8_range value) as Rv.
  destruct (dsfield_check_spec (get_be16 d (nh + 10)) (get_u8 d (nh + 1))
              (u8 value) ltac:(lia) ltac:(unfold get_u8; lia) ltac:(lia))
    as (RC & k & Hk).
  cbv zeta in RC, Hk.
  match goal with
  | |- context [put_be16 d (nh + 10) ?c] => set (C := c) in *
  end.
  assert (L1 : length (put_be16 d (nh + 10) C) = length d)
    by (apply length_put_be16; lia).
  assert (Hsum : ones_eq
                   (ip_header_sum
                      (put_u8 (put_be16 d (nh + 10) C) (nh + 1) (u8 value)) nh)
                   (ip_header_sum d nh)).
  { unfold ip_header_sum.
    assert (Hout : forall i, 0 <= i -> nh + 2 <= i ->
              i + 2 <= nh + 10 \/ nh + 12 <= i ->
              get_be16 (put_u8 (put_be16 d (nh + 10) C) (nh + 1) (u8 value)) i
              = get_be16 d i).
    { intros i Hi Hl Ho. unfold put_u8.
      rewrite get_be16_put_bytes_out by (cbn [length]; lia).
      apply get_be16_put_be16_out; lia. }
    rewrite (Hout (nh + 2)), (Hout (nh + 4)), (Hout (nh + 6)), (Hout (nh + 8)),
      (Hout (nh + 12)), (Hout (nh + 14)), (Hout (nh + 16)), (Hout (nh + 18))
      by lia.
    assert (W0 : get_be16 (put_u8 (put_be16 d (nh + 10) C) (nh + 1) (u8 value))
                   nh
                 = byte_at d nh * 256 + u8 value).
    { unfold get_be16, put_u8.
      rewrite byte_at_put_bytes_out by (cbn [length]; lia).
      rewrite byte_at_put_bytes_in by (cbn [length]; lia).
      replace (Z.to_nat (nh + 1 - (nh + 1))) with 0%nat by lia. cbn [nth].
      unfold put_be16.
      rewrite byte_at_put_bytes_out by (cbn [length be16_bytes]; lia).
      unfold u8. rewrite Z.mod_mod by lia. reflexivity. }
    assert (W10 : get_be16
                    (put_u8 (put_be16 d (nh + 10) C) (nh + 1) (u8 value))
                    (nh + 10) = C).
    { unfold put_u8.
      rewrite get_be16_put_bytes_out by (cbn [length]; lia).
      rewrite get_be16_put_be16 by lia. apply u16_small. lia. }
    rewrite W0, W10.
    change (get_be16 d nh) with (byte_at d nh * 256 + byte_at d (nh + 1)).
    unfold get_u8 in Hk. exists k. lia. }
  split; [exact Hsum|]. split.
  - intros Hv. rewrite (ones_eq_mod _ _ Hsum). exact Hv.
  - split.
    + unfold get_u8, put_u8.
      rewrite byte_at_put_bytes_in by (cbn [length]; lia).
      replace (Z.to_nat (nh + 1 - (nh + 1))) with 0%nat by lia. cbn [nth].
      unfold u8. apply Z.mod_mod. lia.
    + split.
      * unfold put_u8. rewrite length_put_bytes by (cbn [length]; lia).
        exact L1.
      * split; [|split; [|split; reflexivity]].
        -- intros i Hi Hn Ho. unfold put_u8.
           rewrite byte_at_put_bytes_out by (cbn [length]; lia).
           unfold put_be16. apply byte_at_put_bytes_out;
             cbn [length be16_bytes]; lia.
        -- unfold put_u8, put_be16. apply bytes_ok_put_bytes.
           ++ apply bytes_ok_put_bytes; [exact Hb | apply bytes_ok_be16].
           ++ repeat constructor; apply u8_range.
Qed.

(** [ipv4_change_dsfield] as [set_ipv4] calls it, with mask 0: the TOS byte
    becomes the value, and the header checksum is adjusted so that the
    header's one's-complement sum is what it was; a header that verified
    still verifies. *)
Theorem ipv4_change_dsfield_keeps_header_checksum :
  forall skb nh value,
    bytes_ok (data skb) ->
    0 <= nh -> nh + sizeof_iphdr <= skb_len skb ->
    let skb' := ipv4_change_dsfield skb nh 0 value in
    ones_eq (ip_header_sum (data skb') nh) (ip_header_sum (data skb) nh)
    /\ (ip_header_sum (data skb) nh mod 65535 = 0 ->
        ip_header_sum (data skb') nh mod 65535 = 0)
    /\ get_u8 (data skb') (nh + iph_tos) = u8 value
    /\ length (data skb') = length (data skb).
Proof.
  intros skb nh value Hb H0 Hlen skb'.
  destruct (ipv4_change_dsfield_stage skb nh value Hb H0 Hlen)
    as (S1 & S2 & S3 & S4 & _).
  repeat split; assumption.
Qed.

Section RecirculatingFlow.

Variable K : kernel.
Variable dp : datapath.
Variable id : Z.
Hypothesis flow_recirculates :
  forall key, ovs_flow_tbl_lookup dp key = Some (recirc_to id).

(** The list [RECIRC id] run on a packet with a valid key: the packet is
    queued when there is room, freed when there is none. *)
Lemma recirc_list_run exec skb key w :
  is_flow_key_valid key = true ->
  fifo_wf (action_fifos w) ->
  do_execute_actions K exec dp skb key (recirc_to id)
    (attrs_len (recirc_to id)) w
  = Done 0
      (if head (action_fifos w) <? DEFERRED_ACTION_FIFO_SIZE - 1
       then with_fifo w
              (fifo_after_put (action_fifos w) (recirc_entry skb key id))
       else after_event w (EvFree skb)).
Proof.
  intros Hv Hwf.
  assert (Hk : recirc_key K skb key = (0, skb, key))
    by (unfold recirc_key; rewrite Hv; reflexivity).
  unfold do_execute_actions, recirc_to.
  rewrite loop_cons by (vm_compute; reflexivity).
  rewrite (bind_done _ _ _ _ _ (flush_none K _ dp skb w)).
  assert (Hlast : last_action (Nlattr 4 (OVS_ACTION_ATTR_RECIRC id))
                    (attrs_len [Nlattr 4 (OVS_ACTION_ATTR_RECIRC id)])
                  = true) by reflexivity.
  assert (Hd : dispatch_action K dp skb key
                 (Nlattr 4 (OVS_ACTION_ATTR_RECIRC id))
                 (attrs_len [Nlattr 4 (OVS_ACTION_ATTR_RECIRC id)]) w
               = Done (Return 0)
                   (if head (action_fifos w) <? DEFERRED_ACTION_FIFO_SIZE - 1
                    then with_fifo w
                           (fifo_after_put (action_fifos w)
                              (recirc_entry skb key id))
                    else after_event w (EvFree skb))).
  { unfold dispatch_action. cbn [nla_act]. rewrite Hlast.
    destruct (Z.ltb_spec (head (action_fifos w))
                (DEFERRED_ACTION_FIFO_SIZE - 1)) as [Hroom | Hfull].
    - rewrite (bind_done _ _ _ _ _
                 (execute_recirc_last_deferred K dp skb key _ id _ w skb key
                    Hk Hv Hlast Hwf Hroom)).
      reflexivity.
    - rewrite (bind_done _ _ _ _ _
                 (execute_recirc_last_dropped K dp skb key _ id _ w skb key
                    Hk Hv Hlast Hfull)).
      reflexivity. }
  rewrite (bind_done _ _ _ _ _ Hd). reflexivity.
Qed.

(** One nested run of [RECIRC id] below the outermost call. *)
Lemma nested_recirc depth skb key w :
  is_flow_key_valid key = true ->
  fifo_wf (action_fifos w) ->
  1 <= exec_actions_level w < EXEC_ACTIONS_LEVEL_LIMIT ->
  ovs_execute_actions K (S depth) dp skb key (recirc_to id) w
  = Done 0
      (if head (action_fifos w) <? DEFERRED_ACTION_FIFO_SIZE - 1
       then with_fifo w
              (fifo_after_put (action_fifos w) (recirc_entry skb key id))
       else after_event w (EvFree skb)).
Proof.
  intros Hv Hwf Hl. rewrite ovs_execute_actions_unfold.
  destruct (Z.leb_spec EXEC_ACTIONS_LEVEL_LIMIT (exec_actions_level w)); [lia|].
  set (w1 := with_level w (exec_actions_level w + 1)).
  unfold bind at 1.
  rewrite (recirc_list_run _ skb key w1 Hv Hwf).
  assert (Hz : (exec_actions_level w =? 0) = false) by (apply Z.eqb_neq; lia).
  rewrite Hz. unfold bind, ret, modify. f_equal.
  change (action_fifos w1) with (action_fifos w).
  destruct (head (action_fifos w) <? DEFERRED_ACTION_FIFO_SIZE - 1);
    unfold w1, with_level, with_fifo, after_event, with_trace; cbn; f_equal; lia.
Qed.

Lemma fifo_slot_after_put f da :
  fifo_wf f -> head f < DEFERRED_ACTION_FIFO_SIZE - 1 ->
  fifo_slot (fifo_after_put f da) (head f) = da.
Proof.
  intros (Ht & Hh & Hl) Hroom. unfold fifo_slot, fifo_after_put, fifo_store.
  cbn [fifo head]. apply nth_set_nth. rewrite Hl.
  unfold DEFERRED_ACTION_FIFO_SIZE in *. lia.
Qed.

(** One round of the drain with one entry pending. *)
Lemma recirc_drain_round depth skb t w :
  one_pending skb t w ->
  exists w1,
    run_deferred_action K (ovs_execute_actions K (S depth)) dp w = Done tt w1
    /\ (if t + 1 <? DEFERRED_ACTION_FIFO_SIZE - 1
        then one_pending skb (t + 1) w1 /\ trace w1 = trace w
        else exec_actions_level w1 = 1
             /\ fifo_wf (action_fifos w1)
             /\ head (action_fifos w1) = tail (action_fifos w1)
             /\ trace w1 = trace w ++ [EvFree skb]).
Proof.
  intros (Hl & Hwf & Ht & Hh & Hs & Ha & Hv).
  rewrite run_deferred_action_nonempty by lia.
  rewrite Ht. unfold run_entry. rewrite Ha, Hs.
  set (key := da_pkt_key (fifo_slot (action_fifos w) t)) in *.
  set (wa := with_fifo w (fifo_after_get (action_fifos w))).
  unfold ovs_dp_process_packet. rewrite flow_recirculates.
  assert (Hwfa : fifo_wf (action_fifos wa)).
  { destruct Hwf as (H1 & H2 & H3). unfold wa, fifo_wf.
    cbn [action_fifos with_fifo fifo_after_get head tail fifo].
    repeat split; try lia; exact H3. }
  unfold bind at 1.
  rewrite (nested_recirc depth skb key wa Hv Hwfa)
    by (unfold wa, EXEC_ACTIONS_LEVEL_LIMIT;
        cbn [exec_actions_level with_fifo]; lia).
  assert (Hha : head (action_fifos wa) = t + 1) by exact Hh.
  rewrite Hha. unfold ret.
  destruct (Z.ltb_spec (t + 1) (DEFERRED_ACTION_FIFO_SIZE - 1))
    as [Hroom | Hfull].
  - eexists. split; [reflexivity|]. split; [|reflexivity].
    pose proof (nested_step_put wa (recirc_entry skb key id) Hwfa
                  ltac:(lia)) as (_ & Hwf1 & _).
    unfold one_pending. cbn [exec_actions_level action_fifos with_fifo].
    split; [exact Hl|]. split; [exact Hwf1|].
    split; [unfold fifo_after_put, wa; cbn; lia|].
    split; [unfold fifo_after_put; cbn [head fifo_store]; lia|].
    rewrite <- Hha.
    rewrite (fifo_slot_after_put (action_fifos wa) _ Hwfa ltac:(lia)).
    repeat split. exact Hv.
  - eexists. split; [reflexivity|].
    cbn [exec_actions_level action_fifos after_event with_trace trace].
    split; [exact Hl|]. split; [exact Hwfa|]. split; [|reflexivity].
    unfold wa. cbn [action_fifos with_fifo fifo_after_get head tail].
    destruct Hwf as (H1 & H2 & H3). unfold DEFERRED_ACTION_FIFO_SIZE in *. lia.
Qed.

(** The drain of such a flow: it ends, with the FIFO empty and one free
    recorded, the packet's. *)
Lemma recirc_drain depth skb :
  forall n t w,
    one_pending skb t w ->
    DEFERRED_ACTION_FIFO_SIZE <= t + 1 + Z.of_nat n ->
    exists w',
      drain_deferred_actions K (ovs_execute_actions K (S depth)) n dp w
      = Done tt w'
      /\ exec_actions_level w' = 1
      /\ fifo_wf (action_fifos w')
      /\ head (action_fifos w') = tail (action_fifos w')
      /\ trace w' = trace w ++ [EvFree skb].
Proof.
  induction n as [|n IH]; intros t w Hp Hfuel.
  - destruct Hp as (_ & (H1 & H2 & _) & Ht & Hh & _).
    unfold DEFERRED_ACTION_FIFO_SIZE in *. lia.
  - cbn [drain_deferred_actions].
    destruct (recirc_drain_round depth skb t w Hp) as (w1 & Hr & Hc).
    rewrite (bind_done _ _ _ _ _ Hr).
    unfold bind at 1, get_world. unfold action_fifo_is_empty.
    destruct (Z.ltb_spec (t + 1) (DEFERRED_ACTION_FIFO_SIZE - 1))
      as [Hroom | Hfull].
    + destruct Hc as (Hp1 & Htr).
      assert (Hne : (head (action_fifos w1) =? tail (action_fifos w1)) = false).
      { destruct Hp1 as (_ & _ & Ht1 & Hh1 & _). apply Z.eqb_neq. lia. }
      rewrite Hne.
      destruct (IH (t + 1) w1 Hp1 ltac:(lia)) as (w' & Hd & R).
      exists w'. split; [exact Hd|]. rewrite <- Htr. exact R.
    + destruct Hc as (Hl1 & Hwf1 & He1 & Htr).
      rewrite He1, Z.eqb_refl. exists w1. unfold ret. repeat split; assumption
        || apply Hwf1.
Qed.

(** X15.  A flow whose every lookup answers [RECIRC id] does not run for ever,
    and it is the FIFO that stops it, not the level limit: entered at
    level 0 with an empty FIFO, on a packet with a valid key, the executor
    returns 0; the packet has been queued round after round until a put
    found the FIFO full, and the one call recorded is the free of the
    packet; the level and the FIFO are back at rest.  Two nested entries
    are all it takes: the executor is never entered above level 1. *)
Theorem self_recirculation_is_cut_by_the_fifo :
  forall depth skb key w,
    (2 <= depth)%nat ->
    is_flow_key_valid key = true ->
    exec_actions_level w = 0 ->
    fifo_wf (action_fifos w) ->
    head (action_fifos w) = 0 ->
    exists w',
      ovs_execute_actions K depth dp skb key (recirc_to id) w = Done 0 w'
      /\ trace w' = trace w ++ [EvFree skb]
      /\ exec_actions_level w' = 0
      /\ head (action_fifos w') = 0
      /\ tail (action_fifos w') = 0.
Proof.
  intros depth skb key w Hd Hv Hl Hwf Hh.
  destruct depth as [|[|d]]; [lia | lia |].
  rewrite ovs_execute_actions_unfold.
  destruct (Z.leb_spec EXEC_ACTIONS_LEVEL_LIMIT (exec_actions_level w));
    [unfold EXEC_ACTIONS_LEVEL_LIMIT in *; lia|].
  set (w1 := with_level w (exec_actions_level w + 1)).
  unfold bind at 1.
  rewrite (recirc_list_run _ skb key w1 Hv Hwf).
  change (action_fifos w1) with (action_fifos w). rewrite Hh.
  change (0 <? DEFERRED_ACTION_FIFO_SIZE - 1) with true. cbv iota.
  rewrite Hl. cbn [Z.eqb]. unfold bind at 1.
  set (w2 := with_fifo w1
               (fifo_after_put (action_fifos w) (recirc_entry skb key id))).
  assert (Ht0 : tail (action_fifos w) = 0)
    by (destruct Hwf as (H1 & _); lia).
  assert (Hp : one_pending skb 0 w2).
  { pose proof (nested_step_put w1 (recirc_entry skb key id) Hwf
                  ltac:(change (action_fifos w1) with (action_fifos w);
                        unfold DEFERRED_ACTION_FIFO_SIZE; lia))
      as (_ & Hwf2 & _).
    unfold one_pending, w2. cbn [exec_actions_level action_fifos with_fifo].
    split; [unfold w1; cbn [exec_actions_level with_level]; lia|].
    split; [exact Hwf2|].
    split; [unfold fifo_after_put; cbn [tail fifo_store]; exact Ht0|].
    split; [unfold fifo_after_put; cbn [head fifo_store]; lia|].
    rewrite <- Hh.
    rewrite (fifo_slot_after_put (action_fifos w) _ Hwf
               ltac:(unfold DEFERRED_ACTION_FIFO_SIZE; lia)).
    repeat split. exact Hv. }
  unfold process_deferred_actions, bind at 1, get_world.
  assert (Hne : action_fifo_is_empty (action_fifos w2) = false).
  { destruct Hp as (_ & _ & Ht2 & Hh2 & _). unfold action_fifo_is_empty.
    apply Z.eqb_neq. lia. }
  rewrite Hne. unfold bind at 1.
  destruct (recirc_drain d skb (Z.to_nat DEFERRED_ACTION_FIFO_SIZE) 0 w2 Hp
              ltac:(unfold DEFERRED_ACTION_FIFO_SIZE; lia))
    as (w3 & Hdr & Hl3 & Hwf3 & He3 & Htr3).
  rewrite Hdr. unfold bind, modify, ret.
  eexists. split; [reflexivity|].
  cbn [trace exec_actions_level action_fifos with_level with_fifo
       action_fifo_init head tail].
  split; [exact Htr3|]. split; [lia|]. split; reflexivity.
Qed.

End RecirculatingFlow.

Lemma fifo_take_all_spec n :
  forall f,
    tail f <= head f ->
    head f - tail f <= Z.of_nat n ->
    fifo_take_all n f
    = map (fun j => fifo_slot f (tail f + Z.of_nat j))
        (seq 0 (Z.to_nat (head f - tail f))).
Proof.
  induction n as [|n IH]; intros f Hle Hn.
  - replace (Z.to_nat (head f - tail f)) with 0%nat by lia. reflexivity.
  - cbn [fifo_take_all]. unfold action_fifo_get, action_fifo_is_empty.
    destruct (Z.eqb_spec (head f) (tail f)) as [He | Hne].
    + replace (Z.to_nat (head f - tail f)) with 0%nat by lia. reflexivity.
    + replace (Z.to_nat (head f - tail f))
        with (S (Z.to_nat (head f - (tail f + 1)))) by lia.
      cbn [seq map]. rewrite Z.add_0_r. f_equal.
      rewrite IH by (cbn [head tail]; lia). cbn [head tail].
      rewrite <- seq_shift, map_map. apply map_ext. intros j.
      unfold fifo_slot. cbn [fifo]. f_equal. lia.
Qed.

Lemma enqueue_all_slots items :
  forall w,
    fifo_wf (action_fifos w) ->
    exists w',
      enqueue_all items w
      = Done (Nat.min (length items)
                (Z.to_nat (DEFERRED_ACTION_FIFO_SIZE - 1
                           - head (action_fifos w)))) w'
      /\ tail (action_fifos w') = tail (action_fifos w)
      /\ head (action_fifos w')
         = head (action_fifos w)
           + Z.of_nat (Nat.min (length items)
                         (Z.to_nat (DEFERRED_ACTION_FIFO_SIZE - 1
                                    - head (action_fifos w))))
      /\ fifo_wf (action_fifos w')
      /\ (forall i, 0 <= i < head (action_fifos w) ->
            fifo_slot (action_fifos w') i = fifo_slot (action_fifos w) i)
      /\ (forall j,
            (j < Nat.min (length items)
                   (Z.to_nat (DEFERRED_ACTION_FIFO_SIZE - 1
                              - head (action_fifos w))))%nat ->
            fifo_slot (action_fifos w') (head (action_fifos w) + Z.of_nat j)
            = nth j items da_zero).
Proof.
  induction items as [|da rest IH]; intros w Hwf.
  - exists w. cbn [enqueue_all length Nat.min]. unfold ret.
    split; [reflexivity|]. split; [reflexivity|]. split; [lia|].
    split; [exact Hwf|]. split; [reflexivity|]. intros j Hj. lia.
  - cbn [enqueue_all length].
    destruct (Z.lt_ge_cases (head (action_fifos w))
                (DEFERRED_ACTION_FIFO_SIZE - 1)) as [Hroom | Hfull].
    + rewrite (bind_done _ _ _ _ _ (add_deferred_actions_room _ _ _ w Hroom)).
      set (e := {| da_skb := da_skb da; da_actions := da_actions da;
                   da_pkt_key := da_pkt_key da |}).
      assert (Ee : e = da) by (destruct da; reflexivity).
      set (w1 := with_fifo w (fifo_after_put (action_fifos w) e)).
      pose proof (nested_step_put w e Hwf Hroom) as (_ & Hwf1 & Ht1 & Hh1 & Hs1).
      fold w1 in Hwf1, Ht1, Hh1, Hs1.
      assert (H1 : head (action_fifos w1) = head (action_fifos w) + 1)
        by reflexivity.
      destruct (IH w1 Hwf1) as (w' & E & Ht & Hh & Hwf' & Hold & Hnew).
      rewrite (bind_done _ _ _ _ _ E). exists w'.
      rewrite H1 in *.
      replace (Z.to_nat (DEFERRED_ACTION_FIFO_SIZE - 1 - head (action_fifos w)))
        with (S (Z.to_nat (DEFERRED_ACTION_FIFO_SIZE - 1
                           - (head (action_fifos w) + 1)))) by lia.
      cbn [Nat.min]. unfold ret.
      split; [reflexivity|]. split; [congruence|]. split; [lia|].
      split; [exact Hwf'|]. split.
      * intros i Hi. rewrite Hold by lia. apply Hs1. exact Hi.
      * intros [|j] Hj.
        -- cbn [nth]. rewrite Z.add_0_r.
           rewrite Hold by (destruct Hwf as ((? & ?) & _); lia).
           unfold w1. cbn [action_fifos with_fifo].
           rewrite (fifo_slot_after_put _ _ Hwf Hroom). exact Ee.
        -- cbn [nth]. rewrite <- (Hnew j) by lia. f_equal. lia.
    + rewrite (bind_done _ _ _ _ _ (add_deferred_actions_full _ _ _ w Hfull)).
      destruct (IH w Hwf) as (w' & E & Ht & Hh & Hwf' & Hold & Hnew).
      rewrite (bind_done _ _ _ _ _ E). exists w'.
      replace (Z.to_nat (DEFERRED_ACTION_FIFO_SIZE - 1 - head (action_fifos w)))
        with 0%nat in * by lia.
      rewrite Nat.min_0_r in *. cbn [Nat.min]. unfold ret.
      split; [reflexivity|]. split; [exact Ht|]. split; [lia|].
      split; [exact Hwf'|]. split; [exact Hold|]. intros j Hj. lia.
Qed.

(** X16.  The FIFO hands entries back in the order they were put, and only those
    it accepted: after any run of offers to the empty FIFO, taking entries
    off until it is empty yields the first 9 of them, in order. *)
Theorem deferred_fifo_is_first_in_first_out :
  forall items w,
    fifo_wf (action_fifos w) ->
    head (action_fifos w) = 0 ->
    exists n w',
      enqueue_all items w = Done n w'
      /\ fifo_take_all (Z.to_nat DEFERRED_ACTION_FIFO_SIZE) (action_fifos w')
         = firstn (Z.to_nat (DEFERRED_ACTION_FIFO_SIZE - 1)) items.
Proof.
  intros items w Hwf Hh.
  destruct (enqueue_all_slots items w Hwf)
    as (w' & E & Ht & Hh' & Hwf' & _ & Hnew).
  rewrite Hh in *.
  assert (Ht0 : tail (action_fifos w) = 0) by (destruct Hwf as (? & _); lia).
  set (k := Nat.min (length items)
              (Z.to_nat (DEFERRED_ACTION_FIFO_SIZE - 1 - 0))) in *.
  exists k, w'. split; [exact E|].
  rewrite fifo_take_all_spec
    by (rewrite ?Ht, ?Hh', ?Ht0; unfold k, DEFERRED_ACTION_FIFO_SIZE; lia).
  rewrite Ht, Hh', Ht0. rewrite Z.add_0_l, Z.sub_0_r, Nat2Z.id.
  apply (nth_ext _ _ da_zero da_zero).
  - rewrite length_map, length_seq, length_firstn. unfold k.
    change (Z.to_nat (DEFERRED_ACTION_FIFO_SIZE - 1 - 0)) with 9%nat.
    change (Z.to_nat (DEFERRED_ACTION_FIFO_SIZE - 1)) with 9%nat. lia.
  - intros j Hj. rewrite length_map, length_seq in Hj.
    rewrite (nth_indep _ da_zero (fifo_slot (action_fifos w') (0 + Z.of_nat 0)))
      by (rewrite length_map, length_seq; exact Hj).
    rewrite (map_nth (fun j => fifo_slot (action_fifos w') (0 + Z.of_nat j))).
    rewrite seq_nth by exact Hj. cbn [Nat.add].
    rewrite (Hnew j Hj).
    change (Z.to_nat (DEFERRED_ACTION_FIFO_SIZE - 1)) with 9%nat.
    rewrite nth_firstn.
    destruct (Nat.ltb_spec j 9); [reflexivity|].
    unfold k in Hj.
    change (Z.to_nat (DEFERRED_ACTION_FIFO_SIZE - 1 - 0)) with 9%nat in Hj. lia.
Qed.

Lemma ipv4_kept_refl nh s : bytes_ok (data s) -> ipv4_kept nh s s.
Proof. intros H. repeat split; try assumption. apply ones_eq_refl. Qed.

Lemma ipv4_kept_trans nh s1 s2 s3 :
  ipv4_kept nh s1 s2 -> ipv4_kept nh s2 s3 -> ipv4_kept nh s1 s3.
Proof.
  intros (B1 & L1 & T1 & N1 & O1) (B2 & L2 & T2 & N2 & O2).
  repeat split; try congruence. eapply ones_eq_trans; eassumption.
Qed.

Lemma fst_if {A B} (c : bool) (x y : A * B) :
  fst (if c then x else y) = if c then fst x else fst y.
Proof. destruct c; reflexivity. Qed.

Lemma get_be32_same_bytes d d' a :
  (forall i, a <= i < a + 4 -> byte_at d' i = byte_at d i) ->
  get_be32 d' a = get_be32 d a.
Proof.
  intros H. unfold get_be32, get_be16. rewrite !H by lia. reflexivity.
Qed.

Section SetIpv4.

Variables (nh th len : Z).
Hypothesis nh_nonneg : 0 <= nh.
Hypothesis header_fits : nh + 20 <= th.
Hypothesis th_in_packet : th <= len.

Lemma laid_out_kept s s' :
  laid_out th len s -> ipv4_kept nh s s' -> laid_out th len s'.
Proof.
  intros (B & L & T) (B' & L' & T' & _). repeat split; try assumption;
    congruence.
Qed.

Lemma addr_step s addr new_addr :
  laid_out th len s ->
  addr = nh + iph_saddr \/ addr = nh + iph_daddr ->
  let s' := if negb (u32 new_addr =? get_be32 (data s) addr)
            then set_ip_addr s nh addr new_addr else s in
  ipv4_kept nh s s'
  /\ get_be32 (data s') addr = u32 new_addr
  /\ (forall i, nh <= i < nh + 20 -> i < addr \/ addr + 4 <= i ->
        i < nh + 10 \/ nh + 12 <= i ->
        byte_at (data s') i = byte_at (data s) i).
Proof.
  intros (B & L & T) Ha s'. unfold s'.
  destruct (Z.eqb_spec (u32 new_addr) (get_be32 (data s) addr)) as [E | E];
    cbn [negb].
  - split; [apply ipv4_kept_refl; exact B|]. split; [symmetry; exact E|].
    reflexivity.
  - pose proof (set_ip_addr_stage s nh addr new_addr B nh_nonneg
                  ltac:(unfold skb_transport_offset, sizeof_iphdr; lia)
                  ltac:(unfold skb_transport_offset, skb_len; lia) Ha) as S.
    cbv zeta in S. destruct S as (S1 & _ & S3 & S4 & S5 & S6 & S7 & S8).
    split; [repeat split; assumption|]. split; [exact S3|].
    intros i Hi Ho Hc. apply S5;
      unfold skb_transport_offset, iph_check in *; lia.
Qed.

Lemma tos_step s value :
  laid_out th len s ->
  let s' := if negb (u8 value =? get_u8 (data s) (nh + iph_tos))
            then ipv4_change_dsfield s nh 0 value else s in
  ipv4_kept nh s s'
  /\ get_u8 (data s') (nh + iph_tos) = u8 value
  /\ (forall i, nh + 2 <= i < nh + 20 -> i < nh + 10 \/ nh + 12 <= i ->
        byte_at (data s') i = byte_at (data s) i).
Proof.
  intros (B & L & T) s'. unfold s'.
  destruct (Z.eqb_spec (u8 value) (get_u8 (data s) (nh + iph_tos))) as [E | E];
    cbn [negb].
  - split; [apply ipv4_kept_refl; exact B|]. split; [symmetry; exact E|].
    reflexivity.
  - pose proof (ipv4_change_dsfield_stage s nh value B nh_nonneg
                  ltac:(unfold skb_len, sizeof_iphdr; lia)) as S.
    cbv zeta in S. destruct S as (S1 & _ & S3 & S4 & S5 & S6 & S7 & S8).
    split; [repeat split; assumption|]. split; [exact S3|].
    intros i Hi Hc. apply S5; unfold iph_tos, iph_check in *; lia.
Qed.

Lemma ttl_step s value :
  laid_out th len s ->
  let s' := if negb (u8 value =? get_u8 (data s) (nh + iph_ttl))
            then set_ip_ttl s nh value else s in
  ipv4_kept nh s s'
  /\ get_u8 (data s') (nh + iph_ttl) = u8 value
  /\ (forall i, nh <= i < nh + 20 -> i <> nh + 8 ->
        i < nh + 10 \/ nh + 12 <= i ->
        byte_at (data s') i = byte_at (data s) i).
Proof.
  intros (B & L & T) s'. unfold s'.
  destruct (Z.eqb_spec (u8 value) (get_u8 (data s) (nh + iph_ttl))) as [E | E];
    cbn [negb].
  - split; [apply ipv4_kept_refl; exact B|]. split; [symmetry; exact E|].
    reflexivity.
  - pose proof (set_ip_ttl_stage s nh value B nh_nonneg
                  ltac:(unfold skb_len, sizeof_iphdr; lia)) as S.
    cbv zeta in S. destruct S as (S1 & _ & S3 & S4 & S5 & S6 & S7 & S8).
    split; [repeat split; assumption|]. split; [exact S3|].
    intros i Hi Hn Hc. apply S5; unfold iph_ttl, iph_check in *; lia.
Qed.

End SetIpv4.

(** X17.  A successful [set_ipv4] on a packet of bytes whose transport header
    lies behind the 20 bytes of its IPv4 header: the header's source and
    destination address, TOS and TTL are those of the action, and the
    header checksum has been kept in step through every change - the
    header's one's-complement sum is what it was, so a header that
    verified still verifies. *)
Theorem set_ipv4_writes_fields_and_keeps_checksum :
  forall skb key k w skb' key' w',
    bytes_ok (data skb) ->
    0 <= skb_network_offset skb ->
    skb_network_offset skb + sizeof_iphdr <= skb_transport_offset skb ->
    skb_transport_offset skb <= skb_len skb ->
    set_ipv4 skb key k w = Done (0, skb', key') w' ->
    let nh := skb_network_offset skb in
    get_be32 (data skb') (nh + iph_saddr) = u32 (ipv4_src k)
    /\ get_be32 (data skb') (nh + iph_daddr) = u32 (ipv4_dst k)
    /\ get_u8 (data skb') (nh + iph_tos) = u8 (ipv4_tos k)
    /\ get_u8 (data skb') (nh + iph_ttl) = u8 (ipv4_ttl k)
    /\ ones_eq (ip_header_sum (data skb') nh) (ip_header_sum (data skb) nh)
    /\ (ip_header_sum (data skb) nh mod 65535 = 0 ->
        ip_header_sum (data skb') nh mod 65535 = 0)
    /\ skb_len skb' = skb_len skb
    /\ skb_transport_offset skb' = skb_transport_offset skb.
Proof.
  intros skb key k w skb' key' w' Hb Hnh Hth Hlen Hrun nh.
  unfold sizeof_iphdr in Hth. fold nh in Hnh, Hth.
  set (th := skb_transport_offset skb) in *.
  set (len := skb_len skb) in *.
  assert (Hlay : laid_out th len skb) by (repeat split; assumption).
  unfold set_ipv4, bind in Hrun.
  destruct (make_writable skb (skb_network_offset skb + sizeof_iphdr) w)
    as [e w1|]; [|discriminate].
  destruct (Z.eqb_spec e 0) as [-> | Hne]; cbn [negb] in Hrun;
    unfold ret in Hrun.
  2:{ injection Hrun as E _ _ _. contradiction. }
  fold nh in Hrun. cbv zeta in Hrun.
  (* the four steps *)
  match type of Hrun with
  | context [let '(_, _) := ?x in _] => destruct x as [s1 k1] eqn:E1
  end.
  match type of Hrun with
  | context [let '(_, _) := ?x in _] => destruct x as [s2 k2] eqn:E2
  end.
  match type of Hrun with
  | context [let '(_, _) := ?x in _] => destruct x as [s3 k3] eqn:E3
  end.
  match type of Hrun with
  | context [let '(_, _) := ?x in _] => destruct x as [s4 k4] eqn:E4
  end.
  injection Hrun as <- _.
  apply (f_equal fst) in E1, E2, E3, E4.
  rewrite fst_if in E1, E2, E3, E4. cbn [fst] in E1, E2, E3, E4.
  pose proof (addr_step nh th len Hnh Hth Hlen skb (nh + iph_saddr)
                (ipv4_src k) Hlay (or_introl eq_refl)) as A1.
  cbv zeta in A1. rewrite E1 in A1. destruct A1 as (K1 & G1 & F1).
  pose proof (laid_out_kept nh th len _ _ Hlay K1) as Hlay1.
  pose proof (addr_step nh th len Hnh Hth Hlen s1 (nh + iph_daddr)
                (ipv4_dst k) Hlay1 (or_intror eq_refl)) as A2.
  cbv zeta in A2. rewrite E2 in A2. destruct A2 as (K2 & G2 & F2).
  pose proof (laid_out_kept nh th len _ _ Hlay1 K2) as Hlay2.
  pose proof (tos_step nh th len Hnh Hth Hlen s2 (ipv4_tos k) Hlay2) as A3.
  cbv zeta in A3. rewrite E3 in A3. destruct A3 as (K3 & G3 & F3).
  pose proof (laid_out_kept nh th len _ _ Hlay2 K3) as Hlay3.
  pose proof (ttl_step nh th len Hnh Hth Hlen s3 (ipv4_ttl k) Hlay3) as A4.
  cbv zeta in A4. rewrite E4 in A4. destruct A4 as (K4 & G4 & F4).
  pose proof (ipv4_kept_trans nh _ _ _ K1
                (ipv4_kept_trans nh _ _ _ K2
                   (ipv4_kept_trans nh _ _ _ K3 K4))) as (_ & KL & KT & _ & KO).
  unfold iph_saddr, iph_daddr, iph_tos, iph_ttl in *.
  split.
  { rewrite (get_be32_same_bytes (data s3) (data s4) (nh + 12))
      by (intros; apply F4; lia).
    rewrite (get_be32_same_bytes (data s2) (data s3) (nh + 12))
      by (intros; apply F3; lia).
    rewrite (get_be32_same_bytes (data s1) (data s2) (nh + 12))
      by (intros; apply F2; lia).
    exact G1. }
  split.
  { rewrite (get_be32_same_bytes (data s3) (data s4) (nh + 16))
      by (intros; apply F4; lia).
    rewrite (get_be32_same_bytes (data s2) (data s3) (nh + 16))
      by (intros; apply F3; lia).
    exact G2. }
  split.
  { unfold get_u8 in *. rewrite F4 by lia. exact G3. }
  split; [exact G4|]. split; [exact KO|]. split.
  { intros Hv. rewrite (ones_eq_mod _ _ KO). exact Hv. }
  split; [unfold len, skb_len; congruence|].
  unfold th, skb_transport_offset. exact KT.
Qed.

Lemma in_all_bytes b : 0 <= b < 256 -> In b all_bytes.
Proof.
  intros H. unfold all_bytes. apply in_map_iff. exists (Z.to_nat b).
  split; [lia|]. apply in_seq. lia.
Qed.

Lemma for_all_bytes2 (P : Z -> Z -> bool) :
  forallb (fun a => forallb (P a) all_bytes) all_bytes = true ->
  forall a b, 0 <= a < 256 -> 0 <= b < 256 -> P a b = true.
Proof.
  intros H a b Ha Hb. rewrite forallb_forall in H.
  specialize (H a (in_all_bytes a Ha)). rewrite forallb_forall in H.
  exact (H b (in_all_bytes b Hb)).
Qed.

Lemma tc_high_nibble b t :
  0 <= b < 256 -> 0 <= t < 256 ->
  Z.lor (Z.land b 240) (Z.shiftr t 4) = 16 * (b / 16) + t / 16.
Proof.
  intros Hb Ht. apply Z.eqb_eq.
  apply (for_all_bytes2
           (fun b t => Z.lor (Z.land b 240) (Z.shiftr t 4)
                       =? 16 * (b / 16) + t / 16)); [|assumption..].
  vm_compute. reflexivity.
Qed.

Lemma tc_low_nibble b t :
  0 <= b < 256 -> 0 <= t < 256 ->
  Z.lor (Z.land b 15) (Z.shiftl (Z.land t 15) 4) = b mod 16 + 16 * (t mod 16).
Proof.
  intros Hb Ht. apply Z.eqb_eq.
  apply (for_all_bytes2
           (fun b t => Z.lor (Z.land b 15) (Z.shiftl (Z.land t 15) 4)
                       =? b mod 16 + 16 * (t mod 16))); [|assumption..].
  vm_compute. reflexivity.
Qed.

Lemma fl_high_nibble b x :
  0 <= b < 256 -> 0 <= x < 16 ->
  Z.lor (Z.land b 240) x = 16 * (b / 16) + x.
Proof.
  intros Hb Hx.
  assert (H : (16 <=? x) || (Z.lor (Z.land b 240) x =? 16 * (b / 16) + x)
              = true).
  { apply (for_all_bytes2
             (fun b x => (16 <=? x)
                         || (Z.lor (Z.land b 240) x =? 16 * (b / 16) + x)));
      [vm_compute; reflexivity | assumption | lia]. }
  destruct (Z.leb_spec 16 x); [lia|]. apply Z.eqb_eq. exact H.
Qed.

Lemma u8_small_byte x : 0 <= x < 256 -> u8 x = x.
Proof. intros. unfold u8. apply Z.mod_small. lia. Qed.

Lemma byte_at_put_u8_same d off v :
  0 <= off -> off + 1 <= Z.of_nat (length d) ->
  byte_at (put_u8 d off v) off = u8 v.
Proof.
  intros H0 H1. unfold put_u8.
  rewrite byte_at_put_bytes_in by (cbn [length]; lia).
  replace (Z.to_nat (off - off)) with 0%nat by lia. reflexivity.
Qed.

Lemma byte_at_put_u8_other d off v i :
  0 <= off -> off + 1 <= Z.of_nat (length d) -> 0 <= i -> i <> off ->
  byte_at (put_u8 d off v) i = byte_at d i.
Proof.
  intros H0 H1 Hi Hn. unfold put_u8.
  apply byte_at_put_bytes_out; cbn [length]; lia.
Qed.

Lemma length_put_u8 d off v :
  0 <= off -> off + 1 <= Z.of_nat (length d) ->
  length (put_u8 d off v) = length d.
Proof. intros. unfold put_u8. apply length_put_bytes; cbn [length]; lia. Qed.

(** The bytes [set_ipv6_tc] leaves. *)
Lemma set_ipv6_tc_bytes skb nh tc :
  bytes_ok (data skb) -> 0 <= nh -> nh + 4 <= skb_len skb ->
  let d' := data (set_ipv6_tc skb nh tc) in
  byte_at d' nh = 16 * (byte_at (data skb) nh / 16) + u8 tc / 16
  /\ byte_at d' (nh + 1)
     = byte_at (data skb) (nh + 1) mod 16 + 16 * (u8 tc mod 16)
  /\ (forall i, 0 <= i -> i <> nh -> i <> nh + 1 ->
        byte_at d' i = byte_at (data skb) i)
  /\ length d' = length (data skb).
Proof.
  intros Hb H0 Hlen d'. unfold skb_len in Hlen.
  unfold d', set_ipv6_tc. cbv zeta. cbn [data with_data]. unfold get_u8.
  set (d := data skb) in *.
  pose proof (byte_at_range d nh Hb) as R0.
  pose proof (byte_at_range d (nh + 1) Hb) as R1.
  pose proof (u8_range tc) as Rt.
  rewrite (byte_at_put_u8_other d nh _ (nh + 1)) by lia.
  rewrite tc_high_nibble, tc_low_nibble by assumption.
  set (v0 := 16 * (byte_at d nh / 16) + u8 tc / 16).
  set (v1 := byte_at d (nh + 1) mod 16 + 16 * (u8 tc mod 16)).
  assert (L1 : length (put_u8 d nh v0) = length d)
    by (apply length_put_u8; lia).
  assert (V0 : 0 <= v0 < 256).
  { assert (0 <= byte_at d nh / 16 < 16)
      by (split; [apply Z.div_pos; lia | apply Z.div_lt_upper_bound; lia]).
    assert (0 <= u8 tc / 16 < 16)
      by (split; [apply Z.div_pos; lia | apply Z.div_lt_upper_bound; lia]).
    unfold v0. lia. }
  assert (V1 : 0 <= v1 < 256).
  { pose proof (Z.mod_pos_bound (byte_at d (nh + 1)) 16 ltac:(lia)).
    pose proof (Z.mod_pos_bound (u8 tc) 16 ltac:(lia)). unfold v1. lia. }
  split; [|split; [|split]].
  - rewrite byte_at_put_u8_other by lia.
    rewrite byte_at_put_u8_same by lia. apply u8_small_byte. exact V0.
  - rewrite byte_at_put_u8_same by lia. apply u8_small_byte. exact V1.
  - intros i Hi Hn0 Hn1. rewrite !byte_at_put_u8_other by lia. reflexivity.
  - rewrite length_put_u8 by lia. exact L1.
Qed.

Lemma label_bits F :
  0 <= F ->
  Z.shiftr (Z.land F 983040) 16 = (F / 65536) mod 16
  /\ Z.shiftr (Z.land F 65280) 8 = (F / 256) mod 256
  /\ Z.land F 255 = F mod 256.
Proof.
  intros HF. rewrite !Z.shiftr_land.
  change (Z.shiftr 983040 16) with (Z.ones 4).
  change (Z.shiftr 65280 8) with (Z.ones 8).
  change 255 with (Z.ones 8).
  rewrite !Z.land_ones, !Z.shiftr_div_pow2 by lia.
  repeat split.
Qed.

Lemma label_of_word F :
  0 <= F ->
  F mod 1048576
  = ((F / 65536) mod 16) * 65536 + ((F / 256) mod 256) * 256 + F mod 256.
Proof.
  intros HF.
  pose proof (Z.div_mod F 256 ltac:(lia)) as E1.
  pose proof (Z.mod_pos_bound F 256 ltac:(lia)) as B1.
  pose proof (Z.div_mod (F / 256) 256 ltac:(lia)) as E2.
  pose proof (Z.mod_pos_bound (F / 256) 256 ltac:(lia)) as B2.
  assert (E : F / 256 / 256 = F / 65536)
    by (rewrite Z.div_div by lia; reflexivity).
  rewrite E in E2.
  pose proof (Z.div_mod (F / 65536) 16 ltac:(lia)) as E3.
  pose proof (Z.mod_pos_bound (F / 65536) 16 ltac:(lia)) as B3.
  symmetry. apply (Z.mod_unique _ _ (F / 65536 / 16)); lia.
Qed.

Lemma label_of_bytes b0 b1 b2 b3 :
  0 <= b0 < 256 -> 0 <= b1 < 256 -> 0 <= b2 < 256 -> 0 <= b3 < 256 ->
  Z.land ((b0 * 256 + b1) * 65536 + (b2 * 256 + b3)) IPV6_FLOWINFO_FLOWLABEL
  = (b1 mod 16) * 65536 + b2 * 256 + b3.
Proof.
  intros H0 H1 H2 H3. unfold IPV6_FLOWINFO_FLOWLABEL.
  change 1048575 with (Z.ones 20). rewrite Z.land_ones by lia.
  change (2 ^ 20) with 1048576.
  pose proof (Z.div_mod b1 16 ltac:(lia)) as E1.
  pose proof (Z.mod_pos_bound b1 16 ltac:(lia)) as B1.
  symmetry. apply (Z.mod_unique _ _ (b0 * 16 + b1 / 16)); lia.
Qed.

Lemma dsfield_of_bytes b0 b1 :
  0 <= b0 < 256 -> 0 <= b1 < 256 ->
  u8 (Z.shiftr (b0 * 256 + b1) 4) = (b0 mod 16) * 16 + b1 / 16.
Proof.
  intros H0 H1. rewrite Z.shiftr_div_pow2 by lia. change (2 ^ 4) with 16.
  pose proof (Z.div_mod b0 16 ltac:(lia)) as E0.
  pose proof (Z.mod_pos_bound b0 16 ltac:(lia)) as B0.
  pose proof (Z.div_mod b1 16 ltac:(lia)) as E1.
  pose proof (Z.mod_pos_bound b1 16 ltac:(lia)) as B1.
  assert (Q : (b0 * 256 + b1) / 16 = b0 * 16 + b1 / 16).
  { symmetry. apply (Z.div_unique _ _ _ (b1 mod 16)); lia. }
  rewrite Q. unfold u8. symmetry.
  assert (0 <= b1 / 16 < 16)
    by (split; [apply Z.div_pos; lia | apply Z.div_lt_upper_bound; lia]).
  apply (Z.mod_unique _ _ (b0 / 16)); lia.
Qed.

(** The bytes [set_ipv6_fl] leaves. *)
Lemma set_ipv6_fl_bytes skb nh fl :
  bytes_ok (data skb) -> 0 <= nh -> nh + 4 <= skb_len skb ->
  let d' := data (set_ipv6_fl skb nh fl) in
  byte_at d' (nh + 1)
  = 16 * (byte_at (data skb) (nh + 1) / 16) + (u32 fl / 65536) mod 16
  /\ byte_at d' (nh + 2) = (u32 fl / 256) mod 256
  /\ byte_at d' (nh + 3) = u32 fl mod 256
  /\ (forall i, 0 <= i -> i < nh + 1 \/ nh + 4 <= i ->
        byte_at d' i = byte_at (data skb) i)
  /\ length d' = length (data skb).
Proof.
  intros Hb H0 Hlen d'. unfold skb_len in Hlen.
  unfold d', set_ipv6_fl. cbv zeta. cbn [data with_data]. unfold get_u8.
  set (d := data skb) in *.
  pose proof (byte_at_range d (nh + 1) Hb) as R1.
  pose proof (u32_range fl) as RF.
  destruct (label_bits (u32 fl) ltac:(lia)) as (E1 & E2 & E3).
  rewrite E1, E2, E3.
  pose proof (Z.mod_pos_bound (u32 fl / 65536) 16 ltac:(lia)) as X1.
  pose proof (Z.mod_pos_bound (u32 fl / 256) 256 ltac:(lia)) as X2.
  pose proof (Z.mod_pos_bound (u32 fl) 256 ltac:(lia)) as X3.
  rewrite fl_high_nibble by assumption.
  set (v1 := 16 * (byte_at d (nh + 1) / 16) + (u32 fl / 65536) mod 16).
  assert (V1 : 0 <= v1 < 256).
  { assert (0 <= byte_at d (nh + 1) / 16 < 16)
      by (split; [apply Z.div_pos; lia | apply Z.div_lt_upper_bound; lia]).
    unfold v1. lia. }
  assert (L1 : length (put_u8 d (nh + 1) v1) = length d)
    by (apply length_put_u8; lia).
  assert (L2 : length (put_u8 (put_u8 d (nh + 1) v1) (nh + 2)
                         ((u32 fl / 256) mod 256)) = length d)
    by (rewrite length_put_u8 by lia; exact L1).
  split; [|split; [|split; [|split]]].
  - rewrite !byte_at_put_u8_other by lia.
    rewrite byte_at_put_u8_same by lia. apply u8_small_byte. exact V1.
  - rewrite byte_at_put_u8_other by lia.
    rewrite byte_at_put_u8_same by lia. apply u8_small_byte. exact X2.
  - rewrite byte_at_put_u8_same by lia. apply u8_small_byte. exact X3.
  - intros i Hi Ho. rewrite !byte_at_put_u8_other by lia. reflexivity.
  - rewrite length_put_u8 by lia. exact L2.
Qed.

(** X18.  The traffic class and the flow label share the first word of the IPv6
    header with the version.  [set_ipv6_tc] makes [ipv6_get_dsfield] read
    the new traffic class and leaves version and flow label as they were;
    [set_ipv6_fl] makes the word's low 20 bits the new label's low 20 bits
    and leaves version and traffic class as they were. *)
Theorem ipv6_traffic_class_and_flow_label_read_back :
  forall skb nh,
    bytes_ok (data skb) -> 0 <= nh -> nh + 4 <= skb_len skb ->
    (forall tc,
       ipv6_get_dsfield (set_ipv6_tc skb nh tc) nh = u8 tc
       /\ Z.land (get_be32 (data (set_ipv6_tc skb nh tc)) nh)
            IPV6_FLOWINFO_FLOWLABEL
          = Z.land (get_be32 (data skb) nh) IPV6_FLOWINFO_FLOWLABEL
       /\ get_u8 (data (set_ipv6_tc skb nh tc)) nh / 16
          = get_u8 (data skb) nh / 16)
    /\ (forall fl,
          Z.land (get_be32 (data (set_ipv6_fl skb nh fl)) nh)
            IPV6_FLOWINFO_FLOWLABEL
          = Z.land (u32 fl) IPV6_FLOWINFO_FLOWLABEL
          /\ ipv6_get_dsfield (set_ipv6_fl skb nh fl) nh
             = ipv6_get_dsfield skb nh
          /\ get_u8 (data (set_ipv6_fl skb nh fl)) nh
             = get_u8 (data skb) nh).
Proof.
  intros skb nh Hb H0 Hlen.
  pose proof (byte_at_range (data skb) nh Hb) as R0.
  pose proof (byte_at_range (data skb) (nh + 1) Hb) as R1.
  pose proof (byte_at_range (data skb) (nh + 2) Hb) as R2.
  pose proof (byte_at_range (data skb) (nh + 3) Hb) as R3.
  split.
  - intros tc.
    pose proof (set_ipv6_tc_bytes skb nh tc Hb H0 Hlen) as T.
    cbv zeta in T. destruct T as (T0 & T1 & To & _).
    pose proof (u8_range tc) as Rt.
    pose proof (Z.div_mod (u8 tc) 16 ltac:(lia)) as Et.
    pose proof (Z.mod_pos_bound (u8 tc) 16 ltac:(lia)) as Bt.
    assert (Qt : 0 <= u8 tc / 16 < 16)
      by (split; [apply Z.div_pos; lia | apply Z.div_lt_upper_bound; lia]).
    assert (Q0 : 0 <= byte_at (data skb) nh / 16 < 16)
      by (split; [apply Z.div_pos; lia | apply Z.div_lt_upper_bound; lia]).
    pose proof (Z.mod_pos_bound (byte_at (data skb) (nh + 1)) 16 ltac:(lia))
      as B1.
    split; [|split].
    + unfold ipv6_get_dsfield, get_be16. rewrite T0, T1.
      rewrite dsfield_of_bytes by lia.
      assert (M0 : (16 * (byte_at (data skb) nh / 16) + u8 tc / 16) mod 16
                   = u8 tc / 16).
      { symmetry. apply (Z.mod_unique _ _ (byte_at (data skb) nh / 16)); lia. }
      assert (D1 : (byte_at (data skb) (nh + 1) mod 16 + 16 * (u8 tc mod 16))
                   / 16 = u8 tc mod 16).
      { symmetry.
        apply (Z.div_unique _ _ _ (byte_at (data skb) (nh + 1) mod 16)); lia. }
      rewrite M0, D1. lia.
    + unfold get_be32, get_be16.
      replace (nh + 2 + 1) with (nh + 3) by lia.
      rewrite T0, T1, (To (nh + 2)), (To (nh + 3)) by lia.
      rewrite !label_of_bytes by lia.
      assert (M1 : (byte_at (data skb) (nh + 1) mod 16 + 16 * (u8 tc mod 16))
                   mod 16 = byte_at (data skb) (nh + 1) mod 16).
      { symmetry. apply (Z.mod_unique _ _ (u8 tc mod 16)); lia. }
      rewrite M1. reflexivity.
    + unfold get_u8. rewrite T0. symmetry.
      apply (Z.div_unique _ _ _ (u8 tc / 16)); lia.
  - intros fl.
    pose proof (set_ipv6_fl_bytes skb nh fl Hb H0 Hlen) as F.
    cbv zeta in F. destruct F as (F1 & F2 & F3 & Fo & _).
    pose proof (u32_range fl) as RF.
    pose proof (Z.mod_pos_bound (u32 fl / 65536) 16 ltac:(lia)) as X1.
    pose proof (Z.mod_pos_bound (u32 fl / 256) 256 ltac:(lia)) as X2.
    pose proof (Z.mod_pos_bound (u32 fl) 256 ltac:(lia)) as X3.
    assert (Q1 : 0 <= byte_at (data skb) (nh + 1) / 16 < 16)
      by (split; [apply Z.div_pos; lia | apply Z.div_lt_upper_bound; lia]).
    split; [|split].
    + unfold get_be32, get_be16.
      replace (nh + 2 + 1) with (nh + 3) by lia.
      rewrite F1, F2, F3, (Fo nh) by lia.
      rewrite label_of_bytes by lia.
      assert (M1 : (16 * (byte_at (data skb) (nh + 1) / 16)
                    + (u32 fl / 65536) mod 16) mod 16
                   = (u32 fl / 65536) mod 16).
      { symmetry.
        apply (Z.mod_unique _ _ (byte_at (data skb) (nh + 1) / 16)); lia. }
      rewrite M1. unfold IPV6_FLOWINFO_FLOWLABEL.
      change 1048575 with (Z.ones 20). rewrite Z.land_ones by lia.
      change (2 ^ 20) with 1048576. symmetry. apply label_of_word. lia.
    + unfold ipv6_get_dsfield, get_be16. rewrite F1, (Fo nh) by lia.
      rewrite !dsfield_of_bytes by lia. f_equal.
      symmetry. apply (Z.div_unique _ _ _ ((u32 fl / 65536) mod 16)); lia.
    + unfold get_u8. apply Fo; lia.
Qed.

(** ** VLAN tags pushed into the packet *)

Lemma tag_bit_set t :
  Z.land t VLAN_TAG_PRESENT <> 0 -> Z.testbit t 12 = true.
Proof.
  intros H. destruct (Z.testbit t 12) eqn:E; [reflexivity|].
  exfalso. apply H. apply Z.bits_inj'. intros n Hn.
  rewrite Z.land_spec, Z.bits_0. unfold VLAN_TAG_PRESENT.
  change 4096 with (2 ^ 12). rewrite Z.pow2_bits_eqb by lia.
  destruct (Z.eqb_spec 12 n) as [<-|]; [rewrite E; reflexivity|].
  apply andb_false_r.
Qed.

(** The TCI kept in the metadata, written into the packet without its
    present bit and read back with it. *)
Lemma tci_round_trip t :
  0 <= t < 65536 -> Z.land t VLAN_TAG_PRESENT <> 0 ->
  Z.lor VLAN_TAG_PRESENT (u16 (Z.land t (65535 - VLAN_TAG_PRESENT))) = t.
Proof.
  intros Ht Hp. pose proof (tag_bit_set t Hp) as Hb.
  unfold u16. change 65536 with (2 ^ 16). rewrite <- Z.land_ones by lia.
  unfold VLAN_TAG_PRESENT.
  change (65535 - 4096) with (Z.ldiff (Z.ones 16) (2 ^ 12)).
  change 4096 with (2 ^ 12).
  apply Z.bits_inj'. intros n Hn.
  rewrite Z.lor_spec, !Z.land_spec, Z.ldiff_spec, Z.pow2_bits_eqb by lia.
  rewrite Z.testbit_ones_nonneg by lia.
  destruct (Z.eqb_spec 12 n) as [<-|Hne]; [rewrite Hb; reflexivity|].
  destruct (Z.ltb_spec n 16) as [Hlt|Hge]; cbn [negb andb orb].
  - rewrite !andb_true_r. reflexivity.
  - rewrite !andb_false_r. symmetry.
    destruct (Z.eq_dec t 0) as [->|]; [apply Z.bits_0|].
    apply Z.bits_above_log2; [lia|].
    apply Z.log2_lt_pow2; [lia|].
    pose proof (Z.pow_le_mono_r 2 16 n ltac:(lia) Hge) as Hp2.
    change (2 ^ 16) with 65536 in Hp2. lia.
Qed.

Lemma tci_in_field t :
  0 <= Z.land t (65535 - VLAN_TAG_PRESENT) < 65536.
Proof.
  unfold VLAN_TAG_PRESENT. change (65535 - 4096) with 61439.
  assert (E : Z.land t 61439 = Z.land (Z.land t 61439) (Z.ones 16))
    by (rewrite <- Z.land_assoc; reflexivity).
  rewrite E, Z.land_ones by lia. change (2 ^ 16) with 65536.
  apply Z.mod_pos_bound. lia.
Qed.

(** X19.  [push_vlan] on a packet that already carries a tag in its metadata
    writes that tag into the packet, behind the two Ethernet addresses, and
    keeps the new one in the metadata.  When the tag written was an 802.1Q
    one, [pop_vlan] straight after takes the new tag away and moves the
    written one back: bytes, tag, length of the mac header and offsets are
    the ones the packet had.  The key is invalid after either action. *)
Theorem push_vlan_on_tagged_then_pop_vlan_restores_packet :
  forall skb key vlan w s1 k1 w1 s2 k2 w2,
    vlan_tx_tag_present skb = true ->
    vlan_proto skb = ETH_P_8021Q ->
    0 <= vlan_tci skb < 65536 ->
    ETH_HLEN <= skb_len skb ->
    0 <= mac_len skb < 65536 - VLAN_HLEN ->
    is_complete skb = false ->
    push_vlan skb key vlan w = Done (0, s1, k1) w1 ->
    pop_vlan s1 k1 w1 = Done (0, s2, k2) w2 ->
    (get_be16 (data s1) (2 * ETH_ALEN) = ETH_P_8021Q
     /\ get_be16 (data s1) ETH_HLEN = vlan_tx_tag_get skb
     /\ skb_len s1 = skb_len skb + VLAN_HLEN
     /\ mac_len s1 = mac_len skb + VLAN_HLEN
     /\ vlan_proto s1 = u16 (vlan_tpid vlan)
     /\ is_flow_key_valid k1 = false)
    /\ data s2 = data skb
    /\ vlan_tci s2 = vlan_tci skb
    /\ vlan_proto s2 = vlan_proto skb
    /\ mac_len s2 = mac_len skb
    /\ skb_network_offset s2 = skb_network_offset skb
    /\ skb_transport_offset s2 = skb_transport_offset skb
    /\ is_flow_key_valid k2 = false.
Proof.
  intros skb key vlan w s1 k1 w1 s2 k2 w2 Htag Hproto Htci Hlen Hmac Hc
    Hpush Hpop.
  destruct skb as [id d ml nh th ips cs pr ipr vp vt prio mk rh tun].
  cbn [mac_len data vlan_proto vlan_tci] in Hproto, Htci, Hmac.
  unfold skb_len in Hlen. cbn [data] in Hlen. subst vp.
  assert (Hips : ip_summed_eqb ips CHECKSUM_COMPLETE = false) by exact Hc.
  clear Hc.
  assert (Hvt : Z.land vt VLAN_TAG_PRESENT <> 0).
  { unfold vlan_tx_tag_present in Htag. cbn [vlan_tci] in Htag.
    destruct (Z.eqb_spec (Z.land vt VLAN_TAG_PRESENT) 0); [discriminate|].
    assumption. }
  (* the packet pushed *)
  unfold push_vlan in Hpush. rewrite Htag in Hpush.
  unfold __vlan_put_tag, skb_cow_head, bind in Hpush.
  destruct (gfp_alloc w) as [b wa|]; [|discriminate].
  destruct b; unfold ret in Hpush; cbn [Z.ltb Z.compare Z.opp ENOMEM] in Hpush.
  2:{ unfold kfree_skb, emit in Hpush. discriminate. }
  set (t0 := Z.land vt (65535 - VLAN_TAG_PRESENT)) in *.
  assert (P : data s1
              = firstn 12 d ++ be16_bytes ETH_P_8021Q ++ be16_bytes t0
                ++ skipn 12 d
              /\ mac_len s1 = u16 (ml + 4)
              /\ network_header s1 = nh + 4
              /\ transport_header s1 = th + 4
              /\ ip_summed s1 = ips
              /\ protocol s1 = ETH_P_8021Q
              /\ vlan_proto s1 = u16 (vlan_tpid vlan)
              /\ vlan_tci s1
                 = Z.lor VLAN_TAG_PRESENT
                     (u16 (Z.land (u16 (vlan_tci_arg vlan))
                             (65535 - VLAN_TAG_PRESENT)))
              /\ eth_type k1 = 0).
  { apply (f_equal (fun o : outcome mret =>
                      match o with
                      | Done (_, s, k) _ =>
                          (data s, mac_len s, network_header s,
                           transport_header s, ip_summed s, protocol s,
                           vlan_proto s, vlan_tci s, eth_type k)
                      | Fault _ => ([], 0, 0, 0, ips, 0, 0, 0, 0)
                      end)) in Hpush.
    lazy beta iota zeta delta
      [data mac_len network_header transport_header ip_summed csum protocol
       inner_protocol skb_id vlan_proto vlan_tci priority mark rxhash
       egress_tun_info shift_headers with_data with_csum with_protocol
       with_mac_len with_vlan __vlan_hwaccel_put_tag vlan_tx_tag_get
       is_complete eth_type invalidate_flow_key key_with_eth_type
       ETH_HLEN ETH_ALEN VLAN_HLEN]
      in Hpush.
    rewrite Hips in Hpush.
    change (Z.to_nat (2 * 6)) with 12%nat in Hpush.
    injection Hpush as E1 E2 E3 E4 E5 E6 E7 E8 E9.
    repeat split; symmetry; assumption. }
  clear Hpush.
  destruct s1 as [id1 d1 ml1 nh1 th1 ips1 cs1 pr1 ipr1 vp1 vt1 prio1 mk1 rh1
                  tun1].
  cbn [data mac_len network_header transport_header ip_summed protocol
       vlan_proto vlan_tci] in P.
  destruct P as (-> & -> & -> & -> & -> & -> & -> & -> & Hk1).
  assert (Hu : u16 (ml + 4) = ml + 4)
    by (unfold u16, VLAN_HLEN in *; apply Z.mod_small; lia).
  rewrite Hu in *.
  set (D1 := firstn 12 d ++ be16_bytes ETH_P_8021Q ++ be16_bytes t0
             ++ skipn 12 d) in *.
  assert (HD1 : Z.of_nat (length D1) = Z.of_nat (length d) + 4).
  { unfold D1. rewrite !length_app, firstn_length_le, length_skipn
      by (unfold ETH_HLEN in Hlen; lia).
    cbn [length be16_bytes]. unfold ETH_HLEN in Hlen. lia. }
  (* the packet popped *)
  unfold pop_vlan in Hpop.
  unfold vlan_tx_tag_present at 1 in Hpop. cbn [vlan_tci] in Hpop.
  rewrite tag_present_lor in Hpop.
  unfold bind at 1 in Hpop. unfold ret at 1 in Hpop.
  cbv beta iota in Hpop.
  unfold no_inband_vlan at 1 in Hpop.
  unfold vlan_set_tci in Hpop.
  cbn [protocol vlan_proto with_vlan skb_len data] in Hpop.
  unfold skb_len in Hpop. cbn [data with_vlan] in Hpop.
  change (ETH_P_8021Q =? ETH_P_8021Q) with true in Hpop.
  destruct (Z.ltb_spec (Z.of_nat (length D1)) VLAN_ETH_HLEN) as [Hs|_];
    [unfold VLAN_ETH_HLEN, ETH_HLEN in *; lia|].
  cbn [negb orb] in Hpop.
  unfold __pop_vlan_tci, bind in Hpop.
  match type of Hpop with
  | context [make_writable ?s ?n w1] =>
      destruct (make_writable s n w1) as [e wb|]; [|discriminate]
  end.
  destruct (Z.eqb_spec e 0); cbn [negb] in Hpop; unfold ret in Hpop.
  2:{ cbv beta iota in Hpop. rewrite (proj2 (Z.eqb_neq e 0)) in Hpop
        by assumption.
      cbn [negb] in Hpop. injection Hpop as E _ _ _. contradiction. }
  cbn [Z.eqb negb] in Hpop. cbv beta in Hpop.
  assert (Q : data s2 = firstn 12 D1 ++ skipn 16 D1
              /\ mac_len s2 = u16 (ml + 4 - 4)
              /\ network_header s2 = nh + 4 + -4
              /\ transport_header s2 = th + 4 + -4
              /\ vlan_proto s2 = ETH_P_8021Q
              /\ vlan_tci s2
                 = Z.lor VLAN_TAG_PRESENT (u16 (get_be16 D1 14))
              /\ eth_type k2 = 0).
  { apply (f_equal (fun o : outcome mret =>
                      match o with
                      | Done (_, s, k) _ =>
                          (data s, mac_len s, network_header s,
                           transport_header s, vlan_proto s, vlan_tci s,
                           eth_type k)
                      | Fault _ => ([], 0, 0, 0, 0, 0, 0)
                      end)) in Hpop.
    lazy beta iota zeta delta
      [data mac_len network_header transport_header ip_summed csum protocol
       inner_protocol skb_id vlan_proto vlan_tci priority mark rxhash
       egress_tun_info shift_headers with_data with_csum with_protocol
       with_mac_len with_vlan __vlan_hwaccel_put_tag vlan_set_encap_proto
       is_complete eth_type invalidate_flow_key key_with_eth_type
       ETH_HLEN ETH_ALEN VLAN_HLEN]
      in Hpop.
    rewrite Hips in Hpop.
    change (Z.to_nat (2 * 6)) with 12%nat in Hpop.
    change (Z.to_nat (2 * 6 + 4)) with 16%nat in Hpop.
    change (14 + 0) with 14 in Hpop.
    destruct (_ <=? _) in Hpop;
      [|destruct (_ =? 65535) in Hpop];
      injection Hpop as E1 E2 E3 E4 E5 E6 E7;
      repeat split; symmetry; assumption. }
  clear Hpop.
  destruct Q as (Qd & Qm & Qn & Qt & Qp & Qv & Qk).
  unfold skb_len, skb_network_offset, skb_transport_offset, is_flow_key_valid,
    vlan_tx_tag_get.
  cbn [data mac_len network_header transport_header vlan_proto vlan_tci].
  rewrite Qd, Qm, Qn, Qt, Qp, Qv, Qk, Hk1, HD1.
  clear Qd Qm Qn Qt Qp Qv Qk.
  fold t0.
  pose proof (tci_in_field vt) as Ht0. fold t0 in Ht0.
  assert (G14 : get_be16 D1 14 = t0 /\ get_be16 D1 12 = ETH_P_8021Q
                /\ firstn 12 D1 ++ skipn 16 D1 = d).
  { unfold ETH_HLEN in Hlen.
    do 14 (destruct d as [|? d]; [cbn [length] in Hlen; lia|]).
    unfold D1. cbn [firstn skipn app].
    unfold get_be16, byte_at.
    change (Z.to_nat 14) with 14%nat. change (Z.to_nat (14 + 1)) with 15%nat.
    change (Z.to_nat 12) with 12%nat. change (Z.to_nat (12 + 1)) with 13%nat.
    cbn [nth be16_bytes app].
    split; [|split; [|reflexivity]].
    - pose proof (be16_value t0) as B. rewrite B.
      unfold u16. apply Z.mod_small. exact Ht0.
    - reflexivity. }
  destruct G14 as (G1 & G2 & G3).
  rewrite G1, G3.
  unfold ETH_HLEN, ETH_ALEN, VLAN_HLEN in *. change (2 * 6) with 12.
  rewrite G1, G2.
  replace (ml + 4 - 4) with ml by lia.
  assert (Hm : u16 ml = ml) by (unfold u16; apply Z.mod_small; lia).
  rewrite Hm.
  repeat split; try reflexivity; try lia.
  apply tci_round_trip; assumption.
Qed.

Lemma bytes_ok_tcp_packet : bytes_ok (data tcp_packet).
Proof. unfold bytes_ok. cbn. repeat constructor; lia. Qed.

Lemma bytes_ok_udp_packet : bytes_ok (data udp_packet).
Proof. unfold bytes_ok. cbn. repeat constructor; lia. Qed.

Lemma bytes_ok_ipv6_rh_packet : bytes_ok (data ipv6_rh_packet).
Proof. unfold bytes_ok. cbn. repeat constructor; lia. Qed.

(** A [RECIRC 5] that ends its list queues the packet itself; one with an
    action behind it queues a clone. *)
Lemma recirc_defers_clone_or_packet_witness :
  execute_recirc kernel0 datapath0 udp_packet key0
    (Nlattr 4 (OVS_ACTION_ATTR_RECIRC 5)) 5 8 world0
  = Done (0, udp_packet, key0)
      (with_fifo world0
         (fifo_after_put action_fifos_init
            {| da_skb := udp_packet; da_actions := None;
               da_pkt_key := key_with_recirc_id key0 5 |}))
  /\ execute_recirc kernel0 datapath0 udp_packet key0
       (Nlattr 4 (OVS_ACTION_ATTR_RECIRC 5)) 5 16 world0
     = Done (0, udp_packet, key0)
         (with_fifo (after_clone world0)
            (fifo_after_put action_fifos_init
               {| da_skb := with_id udp_packet 1; da_actions := None;
                  da_pkt_key := key_with_recirc_id key0 5 |})).
Proof.
  split.
  - exact (proj2 (recirc_defers_clone_or_packet kernel0 datapath0 udp_packet
                    key0 (Nlattr 4 (OVS_ACTION_ATTR_RECIRC 5)) 5 8 world0
                    udp_packet key0 eq_refl eq_refl fifo_wf_init eq_refl)
             eq_refl).
  - exact (proj1 (proj1 (recirc_defers_clone_or_packet kernel0 datapath0
                           udp_packet key0
                           (Nlattr 4 (OVS_ACTION_ATTR_RECIRC 5)) 5 16 world0
                           udp_packet key0 eq_refl eq_refl fifo_wf_init
                           eq_refl)
                    eq_refl world0) eq_refl).
Defined.

(** Ports 80 -> 81 rewritten to 8080 -> 443. *)
Lemma set_tcp_writes_ports_and_checksum_only_witness :
  exists skb' key' w',
    set_tcp tcp_packet key0 tcp_key0 world0 = Done (0, skb', key') w'
    /\ get_be16 (data skb') 34 = 8080
    /\ get_be16 (data skb') 36 = 443
    /\ tp_src key' = 8080
    /\ length (data skb') = length (data tcp_packet).
Proof.
  destruct (set_tcp tcp_packet key0 tcp_key0 world0)
    as [[[e s] k] w'|f] eqn:E; [|vm_compute in E; discriminate E].
  assert (He : e = 0)
    by (vm_compute in E; injection E as <- _ _ _; reflexivity).
  subst e. exists s, k, w'. split; [reflexivity|].
  pose proof (set_tcp_writes_ports_and_checksum_only tcp_packet key0 tcp_key0
                world0 s k w' ltac:(vm_compute; discriminate) E) as H.
  cbv zeta in H. destruct H as (H1 & H2 & H3 & _ & H5 & _).
  split; [exact H1|]. split; [exact H2|]. split; [exact H3|]. exact H5.
Defined.

(** A label pushed on the UDP packet and popped again with the Ethertype
    the packet had. *)
Lemma push_mpls_then_pop_mpls_restores_packet_witness :
  exists s1 k1 w1 s2 k2 w2,
    push_mpls udp_packet key0 mpls0 world0 = Done (0, s1, k1) w1
    /\ pop_mpls s1 k1 2048 w1 = Done (0, s2, k2) w2
    /\ get_be32 (data s1) 14 = 65856
    /\ get_be16 (data s1) 12 = 34887
    /\ data s2 = data udp_packet.
Proof.
  destruct (push_mpls udp_packet key0 mpls0 world0)
    as [[[e1 s1] k1] w1|f] eqn:E1; [|vm_compute in E1; discriminate E1].
  pose proof E1 as C1. vm_compute in C1. injection C1 as <- <- <- <-.
  match type of E1 with
  | _ = Done (_, ?s, ?k) ?w =>
      destruct (pop_mpls s k 2048 w) as [[[e2 s2] k2] w2|f] eqn:E2;
        [|vm_compute in E2; discriminate E2]
  end.
  assert (He : e2 = 0)
    by (vm_compute in E2; injection E2 as <- _ _ _; reflexivity).
  subst e2.
  pose proof (push_mpls_then_pop_mpls_restores_packet udp_packet key0 mpls0
                2048 world0 _ _ _ s2 k2 w2 eq_refl
                ltac:(vm_compute; discriminate) bytes_ok_udp_packet eq_refl
                E1 E2) as H.
  destruct H as ((H1 & H2 & _) & H3 & _).
  do 6 eexists. split; [exact E1|]. split; [exact E2|].
  split; [exact H1|]. split; [exact H2|]. exact (H3 eq_refl).
Defined.


(** Both Ethernet addresses of the UDP packet rewritten. *)
Lemma set_eth_addr_writes_both_addresses_witness :
  exists skb' key' w',
    set_eth_addr udp_packet key0 eth_key0 world0 = Done (0, skb', key') w'
    /\ byte_at (data skb') 5 = 8
    /\ byte_at (data skb') 11 = 9
    /\ byte_at (data skb') 12 = 8
    /\ eth_src key' = [2; 0; 0; 0; 0; 9].
Proof.
  destruct (set_eth_addr udp_packet key0 eth_key0 world0)
    as [[[e s] k] w'|f] eqn:E; [|vm_compute in E; discriminate E].
  assert (He : e = 0)
    by (vm_compute in E; injection E as <- _ _ _; reflexivity).
  subst e. exists s, k, w'. split; [reflexivity|].
  pose proof (set_eth_addr_writes_both_addresses udp_packet key0 eth_key0
                world0 s k w' E) as H.
  destruct H as (H1 & H2 & H3 & _ & H5 & _).
  split; [exact (H1 5 ltac:(vm_compute; split; [discriminate|reflexivity]))|].
  split; [exact (H2 11 ltac:(vm_compute; split; [discriminate|reflexivity]))|].
  split; [exact (H3 12 ltac:(vm_compute; discriminate))|]. exact H5.
Defined.

(** A tag pushed on the untagged UDP packet and popped again. *)
Lemma vlan_hwaccel_push_then_pop_witness :
  exists s1 k1 s2 k2,
    push_vlan udp_packet key0 vlan0 world0 = Done (0, s1, k1) world0
    /\ vlan_tx_tag_present s1 = true
    /\ eth_tci k1 = 4196
    /\ pop_vlan s1 k1 world0 = Done (0, s2, k2) world0
    /\ data s2 = data udp_packet
    /\ vlan_tx_tag_present s2 = false.
Proof.
  destruct (vlan_hwaccel_push_then_pop udp_packet key0 vlan0 world0 eq_refl)
    as (s1 & k1 & E1 & _ & T1 & _ & C1 & H).
  destruct (H eq_refl) as (s2 & k2 & E2 & D2 & T2 & _).
  exists s1, k1, s2, k2. repeat split; assumption.
Defined.

(** The TCP packet's header checksum is correct and stays so when the TTL
    goes from 64 to 63. *)
Lemma set_ip_ttl_keeps_header_checksum_witness :
  ip_header_sum (data tcp_packet) 14 mod 65535 = 0
  /\ ip_header_sum (data (set_ip_ttl tcp_packet 14 63)) 14 mod 65535 = 0
  /\ get_u8 (data (set_ip_ttl tcp_packet 14 63)) (14 + iph_ttl) = 63.
Proof.
  pose proof (set_ip_ttl_keeps_header_checksum tcp_packet 14 63
                bytes_ok_tcp_packet ltac:(vm_compute; discriminate)
                ltac:(vm_compute; discriminate)) as H.
  cbv zeta in H. destruct H as (_ & Hv & Ht & _).
  split; [reflexivity|]. split; [exact (Hv eq_refl) | exact Ht].
Defined.

(** ... and when the source address becomes 10.0.0.9. *)
Lemma set_ip_addr_keeps_header_checksum_witness :
  ip_header_sum (data (set_ip_addr tcp_packet 14 (14 + iph_saddr) 167772169))
    14 mod 65535 = 0
  /\ get_be32 (data (set_ip_addr tcp_packet 14 (14 + iph_saddr) 167772169))
       (14 + iph_saddr) = 167772169.
Proof.
  pose proof (set_ip_addr_keeps_header_checksum tcp_packet 14
                (14 + iph_saddr) 167772169
                bytes_ok_tcp_packet ltac:(vm_compute; discriminate)
                ltac:(vm_compute; discriminate)
                ltac:(vm_compute; discriminate) (or_introl eq_refl)) as H.
  cbv zeta in H. destruct H as (_ & Hv & Ha & _).
  split; [exact (Hv eq_refl) | exact Ha].
Defined.

(** ... and when the type of service becomes 16. *)
Lemma ipv4_change_dsfield_keeps_header_checksum_witness :
  ip_header_sum (data (ipv4_change_dsfield tcp_packet 14 0 16)) 14 mod 65535
  = 0
  /\ get_u8 (data (ipv4_change_dsfield tcp_packet 14 0 16)) (14 + iph_tos)
     = 16.
Proof.
  pose proof (ipv4_change_dsfield_keeps_header_checksum tcp_packet 14 16
                bytes_ok_tcp_packet ltac:(vm_compute; discriminate)
                ltac:(vm_compute; discriminate)) as H.
  cbv zeta in H. destruct H as (_ & Hv & Ht & _).
  split; [exact (Hv eq_refl) | exact Ht].
Defined.

(** A flow that recirculates for ever, run from the outermost call: the run
    ends, with the packet freed and the FIFO reset. *)
Lemma self_recirculation_is_cut_by_the_fifo_witness :
  exists w',
    ovs_execute_actions kernel0 3 datapath_recirc udp_packet key0
      (recirc_to 5) world0 = Done 0 w'
    /\ trace w' = [EvFree udp_packet]
    /\ exec_actions_level w' = 0
    /\ head (action_fifos w') = 0
    /\ tail (action_fifos w') = 0.
Proof.
  exact (self_recirculation_is_cut_by_the_fifo kernel0 datapath_recirc 5
           (fun _ => eq_refl) 3%nat udp_packet key0 world0
           (le_S _ _ (le_n 2)) eq_refl eq_refl fifo_wf_init eq_refl).
Defined.

(** Twelve entries offered to the empty FIFO: the first nine come out, in
    the order they went in. *)
Lemma deferred_fifo_is_first_in_first_out_witness :
  exists n w',
    enqueue_all twelve_entries world0 = Done n w'
    /\ fifo_take_all 10 (action_fifos w') = firstn 9 twelve_entries.
Proof.
  exact (deferred_fifo_is_first_in_first_out twelve_entries world0
           fifo_wf_init eq_refl).
Defined.

(** Addresses, type of service and TTL of the TCP packet rewritten: the
    header checksum is still correct. *)
Lemma set_ipv4_writes_fields_and_keeps_checksum_witness :
  exists skb' key' w',
    set_ipv4 tcp_packet key0 ipv4_key0 world0 = Done (0, skb', key') w'
    /\ get_be32 (data skb') (14 + iph_saddr) = 167772169
    /\ get_be32 (data skb') (14 + iph_daddr) = 167772168
    /\ get_u8 (data skb') (14 + iph_tos) = 16
    /\ get_u8 (data skb') (14 + iph_ttl) = 63
    /\ ip_header_sum (data skb') 14 mod 65535 = 0.
Proof.
  destruct (set_ipv4 tcp_packet key0 ipv4_key0 world0)
    as [[[e s] k] w'|f] eqn:E; [|vm_compute in E; discriminate E].
  assert (He : e = 0)
    by (vm_compute in E; injection E as <- _ _ _; reflexivity).
  subst e. exists s, k, w'. split; [reflexivity|].
  pose proof (set_ipv4_writes_fields_and_keeps_checksum tcp_packet key0
                ipv4_key0 world0 s k w' bytes_ok_tcp_packet
                ltac:(vm_compute; discriminate)
                ltac:(vm_compute; discriminate)
                ltac:(vm_compute; discriminate) E) as H.
  cbv zeta in H. destruct H as (H1 & H2 & H3 & H4 & _ & H6 & _).
  split; [exact H1|]. split; [exact H2|]. split; [exact H3|].
  split; [exact H4|]. exact (H6 eq_refl).
Defined.

(** Traffic class 184 and flow label 0x12345 written to the IPv6 packet. *)
Lemma ipv6_traffic_class_and_flow_label_read_back_witness :
  ipv6_get_dsfield (set_ipv6_tc ipv6_rh_packet 14 184) 14 = 184
  /\ Z.land (get_be32 (data (set_ipv6_fl ipv6_rh_packet 14 74565)) 14)
       IPV6_FLOWINFO_FLOWLABEL = 74565
  /\ ipv6_get_dsfield (set_ipv6_fl ipv6_rh_packet 14 74565) 14
     = ipv6_get_dsfield ipv6_rh_packet 14.
Proof.
  pose proof (ipv6_traffic_class_and_flow_label_read_back ipv6_rh_packet 14
                bytes_ok_ipv6_rh_packet ltac:(vm_compute; discriminate)
                ltac:(vm_compute; discriminate)) as [Ht Hf].
  destruct (Ht 184) as (H1 & _). destruct (Hf 74565) as (H2 & H3 & _).
  split; [exact H1|]. split; [exact H2 | exact H3].
Defined.

(** The deferred list [OUTPUT 3; SET priority; OUTPUT 4] sends to port 3
    only. *)
Lemma deferred_list_runs_first_attribute_only_witness :
  exists w',
    run_deferred_action kernel0 exec0 datapath0 world_pending = Done tt w'
    /\ trace w' = [EvSend 3 udp_packet].
Proof.
  pose proof (proj2 (proj2 (deferred_list_runs_first_attribute_only kernel0
                              exec0 datapath0 udp_packet key0
                              (Nlattr 4 (OVS_ACTION_ATTR_OUTPUT 3))
                              (tl staged_actions) world0))
                world_pending ltac:(vm_compute; discriminate) eq_refl) as H.
  rewrite H. vm_compute. eexists. split; reflexivity.
Defined.

(** The same failing upcall, from a [USERSPACE] action and from a [SAMPLE]
    whose list is that action. *)
Lemma userspace_error_dropped_sample_error_returned_witness :
  (exists u,
     dispatch_action kernel0 datapath_nobufs udp_packet key0 userspace0 4
       world0
     = Done (Next (-1) udp_packet key0)
         (after_event world0 (EvUpcall udp_packet key0 u)))
  /\ (exists u,
        dispatch_action kernel0 datapath_nobufs udp_packet key0 sample0 12
          world0
        = Done (Return (-105))
            (after_event (after_event world0 (EvUpcall udp_packet key0 u))
               (EvFree udp_packet))).
Proof.
  split.
  - destruct (proj1 (userspace_error_dropped_sample_error_returned kernel0
                       datapath_nobufs udp_packet key0 userspace0 4 world0)
                [] eq_refl) as (u & E & _).
    exists u. exact E.
  - exact (proj2 (userspace_error_dropped_sample_error_returned kernel0
                    datapath_nobufs udp_packet key0 sample0 12 world0)
             _ userspace0 [] world0 (-105) eq_refl eq_refl eq_refl eq_refl
             (fun _ => eq_refl) ltac:(discriminate)).
Defined.

(** A draw of 7 against the probability 5: the packet is not sampled. *)
Lemma sample_probability_and_fast_path_witness :
  sample datapath0 udp_packet key0
    [OVS_SAMPLE_ATTR_PROBABILITY 5; OVS_SAMPLE_ATTR_ACTIONS [userspace0]]
    (with_prandom world0 [7])
  = Done 0 world0
  /\ (exists u,
        sample datapath0 udp_packet key0
          [OVS_SAMPLE_ATTR_ACTIONS [userspace0]] world0
        = Done 0 (after_event world0 (EvUpcall udp_packet key0 u))).
Proof.
  split.
  - exact (proj1 (sample_probability_and_fast_path datapath0 udp_packet key0)
             5 _ 7 [] (with_prandom world0 [7]) eq_refl
             ltac:(vm_compute; discriminate)).
  - exact (proj1 (proj2 (sample_probability_and_fast_path datapath0
                           udp_packet key0))
             [OVS_SAMPLE_ATTR_ACTIONS [userspace0]] userspace0 [] world0
             world0 eq_refl eq_refl eq_refl).
Defined.

(** [POP_MPLS] on a packet with no room for a label stack entry fails and
    leaves packet and key as they were; on the MPLS packet it succeeds and
    the key is invalid afterwards. *)
Lemma mpls_mutators_invalidate_key_or_fail_clean_witness :
  pop_mpls da_zero_skb key0 2048 world0
  = Done (- ENOMEM, da_zero_skb, key0) world0
  /\ (exists skb' key' w',
        pop_mpls mpls_packet key0 2048 world0 = Done (0, skb', key') w'
        /\ is_flow_key_valid key' = false).
Proof.
  split.
  - exact (proj2 (proj2 (mpls_mutators_invalidate_key_or_fail_clean
                           da_zero_skb key0 world0))
             2048 eq_refl).
  - destruct (pop_mpls mpls_packet key0 2048 world0)
      as [[[e s] k] w'|f] eqn:E; [|vm_compute in E; discriminate E].
    assert (He : e = 0)
      by (vm_compute in E; injection E as <- _ _ _; reflexivity).
    subst e. exists s, k, w'. split; [reflexivity|].
    destruct (proj1 (proj2 (mpls_mutators_invalidate_key_or_fail_clean
                              mpls_packet key0 world0))
                2048 0 s k w' E) as [[_ Hv] | [He _]].
    + exact Hv.
    + vm_compute in He. discriminate He.
Defined.

(** A second tag pushed on the tagged packet and popped again. *)
Lemma push_vlan_on_tagged_then_pop_vlan_restores_packet_witness :
  exists s1 k1 w1 s2 k2 w2,
    push_vlan tagged_packet key0 vlan0 world0 = Done (0, s1, k1) w1
    /\ pop_vlan s1 k1 w1 = Done (0, s2, k2) w2
    /\ get_be16 (data s1) 12 = 33024
    /\ get_be16 (data s1) 14 = 100
    /\ data s2 = data tagged_packet
    /\ vlan_tci s2 = 4196.
Proof.
  destruct (push_vlan tagged_packet key0 vlan0 world0)
    as [[[e1 s1] k1] w1|f] eqn:E1; [|vm_compute in E1; discriminate E1].
  pose proof E1 as C1. vm_compute in C1. injection C1 as <- <- <- <-.
  match type of E1 with
  | _ = Done (_, ?s, ?k) ?w =>
      destruct (pop_vlan s k w) as [[[e2 s2] k2] w2|f] eqn:E2;
        [|vm_compute in E2; discriminate E2]
  end.
  assert (He : e2 = 0)
    by (vm_compute in E2; injection E2 as <- _ _ _; reflexivity).
  subst e2.
  pose proof (push_vlan_on_tagged_then_pop_vlan_restores_packet tagged_packet
                key0 vlan0 world0 _ _ _ s2 k2 w2 eq_refl eq_refl
                ltac:(vm_compute; split; [discriminate|reflexivity])
                ltac:(vm_compute; discriminate)
                ltac:(vm_compute; split; [discriminate|reflexivity])
                eq_refl E1 E2) as H.
  destruct H as ((H1 & H2 & _) & H3 & H4 & _).
  do 6 eexists. split; [exact E1|]. split; [exact E2|].
  split; [exact H1|]. split; [exact H2|]. split; [exact H3 | exact H4].
Defined.
